(** * ISM to NIST control-mapping engine: a shallow embedding and its properties

    The development follows the TypeScript backend of the repository:
    [OllamaService] (response parsing, per-control analysis, batch loop),
    [ControlService] (the catalog store), [MappingEngine] (jobs, mapping
    state, results queue, manual overrides, statistics) and [ReportService]
    (summary statistics).

    Modelling conventions.
    - A JavaScript [number] is a rational ([Q]); rounding of doubles, NaN and
      the infinities are outside the model.  Array lengths and counters are
      integers ([nat] or [Z]).
    - A JavaScript string is a [string] of bytes; [toUpperCase], [toLowerCase]
      and [trim] act on the ASCII letters and the ASCII white space.  On a
      text of ASCII characters ([Js.isAscii]) they are the methods of
      JavaScript; a statement that rests on a law of the case maps is made
      for such texts.
    - A [Date] is its number of milliseconds ([Z]); every clock read is an
      argument of the operation that performs it.
    - An exception is the left summand of ExtLib's error monad; [try]/[catch]
      is [catch].
    - A [Map] is an association list in insertion order ([JsMap]).
    - The HTTP transport and [JSON.parse] are not code of the repository: the
      transport's answers are arguments, [JSON.parse] is a section variable.
    - An object that the program holds in several places (an entry in the
      mapping state, in its job and in a queue item) is a value in each place
      here; no statement below relates such places after a mutation.

    After the services come the rest of [ControlService] (the queries),
    [OSCALParser] (from the catalog document to flat controls), the filters
    and CSV values of [ReportService], the checks of [MappingController] in
    front of the engine, and the sample of controls in the analyzer's
    prompt. *)

From Stdlib Require Import String Ascii List Bool Arith ZArith QArith Qround Qminmax Lia.
From Stdlib Require Import Sorted Permutation.
From ExtLib Require Import Structures.Monad Structures.MonadExc Data.Monads.EitherMonad.
Import ListNotations.
Import MonadNotation.

Close Scope Q_scope.
Local Open Scope string_scope.
Local Open Scope list_scope.
Local Open Scope monad_scope.

(** ** The JavaScript runtime, as far as the program uses it *)
Module Js.

(** Thrown values: [new Error(msg)], and the runtime's own [TypeError]
    and [SyntaxError]. *)
Inductive JsError : Type :=
| Error (message : string)
| TypeError
| SyntaxError.

(** The error's [message] property ([error instanceof Error ? error.message : ...]). *)
Definition message_of (e : JsError) : string :=
  match e with
  | Error m => m
  | TypeError => "TypeError"
  | SyntaxError => "SyntaxError"
  end.

(** A computation that returns normally ([inr]) or throws ([inl]). *)
Abbreviation Completion := (sum JsError).

(** Values as [JSON.parse] builds them, plus [undefined] for an absent
    property.  An object is the list of its own properties. *)
#[local] Unset Elimination Schemes.
Inductive JsValue : Type :=
| JUndefined
| JNull
| JBool (b : bool)
| JNumber (q : Q)
| JString (s : string)
| JArray (elements : list JsValue)
| JObject (fields : list (string * JsValue)).
#[local] Set Elimination Schemes.

Fixpoint lookupField (name : string) (fields : list (string * JsValue)) : JsValue :=
  match fields with
  | [] => JUndefined
  | (k, v) :: rest => if String.eqb k name then v else lookupField name rest
  end.

(** [v.name], for the property names this program reads ([mappings],
    [nistControlId], [confidence], [reasoning]), none of which a built-in
    prototype defines: reading a property of [null] or [undefined] throws,
    a primitive or an array has no such property. *)
Definition getProp (v : JsValue) (name : string) : Completion JsValue :=
  match v with
  | JUndefined | JNull => raise TypeError
  | JObject fields => ret (lookupField name fields)
  | _ => ret JUndefined
  end.

(** [!!v] *)
Definition truthy (v : JsValue) : bool :=
  match v with
  | JUndefined | JNull => false
  | JBool b => b
  | JNumber q => negb (Qeq_bool q 0)
  | JString s => negb (String.eqb s "")
  | JArray _ | JObject _ => true
  end.

(** [typeof v === 'number'] *)
Definition isNumber (v : JsValue) : bool :=
  match v with JNumber _ => true | _ => false end.

(** [Math.min], [Math.max] and [Math.round] on rationals. *)
Definition Math_min (a b : Q) : Q := Qmin a b.
Definition Math_max (a b : Q) : Q := Qmax a b.
Definition Math_round (x : Q) : Z := Qfloor (x + (1 # 2)).

(** *** Strings *)

Fixpoint mapString (f : ascii -> ascii) (s : string) : string :=
  match s with
  | EmptyString => EmptyString
  | String c rest => String (f c) (mapString f rest)
  end.

Definition isLowerAscii (c : ascii) : bool :=
  let n := nat_of_ascii c in (97 <=? n)%nat && (n <=? 122)%nat.

Definition isUpperAscii (c : ascii) : bool :=
  let n := nat_of_ascii c in (65 <=? n)%nat && (n <=? 90)%nat.

Definition upcase (c : ascii) : ascii :=
  if isLowerAscii c then ascii_of_nat (nat_of_ascii c - 32) else c.

Definition downcase (c : ascii) : ascii :=
  if isUpperAscii c then ascii_of_nat (nat_of_ascii c + 32) else c.

(** [toUpperCase] and [toLowerCase] on the ASCII letters; every other byte
    stays as it is.  The methods of JavaScript also map the letters outside
    ASCII, some of them to several characters, so that the two definitions
    are the methods on the texts that [isAscii] accepts and on no others. *)
Definition toUpperCase (s : string) : string := mapString upcase s.
Definition toLowerCase (s : string) : string := mapString downcase s.

(** A text of ASCII characters: every byte is below 128. *)
Definition isAsciiChar (c : ascii) : bool := (nat_of_ascii c <? 128)%nat.

Fixpoint isAscii (s : string) : bool :=
  match s with
  | EmptyString => true
  | String c rest => isAsciiChar c && isAscii rest
  end.

(** Tab, line feed, vertical tab, form feed, carriage return, space. *)
Definition isWhiteSpace (c : ascii) : bool :=
  let n := nat_of_ascii c in ((9 <=? n)%nat && (n <=? 13)%nat) || (n =? 32)%nat.

Fixpoint trimStart (s : string) : string :=
  match s with
  | EmptyString => EmptyString
  | String c rest => if isWhiteSpace c then trimStart rest else s
  end.

Fixpoint trimEnd (s : string) : string :=
  match s with
  | EmptyString => EmptyString
  | String c rest =>
      match trimEnd rest with
      | EmptyString => if isWhiteSpace c then EmptyString else String c EmptyString
      | t => String c t
      end
  end.

Definition trim (s : string) : string := trimEnd (trimStart s).

(** *** The regular expression [/\{[\s\S]*\}/]

    The match starts at the first opening brace and, the star being greedy,
    ends at the last closing brace after it; there is no match when no
    closing brace follows the first opening one. *)

Fixpoint fromFirstOpen (s : string) : option string :=
  match s with
  | EmptyString => None
  | String c rest => if Ascii.eqb c "{" then Some s else fromFirstOpen rest
  end.

Fixpoint upToLastClose (s : string) : option string :=
  match s with
  | EmptyString => None
  | String c rest =>
      match upToLastClose rest with
      | Some t => Some (String c t)
      | None => if Ascii.eqb c "}" then Some (String c EmptyString) else None
      end
  end.

(** [content.match(/\{[\s\S]*\}/)], giving [jsonMatch[0]]. *)
Definition matchBraces (content : string) : option string :=
  match fromFirstOpen content with
  | None => None
  | Some s => upToLastClose s
  end.

(** [Array.prototype.map] with a callback that may throw: the elements are
    visited in order and the first throw ends the loop. *)
Fixpoint mapM {A B : Type} (f : A -> Completion B) (l : list A) : Completion (list B) :=
  match l with
  | [] => ret []
  | x :: rest => y <- f x ;; ys <- mapM f rest ;; ret (y :: ys)
  end.

End Js.

(** ** [Map]: an association list in insertion order *)
Module JsMap.

Definition t (V : Type) : Type := list (string * V).

Definition empty {V : Type} : t V := [].

Fixpoint get {V : Type} (k : string) (m : t V) : option V :=
  match m with
  | [] => None
  | (k', v) :: rest => if String.eqb k' k then Some v else get k rest
  end.

(** [m.set(k, v)]: an existing key keeps its place, a new key goes last. *)
Fixpoint set {V : Type} (k : string) (v : V) (m : t V) : t V :=
  match m with
  | [] => [(k, v)]
  | (k', v') :: rest =>
      if String.eqb k' k then (k, v) :: rest else (k', v') :: set k v rest
  end.

Definition has {V : Type} (k : string) (m : t V) : bool :=
  match get k m with Some _ => true | None => false end.

(** [Array.from(m.values())] *)
Definition values {V : Type} (m : t V) : list V := map snd m.

Definition keys {V : Type} (m : t V) : list string := map fst m.

Definition size {V : Type} (m : t V) : nat := length m.

End JsMap.

(** ** models/Control.ts and services/ControlService.ts: the catalog store *)
Module ControlService.
Import Js.

Inductive RiskLevel : Type := LOW | MEDIUM | HIGH.

(** The OSCAL payload fields [parts] and [properties] are carried along by
    the program and never read by the services below; the records keep
    the fields that are read. *)
Record ISMControl : Type := {
  ism_id : string;
  ism_title : string;
  ism_description : string;
  implementationGuidance : string;
  controlFamily : string;
  riskLevel : RiskLevel
}.

Record NISTControl : Type := {
  nist_id : string;
  nist_title : string;
  nist_description : string;
  family : string;
  class : string
}.

Record ControlLoadingStatus : Type := {
  isLoading : bool;
  ismControlsLoaded : bool;
  nistControlsLoaded : bool;
  ismControlCount : nat;
  nistControlCount : nat;
  lastLoadTime : option Z;
  error : option string
}.

Record t : Type := {
  ismControls : list ISMControl;
  nistControls : list NISTControl;
  loadingStatus : ControlLoadingStatus
}.

Definition initialStatus : ControlLoadingStatus :=
  {| isLoading := false; ismControlsLoaded := false; nistControlsLoaded := false;
     ismControlCount := 0; nistControlCount := 0; lastLoadTime := None; error := None |}.

Definition initial : t :=
  {| ismControls := []; nistControls := []; loadingStatus := initialStatus |}.

Definition withStatus (f : ControlLoadingStatus -> ControlLoadingStatus) (cs : t) : t :=
  {| ismControls := ismControls cs; nistControls := nistControls cs;
     loadingStatus := f (loadingStatus cs) |}.

(** [loadISMControls]; [loaded] is what [oscalParser.loadISMControls()]
    resolved to, or what it threw. *)
Definition loadISMControls (loaded : Completion (list ISMControl)) (cs : t) : Completion unit * t :=
  match loaded with
  | inr controls =>
      (inr tt,
       {| ismControls := controls; nistControls := nistControls cs;
          loadingStatus :=
            let st := loadingStatus cs in
            {| isLoading := isLoading st; ismControlsLoaded := true;
               nistControlsLoaded := nistControlsLoaded st;
               ismControlCount := length controls;
               nistControlCount := nistControlCount st;
               lastLoadTime := lastLoadTime st; error := error st |} |})
  | inl e =>
      (inl e,
       withStatus (fun st =>
         {| isLoading := isLoading st; ismControlsLoaded := false;
            nistControlsLoaded := nistControlsLoaded st;
            ismControlCount := 0;
            nistControlCount := nistControlCount st;
            lastLoadTime := lastLoadTime st; error := error st |}) cs)
  end.

Definition loadNISTControls (loaded : Completion (list NISTControl)) (cs : t) : Completion unit * t :=
  match loaded with
  | inr controls =>
      (inr tt,
       {| ismControls := ismControls cs; nistControls := controls;
          loadingStatus :=
            let st := loadingStatus cs in
            {| isLoading := isLoading st; ismControlsLoaded := ismControlsLoaded st;
               nistControlsLoaded := true;
               ismControlCount := ismControlCount st;
               nistControlCount := length controls;
               lastLoadTime := lastLoadTime st; error := error st |} |})
  | inl e =>
      (inl e,
       withStatus (fun st =>
         {| isLoading := isLoading st; ismControlsLoaded := ismControlsLoaded st;
            nistControlsLoaded := false;
            ismControlCount := ismControlCount st;
            nistControlCount := 0;
            lastLoadTime := lastLoadTime st; error := error st |}) cs)
  end.

Definition setLoading (b : bool) (err : option string) (time : option Z) : t -> t :=
  withStatus (fun st =>
    {| isLoading := b; ismControlsLoaded := ismControlsLoaded st;
       nistControlsLoaded := nistControlsLoaded st;
       ismControlCount := ismControlCount st;
       nistControlCount := nistControlCount st;
       lastLoadTime := match time with Some _ => time | None => lastLoadTime st end;
       error := err |}).

(** [loadAllControls]: guard, both loads, and the [finally] that lowers
    the guard whatever happened. *)
Definition loadAllControls
    (loadedISM : Completion (list ISMControl))
    (loadedNIST : Completion (list NISTControl))
    (now : Z) (cs : t) : Completion unit * t :=
  if isLoading (loadingStatus cs) then
    (inl (Error "Controls are already being loaded"), cs)
  else
    let cs0 := setLoading true None None cs in
    match loadISMControls loadedISM cs0 with
    | (inl e, cs1) => (inl e, setLoading false (Some (message_of e)) None cs1)
    | (inr _, cs1) =>
        match loadNISTControls loadedNIST cs1 with
        | (inl e, cs2) => (inl e, setLoading false (Some (message_of e)) None cs2)
        | (inr _, cs2) =>
            (inr tt, setLoading false (error (loadingStatus cs2)) (Some now) cs2)
        end
    end.

Definition getISMControls (cs : t) : list ISMControl := ismControls cs.
Definition getNISTControls (cs : t) : list NISTControl := nistControls cs.

Definition getISMControlById (id : string) (cs : t) : option ISMControl :=
  find (fun control => String.eqb (ism_id control) id) (ismControls cs).

Definition getNISTControlById (id : string) (cs : t) : option NISTControl :=
  find (fun control => String.eqb (nist_id control) id) (nistControls cs).

Definition isReady (cs : t) : bool :=
  ismControlsLoaded (loadingStatus cs) && nistControlsLoaded (loadingStatus cs).

Definition reset (cs : t) : t := initial.

End ControlService.

(** ** services/OllamaService.ts: the correspondence analyzer and the batch loop *)
Module OllamaService.
Import Js.

Record ControlMapping : Type := {
  nistControlId : string;
  confidence : Q;
  (** Declared [string]; at run time whatever truthy value the response
      carried, see [parseMapping]. *)
  reasoning : JsValue
}.

Record MappingAnalysisResult : Type := {
  mappings : list ControlMapping;
  processingTime : Q;
  model : string;
  timestamp : Z
}.

(** The service's configuration after the constructor's defaults.  The
    counters [requestCount] and [lastRequestTime] are read by [getStats]
    only and are left out. *)
Record OllamaConfig : Type := {
  baseUrl : string;
  config_model : string;
  timeout : Z
}.

Definition defaultConfig : OllamaConfig :=
  {| baseUrl := "http://localhost:11434"; config_model := "llama3.1"; timeout := 180000 |}.

(** [normalizeNistControlId]: [controlId.toUpperCase().trim()].  Called on
    a value that is not a string, the method lookup fails with a
    [TypeError]. *)
Definition normalizeNistControlId (controlId : JsValue) : Completion string :=
  match controlId with
  | JString s => ret (trim (toUpperCase s))
  | _ => raise TypeError
  end.

(** [Math.max(0, Math.min(100, c))] *)
Definition clampConfidence (c : Q) : Q := Math_max 0 (Math_min 100 c).

Definition invalidMapping : JsError :=
  Error "Invalid mapping format: missing required fields".

(** The callback of [parsed.mappings.map]. *)
Definition parseMapping (mapping : JsValue) : Completion ControlMapping :=
  id <- getProp mapping "nistControlId" ;;
  if negb (truthy id) then raise invalidMapping
  else
    conf <- getProp mapping "confidence" ;;
    match conf with
    | JNumber c =>
        why <- getProp mapping "reasoning" ;;
        if negb (truthy why) then raise invalidMapping
        else
          nid <- normalizeNistControlId id ;;
          ret {| nistControlId := nid;
                 confidence := clampConfidence c;
                 reasoning := why |}
    | _ => raise invalidMapping
    end.

(** The steps after [JSON.parse]: the [mappings] check and the map. *)
Definition parseParsed (parsed : JsValue) : Completion (list ControlMapping) :=
  ms <- getProp parsed "mappings" ;;
  if negb (truthy ms) then
    raise (Error "Invalid response format: missing mappings array")
  else
    match ms with
    | JArray elements => mapM parseMapping elements
    | _ => raise (Error "Invalid response format: missing mappings array")
    end.

Definition fallbackReasoning : string :=
  "Automated mapping failed - manual review required. Raw response parsing error.".

(** The [catch] block of [parseResponse]. *)
Definition fallback : Completion (list ControlMapping) :=
  nid <- normalizeNistControlId (JString "AC-1") ;;
  ret [ {| nistControlId := nid; confidence := 50; reasoning := JString fallbackReasoning |} ].

(** What the transport did for one request. *)
Inductive AxiosOutcome : Type :=
| AxiosThrows (e : JsError)
(** [response.data.response], [None] when [data] or the field is absent. *)
| AxiosResponds (response : option string).

(** The world's answers during one [analyzeControlMapping] call: the
    two [Date.now()] reads around the request, the request's outcome,
    and the [new Date()] of the result. *)
Record CallEnv : Type := {
  startTime : Z;
  transport : AxiosOutcome;
  responseTime : Z;
  resultTime : Z
}.

Definition post (w : CallEnv) : Completion (option string) :=
  match transport w with
  | AxiosThrows e => raise e
  | AxiosResponds r => ret r
  end.

Section Parser.

(** [JSON.parse]: the parsed value, or [None] where it throws a
    [SyntaxError]. *)
Variable JSON_parse : string -> option JsValue.

(** The [try] block of [parseResponse]. *)
Definition parseResponse_try (content : string) : Completion (list ControlMapping) :=
  match matchBraces content with
  | None => raise (Error "No JSON found in response")
  | Some json =>
      match JSON_parse json with
      | None => raise SyntaxError
      | Some parsed => parseParsed parsed
      end
  end.

Definition parseResponse (content : string) : Completion (list ControlMapping) :=
  catch (parseResponse_try content) (fun _ => fallback).

(** [analyzeControlMapping].  The prompt built from the two arguments
    goes to the transport only, whose answer is [w]. *)
Definition analyzeControlMapping (config : OllamaConfig)
    (ismControl : ControlService.ISMControl)
    (nistControls : list ControlService.NISTControl)
    (w : CallEnv) : Completion MappingAnalysisResult :=
  catch
    (response <- post w ;;
     let elapsed := inject_Z (responseTime w - startTime w) in
     match response with
     | None => raise (Error "No response from Ollama")
     | Some content =>
         if String.eqb content "" then raise (Error "No response from Ollama")
         else
           ms <- parseResponse content ;;
           ret {| mappings := ms; processingTime := elapsed;
                  model := config_model config; timestamp := resultTime w |}
     end)
    (fun e => raise (Error ("Ollama analysis failed: " ++ message_of e))).

(** [batchAnalyzeControls], with [concurrency = 1]: every window holds one
    control, so the controls are analysed one after the other; [world i]
    answers the i-th call.  [onProgress] acts on the caller's state [St].
    [completed] and [results] are the loop's variables. *)
Fixpoint batchLoop {St : Type}
    (config : OllamaConfig)
    (nistControls : list ControlService.NISTControl)
    (onProgress : nat -> nat -> option (string * MappingAnalysisResult) -> St -> St)
    (total : nat)
    (world : nat -> CallEnv)
    (ismControls : list ControlService.ISMControl)
    (completed : nat)
    (results : JsMap.t MappingAnalysisResult)
    (st : St) : JsMap.t MappingAnalysisResult * St :=
  match ismControls with
  | [] => (results, st)
  | control :: rest =>
      let outcome := analyzeControlMapping config control nistControls (world completed) in
      let completed' := S completed in
      match outcome with
      | inr result =>
          let id := ControlService.ism_id control in
          batchLoop config nistControls onProgress total world rest completed'
            (JsMap.set id result results)
            (onProgress completed' total (Some (id, result)) st)
      | inl _ =>
          batchLoop config nistControls onProgress total world rest completed'
            results
            (onProgress completed' total None st)
      end
  end.

Definition batchAnalyzeControls {St : Type}
    (config : OllamaConfig)
    (ismControls : list ControlService.ISMControl)
    (nistControls : list ControlService.NISTControl)
    (onProgress : nat -> nat -> option (string * MappingAnalysisResult) -> St -> St)
    (world : nat -> CallEnv)
    (st : St) : JsMap.t MappingAnalysisResult * St :=
  batchLoop config nistControls onProgress (length ismControls) world
    ismControls 0 JsMap.empty st.

End Parser.

End OllamaService.

(** ** services/MappingEngine.ts: jobs, mapping state, results queue *)
Module MappingEngine.
Import Js.

Record NistMapping : Type := {
  nistControlId : string;
  nistTitle : string;
  nistDescription : string;
  confidence : Q;
  reasoning : JsValue;
  isManualOverride : bool
}.

Record MappingResult : Type := {
  ismControlId : string;
  nistMappings : list NistMapping;
  processingTimestamp : Z;
  aiModel : string;
  processingTime : Q
}.

Inductive JobStatus : Type := queued | processing | completed | failed.

Record ProcessingJob : Type := {
  id : string;
  status : JobStatus;
  progress : Z;
  totalControls : nat;
  processedControls : nat;
  startTime : Z;
  endTime : option Z;
  error : option string;
  results : JsMap.t MappingResult
}.

Record ProcessingMetadata : Type := {
  totalISMControls : Z;
  metadata_processedControls : Z;
  averageConfidence : Q;
  highConfidenceMappings : nat;
  unmappedControls : Z;
  processingStartTime : Z;
  processingEndTime : option Z;
  totalProcessingTime : Q
}.

Record QueueItem : Type := {
  jobId : string;
  result : MappingResult;
  queue_timestamp : Z
}.

(** The engine's fields.  The catalog store is a singleton of its own:
    every operation that reads it takes its current state [cs]. *)
Record t : Type := {
  aiService : option OllamaService.OllamaConfig;
  activeJobs : JsMap.t ProcessingJob;
  mappingResults : JsMap.t MappingResult;
  resultsQueue : list QueueItem
}.

Definition initial : t :=
  {| aiService := None; activeJobs := JsMap.empty;
     mappingResults := JsMap.empty; resultsQueue := [] |}.

Definition initialize (ai : OllamaService.OllamaConfig) (e : t) : t :=
  {| aiService := Some ai; activeJobs := activeJobs e;
     mappingResults := mappingResults e; resultsQueue := resultsQueue e |}.

Definition withMappingResults (f : JsMap.t MappingResult -> JsMap.t MappingResult) (e : t) : t :=
  {| aiService := aiService e; activeJobs := activeJobs e;
     mappingResults := f (mappingResults e); resultsQueue := resultsQueue e |}.

Definition withActiveJobs (f : JsMap.t ProcessingJob -> JsMap.t ProcessingJob) (e : t) : t :=
  {| aiService := aiService e; activeJobs := f (activeJobs e);
     mappingResults := mappingResults e; resultsQueue := resultsQueue e |}.

Definition withResultsQueue (f : list QueueItem -> list QueueItem) (e : t) : t :=
  {| aiService := aiService e; activeJobs := activeJobs e;
     mappingResults := mappingResults e; resultsQueue := f (resultsQueue e) |}.

(** [x || fallback] on strings. *)
Definition orElse (x : option string) (fallback : string) : string :=
  match x with
  | Some s => if String.eqb s "" then fallback else s
  | None => fallback
  end.

(** [getNISTControlMetadata]: the first control whose id equals the given
    one up to letter case. *)
Definition getNISTControlMetadata (cs : ControlService.t) (nistControlId : string)
    : string * string :=
  let nistControl :=
    find (fun control =>
            String.eqb (toLowerCase (ControlService.nist_id control))
                       (toLowerCase nistControlId))
         (ControlService.getNISTControls cs) in
  (orElse (option_map ControlService.nist_title nistControl) "Unknown",
   orElse (option_map ControlService.nist_description nistControl) "Description not available").

(** The callback of [result.nistMappings.map] in [getAllMappingResults]
    and [getMappingResult]. *)
Definition enrich (cs : ControlService.t) (mapping : NistMapping) : NistMapping :=
  if negb (String.eqb (nistTitle mapping) "") && negb (String.eqb (nistDescription mapping) "")
  then mapping
  else
    let nistMetadata := getNISTControlMetadata cs (nistControlId mapping) in
    {| nistControlId := nistControlId mapping;
       nistTitle := fst nistMetadata;
       nistDescription := snd nistMetadata;
       confidence := confidence mapping;
       reasoning := reasoning mapping;
       isManualOverride := isManualOverride mapping |}.

Definition enrichResult (cs : ControlService.t) (r : MappingResult) : MappingResult :=
  {| ismControlId := ismControlId r;
     nistMappings := map (enrich cs) (nistMappings r);
     processingTimestamp := processingTimestamp r;
     aiModel := aiModel r;
     processingTime := processingTime r |}.

Definition getAllMappingResults (cs : ControlService.t) (e : t) : list MappingResult :=
  map (enrichResult cs) (JsMap.values (mappingResults e)).

Definition getMappingResult (cs : ControlService.t) (e : t) (ismControlId : string)
    : option MappingResult :=
  match JsMap.get ismControlId (mappingResults e) with
  | None => None
  | Some r => Some (enrichResult cs r)
  end.

Definition getJobStatus (e : t) (jobId : string) : option ProcessingJob :=
  JsMap.get jobId (activeJobs e).

(** [if (jobId)]: an absent or empty id selects the whole queue. *)
Definition givenJobId (jobId : option string) : option string :=
  match jobId with
  | Some j => if String.eqb j "" then None else Some j
  | None => None
  end.

Definition getNewResults (jobId : option string) (e : t) : list QueueItem * t :=
  match givenJobId jobId with
  | Some j =>
      (filter (fun item => String.eqb (MappingEngine.jobId item) j) (resultsQueue e),
       withResultsQueue (filter (fun item => negb (String.eqb (MappingEngine.jobId item) j))) e)
  | None => (resultsQueue e, withResultsQueue (fun _ => []) e)
  end.

Definition hasNewResults (jobId : option string) (e : t) : bool :=
  match givenJobId jobId with
  | Some j => existsb (fun item => String.eqb (MappingEngine.jobId item) j) (resultsQueue e)
  | None => (0 <? length (resultsQueue e))%nat
  end.

(** *** Manual overrides *)

Definition overrideMapping (nistControlId : string) (nistMetadata : string * string)
    (confidence : Q) (reasoning : string) : NistMapping :=
  {| nistControlId := nistControlId;
     nistTitle := fst nistMetadata;
     nistDescription := snd nistMetadata;
     confidence := confidence;
     reasoning := JString reasoning;
     isManualOverride := true |}.

(** The assignments to [existingMapping], the first element that [find]
    returns; the element stays where it is. *)
Fixpoint mutateFirst (target : string) (update : NistMapping -> NistMapping)
    (l : list NistMapping) : list NistMapping :=
  match l with
  | [] => []
  | m :: rest =>
      if String.eqb (nistControlId m) target then update m :: rest
      else m :: mutateFirst target update rest
  end.

(** The five assignments to [existingMapping]: every field but the
    identifier. *)
Definition assignOverride (nistMetadata : string * string)
    (confidence : Q) (reasoning : string) (m : NistMapping) : NistMapping :=
  overrideMapping (nistControlId m) nistMetadata confidence reasoning.

(** The [else] branch of [applyManualOverride], on the entry's list. *)
Definition upsertOverride (target : string) (nistMetadata : string * string)
    (confidence : Q) (reasoning : string) (l : list NistMapping) : list NistMapping :=
  match find (fun m => String.eqb (nistControlId m) target) l with
  | Some _ => mutateFirst target (assignOverride nistMetadata confidence reasoning) l
  | None => l ++ [overrideMapping target nistMetadata confidence reasoning]
  end.

(** [applyManualOverride]; [now] is the [new Date()] of a new entry. *)
Definition applyManualOverride (cs : ControlService.t) (now : Z)
    (ismControlId nistControlId : string) (confidence : Q) (reasoning : string)
    (e : t) : t :=
  let existingResult := JsMap.get ismControlId (mappingResults e) in
  let nistMetadata := getNISTControlMetadata cs nistControlId in
  match existingResult with
  | None =>
      let newResult :=
        {| ismControlId := ismControlId;
           nistMappings := [overrideMapping nistControlId nistMetadata confidence reasoning];
           processingTimestamp := now;
           aiModel := "manual-override";
           processingTime := 0 |} in
      withMappingResults (JsMap.set ismControlId newResult) e
  | Some r =>
      let r' :=
        {| ismControlId := MappingEngine.ismControlId r;
           nistMappings := upsertOverride nistControlId nistMetadata confidence reasoning
                             (nistMappings r);
           processingTimestamp := processingTimestamp r;
           aiModel := aiModel r;
           processingTime := processingTime r |} in
      withMappingResults (JsMap.set ismControlId r') e
  end.

Definition removeManualOverride (ismControlId nistControlId : string) (e : t) : t :=
  match JsMap.get ismControlId (mappingResults e) with
  | None => e
  | Some r =>
      let r' :=
        {| ismControlId := MappingEngine.ismControlId r;
           nistMappings :=
             filter (fun m => negb (String.eqb (MappingEngine.nistControlId m) nistControlId
                                    && isManualOverride m))
                    (nistMappings r);
           processingTimestamp := processingTimestamp r;
           aiModel := aiModel r;
           processingTime := processingTime r |} in
      withMappingResults (JsMap.set ismControlId r') e
  end.

(** *** Statistics *)

(** The local variables of [calculateProcessingMetadata]'s loop. *)
Record MetadataAcc : Type := {
  totalConfidence : Q;
  mappingCount : nat;
  highConfidenceCount : nat;
  earliestStart : Z;
  latestEnd : Z;
  acc_totalProcessingTime : Q
}.

(** The body of the inner loop, over one entry's correspondences. *)
Definition countMapping (acc : MetadataAcc) (mapping : NistMapping) : MetadataAcc :=
  {| totalConfidence := (totalConfidence acc + confidence mapping)%Q;
     mappingCount := S (mappingCount acc);
     highConfidenceCount :=
       if Qle_bool 70 (confidence mapping) then S (highConfidenceCount acc)
       else highConfidenceCount acc;
     earliestStart := earliestStart acc;
     latestEnd := latestEnd acc;
     acc_totalProcessingTime := acc_totalProcessingTime acc |}.

(** The body of the outer loop, over the entries. *)
Definition countResult (acc : MetadataAcc) (r : MappingResult) : MetadataAcc :=
  let acc' :=
    {| totalConfidence := totalConfidence acc;
       mappingCount := mappingCount acc;
       highConfidenceCount := highConfidenceCount acc;
       earliestStart :=
         if (processingTimestamp r <? earliestStart acc)%Z then processingTimestamp r
         else earliestStart acc;
       latestEnd :=
         if (latestEnd acc <? processingTimestamp r)%Z then processingTimestamp r
         else latestEnd acc;
       acc_totalProcessingTime := (acc_totalProcessingTime acc + processingTime r)%Q |} in
  fold_left countMapping (nistMappings r) acc'.

(** [calculateProcessingMetadata]; [now] is [new Date()]. *)
Definition calculateProcessingMetadata (cs : ControlService.t) (now : Z) (e : t)
    : ProcessingMetadata :=
  let results := JsMap.values (mappingResults e) in
  let totalControls := Z.of_nat (length (ControlService.getISMControls cs)) in
  let acc :=
    fold_left countResult results
      {| totalConfidence := 0; mappingCount := 0; highConfidenceCount := 0;
         earliestStart := now; latestEnd := 0; acc_totalProcessingTime := 0 |} in
  {| totalISMControls := totalControls;
     metadata_processedControls := Z.of_nat (length results);
     averageConfidence :=
       if (0 <? mappingCount acc)%nat
       then (totalConfidence acc / inject_Z (Z.of_nat (mappingCount acc)))%Q
       else 0;
     highConfidenceMappings := highConfidenceCount acc;
     unmappedControls := (totalControls - Z.of_nat (length results))%Z;
     processingStartTime := earliestStart acc;
     processingEndTime := if (0 <? latestEnd acc)%Z then Some (latestEnd acc) else None;
     totalProcessingTime := acc_totalProcessingTime acc |}.

(** [calculateConfidenceScore] *)
Definition calculateConfidenceScore (mapping : OllamaService.ControlMapping) : Q :=
  Math_max 0 (Math_min 100 (OllamaService.confidence mapping)).

Record ProcessingStats : Type := {
  totalJobs : nat;
  stats_activeJobs : nat;
  completedJobs : nat;
  failedJobs : nat;
  totalMappings : nat
}.

Definition hasStatus (s : JobStatus) (j : ProcessingJob) : bool :=
  match s, status j with
  | queued, queued | processing, processing | completed, completed | failed, failed => true
  | _, _ => false
  end.

Definition getProcessingStats (e : t) : ProcessingStats :=
  let jobs := JsMap.values (activeJobs e) in
  {| totalJobs := length jobs;
     stats_activeJobs :=
       length (filter (fun j => hasStatus processing j || hasStatus queued j) jobs);
     completedJobs := length (filter (hasStatus completed) jobs);
     failedJobs := length (filter (hasStatus failed) jobs);
     totalMappings := JsMap.size (mappingResults e) |}.

(** [reset]: the jobs table and the mapping state; [aiService] and
    [resultsQueue] are not assigned. *)
Definition reset (e : t) : t :=
  {| aiService := aiService e; activeJobs := JsMap.empty;
     mappingResults := JsMap.empty; resultsQueue := resultsQueue e |}.

(** *** Jobs *)

Definition notInitializedError : JsError := Error "Ollama service not initialized".
Definition notReadyError : JsError :=
  Error "Control service not ready. Please load controls first.".
Definition emptyBatchError : JsError := Error "No ISM controls found to process".
Definition noReferenceError : JsError :=
  Error "No NIST controls loaded for mapping reference".

(** [.filter(Boolean)] on the results of [find]: the controls found. *)
Fixpoint filterBoolean {A : Type} (l : list (option A)) : list A :=
  match l with
  | [] => []
  | Some x :: rest => x :: filterBoolean rest
  | None :: rest => filterBoolean rest
  end.

(** The batch of [startProcessing]: the controls of the given ids that
    the catalog store finds, or all of them when no ids are given. *)
Definition selectControls (cs : ControlService.t) (controlIds : option (list string))
    : list ControlService.ISMControl :=
  match controlIds with
  | Some ids => filterBoolean (map (fun id => ControlService.getISMControlById id cs) ids)
  | None => ControlService.getISMControls cs
  end.

(** An assignment to fields of the job object, which the table holds under
    its id. *)
Definition updateJob (jobId : string) (f : ProcessingJob -> ProcessingJob) (e : t) : t :=
  match JsMap.get jobId (activeJobs e) with
  | Some j => withActiveJobs (JsMap.set jobId (f j)) e
  | None => e
  end.

Definition setStatus (s : JobStatus) (j : ProcessingJob) : ProcessingJob :=
  {| id := id j; status := s; progress := progress j;
     totalControls := totalControls j; processedControls := processedControls j;
     startTime := startTime j; endTime := endTime j; error := error j;
     results := results j |}.

(** The first statement of [processControlsAsync],
    [job.status = 'processing'].  It runs when the function is called: what
    follows it in the function waits for the transport. *)
Definition beginProcessing (jobId : string) (e : t) : t :=
  updateJob jobId (setStatus processing) e.

(** [startProcessing], to its [return].  [jobId] is what [generateJobId()]
    returned and [now] the [new Date()] of the job.  Before it returns, the
    function calls [processControlsAsync], which runs as far as
    [beginProcessing] and then waits for the first answer of the transport:
    the job that [startProcessing] leaves in the table is [processing].  The
    rest of the call is [completeProcessing] below. *)
Definition startProcessing (cs : ControlService.t) (jobId : string) (now : Z)
    (controlIds : option (list string)) (e : t) : Completion string * t :=
  match aiService e with
  | None => (inl notInitializedError, e)
  | Some _ =>
      if negb (ControlService.isReady cs) then (inl notReadyError, e)
      else
        let ismControls := selectControls cs controlIds in
        let nistControls := ControlService.getNISTControls cs in
        if (length ismControls =? 0)%nat then (inl emptyBatchError, e)
        else if (length nistControls =? 0)%nat then (inl noReferenceError, e)
        else
          let job :=
            {| id := jobId; status := queued; progress := 0;
               totalControls := length ismControls; processedControls := 0;
               startTime := now; endTime := None; error := None;
               results := JsMap.empty |} in
          (inr jobId, beginProcessing jobId (withActiveJobs (JsMap.set jobId job) e))
  end.

Definition setProgress (completed : nat) (percent : Z) (j : ProcessingJob) : ProcessingJob :=
  {| id := id j; status := status j; progress := percent;
     totalControls := totalControls j; processedControls := completed;
     startTime := startTime j; endTime := endTime j; error := error j;
     results := results j |}.

Definition setResult (controlId : string) (r : MappingResult) (j : ProcessingJob)
    : ProcessingJob :=
  {| id := id j; status := status j; progress := progress j;
     totalControls := totalControls j; processedControls := processedControls j;
     startTime := startTime j; endTime := endTime j; error := error j;
     results := JsMap.set controlId r (results j) |}.

Definition finish (s : JobStatus) (percent : Z) (err : option string) (time : Z)
    (j : ProcessingJob) : ProcessingJob :=
  {| id := id j; status := s; progress := percent;
     totalControls := totalControls j; processedControls := processedControls j;
     startTime := startTime j; endTime := Some time; error := err;
     results := results j |}.

(** The [MappingResult] that the progress callback builds from an
    analysis result: one correspondence per candidate, in order, with the
    metadata that the catalog store holds now. *)
Definition toMappingResult (cs : ControlService.t) (controlId : string)
    (analysisResult : OllamaService.MappingAnalysisResult) : MappingResult :=
  {| ismControlId := controlId;
     nistMappings :=
       map (fun mapping =>
              let nistMetadata :=
                getNISTControlMetadata cs (OllamaService.nistControlId mapping) in
              {| nistControlId := OllamaService.nistControlId mapping;
                 nistTitle := fst nistMetadata;
                 nistDescription := snd nistMetadata;
                 confidence := OllamaService.confidence mapping;
                 reasoning := OllamaService.reasoning mapping;
                 isManualOverride := false |})
           (OllamaService.mappings analysisResult);
     processingTimestamp := OllamaService.timestamp analysisResult;
     aiModel := OllamaService.model analysisResult;
     processingTime := OllamaService.processingTime analysisResult |}.

(** The [if (latestResult)] block of the progress callback: the write of
    an analysis result into the mapping state, the job and the queue;
    [pushedAt] is the queue item's [new Date()].  The three places hold
    one object in the program and a value each here.  *)
Definition storeResult (cs : ControlService.t) (jobId : string) (pushedAt : Z)
    (latestResult : string * OllamaService.MappingAnalysisResult) (e : t) : t :=
  let (controlId, analysisResult) := latestResult in
  let mappingResult := toMappingResult cs controlId analysisResult in
  let e1 := withMappingResults (JsMap.set controlId mappingResult) e in
  let e2 := updateJob jobId (setResult controlId mappingResult) e1 in
  withResultsQueue
    (fun q => q ++ [ {| MappingEngine.jobId := jobId; result := mappingResult;
                        queue_timestamp := pushedAt |} ])
    e2.

(** The progress callback of [processControlsAsync]; [clock completed] is
    the time at which the callback runs for the [completed]-th item. *)
Definition onProgress (cs : ControlService.t) (jobId : string) (clock : nat -> Z)
    (completed total : nat)
    (latestResult : option (string * OllamaService.MappingAnalysisResult)) (e : t) : t :=
  let percent :=
    Math_round ((inject_Z (Z.of_nat completed) / inject_Z (Z.of_nat total)) * 100)%Q in
  let e1 := updateJob jobId (setProgress completed percent) e in
  match latestResult with
  | Some latest => storeResult cs jobId (clock completed) latest e1
  | None => e1
  end.

Section Processing.

Variable JSON_parse : string -> option JsValue.

(** [processControlsAsync] after its first statement: the [try] block and
    its [catch], run to the end with no other request in between;
    [finishedAt] is the [new Date()] of [job.endTime]. *)
Definition completeProcessing (cs : ControlService.t)
    (world : nat -> OllamaService.CallEnv) (clock : nat -> Z) (finishedAt : Z)
    (jobId : string)
    (ismControls : list ControlService.ISMControl)
    (nistControls : list ControlService.NISTControl) (e1 : t) : t :=
  match aiService e1 with
  | None =>
      updateJob jobId (fun j =>
        finish failed (progress j) (Some "Ollama service not available") finishedAt j) e1
  | Some ai =>
      let (_, e2) :=
        OllamaService.batchAnalyzeControls JSON_parse ai ismControls nistControls
          (onProgress cs jobId clock) world e1 in
      updateJob jobId (fun j => finish completed 100 (error j) finishedAt j) e2
  end.

(** [processControlsAsync], from its call to its end. *)
Definition processControlsAsync (cs : ControlService.t)
    (world : nat -> OllamaService.CallEnv) (clock : nat -> Z) (finishedAt : Z)
    (jobId : string)
    (ismControls : list ControlService.ISMControl)
    (nistControls : list ControlService.NISTControl) (e : t) : t :=
  completeProcessing cs world clock finishedAt jobId ismControls nistControls
    (beginProcessing jobId e).

(** A job from [startProcessing] to the end of its batch: the call of
    [processControlsAsync] that [startProcessing] began runs to its end. *)
Definition runJob (cs : ControlService.t)
    (world : nat -> OllamaService.CallEnv) (clock : nat -> Z)
    (jobId : string) (now finishedAt : Z)
    (controlIds : option (list string)) (e : t) : Completion string * t :=
  match startProcessing cs jobId now controlIds e with
  | (inr j, e1) =>
      (inr j,
       completeProcessing cs world clock finishedAt j
         (selectControls cs controlIds) (ControlService.getNISTControls cs) e1)
  | (inl err, e1) => (inl err, e1)
  end.

End Processing.

End MappingEngine.

(** ** services/ReportService.ts: the summary statistics *)
Module ReportService.
Import Js.

Record ReportData : Type := {
  mappings : list MappingEngine.MappingResult;
  metadata : MappingEngine.ProcessingMetadata;
  ismControls : list ControlService.ISMControl;
  nistControls : list ControlService.NISTControl;
  generatedAt : Z
}.

(** The six bands of [confidenceDistribution], from 'Excellent (95-100%)'
    down to 'Very Poor (<55%)'. *)
Record ConfidenceDistribution : Type := {
  excellent : nat;
  veryGood : nat;
  good : nat;
  fair : nat;
  poor : nat;
  veryPoor : nat
}.

(** A value of the plain object [familyDistribution]: a count, or the text
    that [+ 1] makes of a value that is no number. *)
Inductive FamilyCount : Type :=
| Counted (n : nat)
| NotACount.

(** The names that a plain object inherits from [Object.prototype].
    Reading one of them, where it was never assigned, gives a function, or
    the prototype itself for [__proto__]; reading any other name that was
    never assigned gives [undefined]. *)
Definition objectPrototypeMembers : list string :=
  [ "constructor"; "__defineGetter__"; "__defineSetter__"; "hasOwnProperty";
    "__lookupGetter__"; "__lookupSetter__"; "isPrototypeOf"; "propertyIsEnumerable";
    "toString"; "valueOf"; "__proto__"; "toLocaleString" ].

Definition inherited (name : string) : bool :=
  existsb (String.eqb name) objectPrototypeMembers.

Record SummaryStats : Type := {
  totalISMControls : nat;
  totalMappings : nat;
  confidenceDistribution : ConfidenceDistribution;
  familyDistribution : JsMap.t FamilyCount;
  manualOverrides : nat;
  averageProcessingTime : Q
}.

Definition countBand (c : Q) (d : ConfidenceDistribution) : ConfidenceDistribution :=
  if Qle_bool 95 c then
    {| excellent := S (excellent d); veryGood := veryGood d; good := good d;
       fair := fair d; poor := poor d; veryPoor := veryPoor d |}
  else if Qle_bool 85 c then
    {| excellent := excellent d; veryGood := S (veryGood d); good := good d;
       fair := fair d; poor := poor d; veryPoor := veryPoor d |}
  else if Qle_bool 75 c then
    {| excellent := excellent d; veryGood := veryGood d; good := S (good d);
       fair := fair d; poor := poor d; veryPoor := veryPoor d |}
  else if Qle_bool 65 c then
    {| excellent := excellent d; veryGood := veryGood d; good := good d;
       fair := S (fair d); poor := poor d; veryPoor := veryPoor d |}
  else if Qle_bool 55 c then
    {| excellent := excellent d; veryGood := veryGood d; good := good d;
       fair := fair d; poor := S (poor d); veryPoor := veryPoor d |}
  else
    {| excellent := excellent d; veryGood := veryGood d; good := good d;
       fair := fair d; poor := poor d; veryPoor := S (veryPoor d) |}.

(** [stats.familyDistribution[family] = (stats.familyDistribution[family] || 0) + 1]
    on the plain object.  A count becomes the next count, and a name that is
    read for the first time gets the count 1, unless the object inherits the
    name: the value read is then truthy and no number, [+ 1] makes a text of
    it, and of that text again the next time.  The assignment of a text to
    [__proto__] does nothing. *)
Definition countFamily (family : string) (d : JsMap.t FamilyCount) : JsMap.t FamilyCount :=
  if String.eqb family "__proto__" then d
  else
    match JsMap.get family d with
    | Some (Counted n) => JsMap.set family (Counted (S n)) d
    | Some NotACount => JsMap.set family NotACount d
    | None =>
        if inherited family then JsMap.set family NotACount d
        else JsMap.set family (Counted 1) d
    end.

(** The loop's variables: [stats] and [totalProcessingTime]. *)
Definition Acc : Type := SummaryStats * Q.

(** The body of the inner loop. *)
Definition countMapping (nistControls : list ControlService.NISTControl)
    (acc : Acc) (nistMapping : MappingEngine.NistMapping) : Acc :=
  let (stats, totalProcessingTime) := acc in
  let nistControl :=
    find (fun c => String.eqb (ControlService.nist_id c)
                              (MappingEngine.nistControlId nistMapping))
         nistControls in
  ({| totalISMControls := totalISMControls stats;
      totalMappings := S (totalMappings stats);
      confidenceDistribution :=
        countBand (MappingEngine.confidence nistMapping) (confidenceDistribution stats);
      familyDistribution :=
        match nistControl with
        | Some c => countFamily (ControlService.family c) (familyDistribution stats)
        | None => familyDistribution stats
        end;
      manualOverrides :=
        if MappingEngine.isManualOverride nistMapping then S (manualOverrides stats)
        else manualOverrides stats;
      averageProcessingTime := averageProcessingTime stats |},
   totalProcessingTime).

(** The body of the outer loop. *)
Definition countResult (nistControls : list ControlService.NISTControl)
    (acc : Acc) (mapping : MappingEngine.MappingResult) : Acc :=
  let (stats, totalProcessingTime) := acc in
  fold_left (countMapping nistControls) (MappingEngine.nistMappings mapping)
    (stats, (totalProcessingTime + MappingEngine.processingTime mapping)%Q).

Definition emptyDistribution : ConfidenceDistribution :=
  {| excellent := 0; veryGood := 0; good := 0; fair := 0; poor := 0; veryPoor := 0 |}.

(** [generateSummaryStats] *)
Definition generateSummaryStats (reportData : ReportData) : SummaryStats :=
  let stats0 :=
    {| totalISMControls := length (mappings reportData);
       totalMappings := 0;
       confidenceDistribution := emptyDistribution;
       familyDistribution := JsMap.empty;
       manualOverrides := 0;
       averageProcessingTime := 0 |} in
  let (stats, totalProcessingTime) :=
    fold_left (countResult (nistControls reportData)) (mappings reportData) (stats0, 0%Q) in
  {| totalISMControls := totalISMControls stats;
     totalMappings := totalMappings stats;
     confidenceDistribution := confidenceDistribution stats;
     familyDistribution := familyDistribution stats;
     manualOverrides := manualOverrides stats;
     averageProcessingTime :=
       if (0 <? totalMappings stats)%nat
       then (totalProcessingTime / inject_Z (Z.of_nat (length (mappings reportData))))%Q
       else 0 |}.

End ReportService.

(** ** The specification's vocabulary

    Definitions that follow the words of the specification, to state the
    properties of the program against. *)
Module Spec.
Import Js.

(** The value of a property; [undefined] also where reading it throws. *)
Definition field (v : JsValue) (name : string) : JsValue :=
  match getProp v name with
  | inr x => x
  | inl _ => JUndefined
  end.

Definition isNonEmptyString (v : JsValue) : bool :=
  match v with
  | JString s => negb (String.eqb s "")
  | _ => false
  end.



(** The required fields as [parseResponse] checks them: a [nistControlId]
    that is a non-empty string (a truthy value of another type passes the
    guard and fails in [normalizeNistControlId]), a [confidence] that is a
    number, and a [reasoning] that is present and truthy, of whatever type. *)
Definition hasRequiredFields (mapping : JsValue) : bool :=
  isNonEmptyString (field mapping "nistControlId")
  && isNumber (field mapping "confidence")
  && truthy (field mapping "reasoning").

(** The [mappings] array of a parsed response, if it has one. *)
Definition mappingsArray (parsed : JsValue) : option (list JsValue) :=
  match field parsed "mappings" with
  | JArray elements => Some elements
  | _ => None
  end.


(** The fallback candidate: the placeholder target [AC-1] at confidence 50. *)
Definition fallbackCandidate : OllamaService.ControlMapping :=
  {| OllamaService.nistControlId := "AC-1";
     OllamaService.confidence := 50;
     OllamaService.reasoning := JString OllamaService.fallbackReasoning |}.

(** A stored candidate [m] comes from the element [element] of the
    response: its target is the element's [nistControlId] in upper case
    and trimmed, its confidence the element's, clamped. *)
Definition storedFrom (element : JsValue) (m : OllamaService.ControlMapping) : Prop :=
  exists (s : string) (c : Q),
    field element "nistControlId" = JString s
    /\ field element "confidence" = JNumber c
    /\ OllamaService.nistControlId m = trim (toUpperCase s)
    /\ OllamaService.confidence m = OllamaService.clampConfidence c
    /\ OllamaService.reasoning m = field element "reasoning".

(** The sum and the mean of a list of numbers; the mean of no number is 0. *)
Definition sum (l : list Q) : Q := fold_right Qplus 0%Q l.

Definition mean (l : list Q) : Q :=
  match l with
  | [] => 0%Q
  | _ => (sum l / inject_Z (Z.of_nat (length l)))%Q
  end.

(** The confidences of all correspondences of all entries, pooled. *)
Definition allConfidences (entries : list MappingEngine.MappingResult) : list Q :=
  flat_map (fun r => map MappingEngine.confidence (MappingEngine.nistMappings r)) entries.

(** The entry-level elapsed times. *)
Definition processingTimes (entries : list MappingEngine.MappingResult) : list Q :=
  map MappingEngine.processingTime entries.

(** The target identifiers of an entry's correspondences. *)
Definition targets (r : MappingEngine.MappingResult) : list string :=
  map MappingEngine.nistControlId (MappingEngine.nistMappings r).

(** At most one correspondence per target, in every entry of the mapping
    state. *)
Definition oneCorrespondencePerTarget (e : MappingEngine.t) : Prop :=
  forall (ismControlId : string) (r : MappingEngine.MappingResult),
    JsMap.get ismControlId (MappingEngine.mappingResults e) = Some r ->
    NoDup (targets r).

(** The number of correspondences for [target] that the entry of
    [ismControlId] holds. *)
Definition correspondencesFor (ismControlId target : string) (e : MappingEngine.t) : nat :=
  match JsMap.get ismControlId (MappingEngine.mappingResults e) with
  | Some r => count_occ string_dec (targets r) target
  | None => 0
  end.

(** A stored correspondence carries a title and a description. *)
Definition titled (m : MappingEngine.NistMapping) : Prop :=
  MappingEngine.nistTitle m <> "" /\ MappingEngine.nistDescription m <> "".


(** The ids of a list that the catalog store knows. *)
Definition knownIds (cs : ControlService.t) (ids : list string) : list string :=
  filter (fun id => match ControlService.getISMControlById id cs with
                    | Some _ => true
                    | None => false
                    end) ids.

(** What the i-th analysis of a batch, of the control [c], comes to. *)
Definition outcome (JSON_parse : string -> option JsValue)
    (config : OllamaService.OllamaConfig)
    (nistControls : list ControlService.NISTControl)
    (world : nat -> OllamaService.CallEnv)
    (i : nat) (c : ControlService.ISMControl)
    : Completion OllamaService.MappingAnalysisResult :=
  OllamaService.analyzeControlMapping JSON_parse config c nistControls (world i).

(** The result of the last successful analysis of the control [id] in a
    batch whose items are numbered from [k]; [None] when every analysis of
    that control failed.  [outcome i c] is what the i-th analysis, of the
    control [c], came to. *)
Fixpoint lastSuccess
    (outcome : nat -> ControlService.ISMControl ->
               Completion OllamaService.MappingAnalysisResult)
    (batch : list ControlService.ISMControl) (k : nat) (id : string)
    : option OllamaService.MappingAnalysisResult :=
  match batch with
  | [] => None
  | control :: rest =>
      match lastSuccess outcome rest (S k) id with
      | Some r => Some r
      | None =>
          if String.eqb (ControlService.ism_id control) id then
            match outcome k control with
            | inr r => Some r
            | inl _ => None
            end
          else None
      end
  end.

End Spec.

(** ** Sequences of operations on the mapping state *)
Module Trace.
Import MappingEngine.

(** The operations that assign to the mapping state, each with the state
    of the catalog store and the clock reads it sees. *)
Inductive Op : Type :=
| Override (cs : ControlService.t) (now : Z) (ismControlId nistControlId : string)
    (confidence : Q) (reasoning : string)
| RemoveOverride (ismControlId nistControlId : string)
| AnalysisWrite (cs : ControlService.t) (jobId : string) (pushedAt : Z)
    (controlId : string) (analysisResult : OllamaService.MappingAnalysisResult)
| Reset.

Definition apply (e : t) (op : Op) : t :=
  match op with
  | Override cs now ismControlId nistControlId confidence reasoning =>
      applyManualOverride cs now ismControlId nistControlId confidence reasoning e
  | RemoveOverride ismControlId nistControlId =>
      removeManualOverride ismControlId nistControlId e
  | AnalysisWrite cs jobId pushedAt controlId analysisResult =>
      storeResult cs jobId pushedAt (controlId, analysisResult) e
  | Reset => reset e
  end.

Definition run (ops : list Op) (e : t) : t := fold_left apply ops e.

(** The candidates of an analysis write have pairwise distinct targets. *)
Definition distinctTargets (op : Op) : Prop :=
  match op with
  | AnalysisWrite _ _ _ _ analysisResult =>
      NoDup (map OllamaService.nistControlId (OllamaService.mappings analysisResult))
  | _ => True
  end.

End Trace.

(** ** JSON texts

    A reader for the JSON texts of the examples.  The properties below hold
    for every [JSON.parse]; the examples run them on this reader. *)
Module JsonText.
Import Js.

(** The double quote, and a text with its single quotes turned into double
    quotes. *)
Definition doubleQuote : ascii := ascii_of_nat 34.

Definition quoted (s : string) : string :=
  mapString (fun c => if Ascii.eqb c "'" then doubleQuote else c) s.

Fixpoint skipWhiteSpace (s : string) : string :=
  match s with
  | String c rest => if isWhiteSpace c then skipWhiteSpace rest else s
  | EmptyString => s
  end.

(** The characters of a string literal up to its closing quote. *)
Fixpoint readString (s : string) : option (string * string) :=
  match s with
  | EmptyString => None
  | String c rest =>
      if Ascii.eqb c doubleQuote then Some (EmptyString, rest)
      else if Ascii.eqb c "\" then None
      else match readString rest with
           | Some (t, rest') => Some (String c t, rest')
           | None => None
           end
  end.

Definition digit (c : ascii) : option Z :=
  let n := nat_of_ascii c in
  if (48 <=? n)%nat && (n <=? 57)%nat then Some (Z.of_nat (n - 48)) else None.

Fixpoint readDigits (acc : Z) (s : string) : Z * string :=
  match s with
  | String c rest =>
      match digit c with
      | Some d => readDigits (10 * acc + d) rest
      | None => (acc, s)
      end
  | EmptyString => (acc, s)
  end.

Definition startsWith (prefix s : string) : option string :=
  if String.prefix prefix s
  then Some (substring (String.length prefix) (String.length s - String.length prefix) s)
  else None.

Fixpoint readValue (fuel : nat) (s : string) : option (JsValue * string) :=
  match fuel with
  | 0 => None
  | S fuel' =>
      match skipWhiteSpace s with
      | EmptyString => None
      | String c rest =>
          if Ascii.eqb c "{" then
            match skipWhiteSpace rest with
            | String "}" rest' => Some (JObject [], rest')
            | _ => readMembers fuel' rest []
            end
          else if Ascii.eqb c "[" then
            match skipWhiteSpace rest with
            | String "]" rest' => Some (JArray [], rest')
            | _ => readElements fuel' rest []
            end
          else if Ascii.eqb c doubleQuote then
            match readString rest with
            | Some (t, rest') => Some (JString t, rest')
            | None => None
            end
          else if Ascii.eqb c "-" then
            match rest with
            | String d _ =>
                match digit d with
                | Some _ => let (n, rest') := readDigits 0 rest in
                            Some (JNumber (inject_Z (- n)), rest')
                | None => None
                end
            | EmptyString => None
            end
          else
            match digit c with
            | Some _ => let (n, rest') := readDigits 0 (String c rest) in
                        Some (JNumber (inject_Z n), rest')
            | None =>
                match startsWith "true" (String c rest) with
                | Some rest' => Some (JBool true, rest')
                | None =>
                    match startsWith "false" (String c rest) with
                    | Some rest' => Some (JBool false, rest')
                    | None =>
                        match startsWith "null" (String c rest) with
                        | Some rest' => Some (JNull, rest')
                        | None => None
                        end
                    end
                end
            end
      end
  end
with readMembers (fuel : nat) (s : string) (acc : list (string * JsValue))
    : option (JsValue * string) :=
  match fuel with
  | 0 => None
  | S fuel' =>
      match skipWhiteSpace s with
      | String c rest =>
          if Ascii.eqb c doubleQuote then
            match readString rest with
            | Some (key, rest1) =>
                match skipWhiteSpace rest1 with
                | String ":" rest2 =>
                    match readValue fuel' rest2 with
                    | Some (v, rest3) =>
                        let acc' := JsMap.set key v acc in
                        match skipWhiteSpace rest3 with
                        | String "," rest4 => readMembers fuel' rest4 acc'
                        | String "}" rest4 => Some (JObject acc', rest4)
                        | _ => None
                        end
                    | None => None
                    end
                | _ => None
                end
            | None => None
            end
          else None
      | EmptyString => None
      end
  end
with readElements (fuel : nat) (s : string) (acc : list JsValue)
    : option (JsValue * string) :=
  match fuel with
  | 0 => None
  | S fuel' =>
      match readValue fuel' s with
      | Some (v, rest) =>
          match skipWhiteSpace rest with
          | String "," rest' => readElements fuel' rest' (acc ++ [v])
          | String "]" rest' => Some (JArray (acc ++ [v]), rest')
          | _ => None
          end
      | None => None
      end
  end.

(** The value of a JSON text made of objects, arrays, strings without
    escapes, decimal integers and the three literals; [None] for any other
    text.  A repeated key keeps its first place and takes its last value. *)
Definition readJson (text : string) : option JsValue :=
  match readValue (S (String.length text)) text with
  | Some (v, rest) =>
      match skipWhiteSpace rest with
      | EmptyString => Some v
      | _ => None
      end
  | None => None
  end.

End JsonText.

(** ** Sample data *)
Module Examples.
Import Js JsonText.

(** A well-formed element of a [mappings] array. *)
Definition element (nistControlId : string) (confidence : Q) (reasoning : string) : JsValue :=
  JObject [("nistControlId", JString nistControlId);
           ("confidence", JNumber confidence);
           ("reasoning", JString reasoning)].

Definition response (elements : list JsValue) : JsValue :=
  JObject [("mappings", JArray elements)].

(** A response whose second element has no [confidence]. *)
Definition incompleteResponse : JsValue :=
  response [element "AC-2" 80 "account management";
            JObject [("nistControlId", JString "AC-3");
                     ("reasoning", JString "access enforcement")]].

(** A response that names one target twice, in two spellings. *)
Definition repeatedResponse : JsValue :=
  response [element "AC-1" 80 "policy"; element " ac-1" 60 "procedures"].

(** A response with an identifier to normalize and a confidence to clamp. *)
Definition looseResponse : JsValue :=
  response [element " ac-2 " 250 "account management"].

(** A response whose element carries a number where the reasoning goes. *)
Definition numericReasoningResponse : JsValue :=
  response [JObject [("nistControlId", JString "AC-1");
                     ("confidence", JNumber 80);
                     ("reasoning", JNumber 42)]].

(** The texts of the four responses, as the model could have sent them. *)
Definition incompleteJson : string :=
  quoted "{'mappings': [{'nistControlId': 'AC-2', 'confidence': 80, 'reasoning': 'account management'}, {'nistControlId': 'AC-3', 'reasoning': 'access enforcement'}]}".


Definition repeatedText : string :=
  quoted "{'mappings': [{'nistControlId': 'AC-1', 'confidence': 80, 'reasoning': 'policy'}, {'nistControlId': ' ac-1', 'confidence': 60, 'reasoning': 'procedures'}]}".

Definition looseJson : string :=
  quoted "{'mappings': [{'nistControlId': ' ac-2 ', 'confidence': 250, 'reasoning': 'account management'}]}".

Definition looseText : string := "Here you go: " ++ looseJson.

Definition numericReasoningText : string :=
  quoted "{'mappings': [{'nistControlId': 'AC-1', 'confidence': 80, 'reasoning': 42}]}".

Definition ism (id title : string) : ControlService.ISMControl :=
  {| ControlService.ism_id := id;
     ControlService.ism_title := title;
     ControlService.ism_description := "Test description";
     ControlService.implementationGuidance := "Test guidance";
     ControlService.controlFamily := "Security";
     ControlService.riskLevel := ControlService.HIGH |}.

Definition nist (id title description : string) : ControlService.NISTControl :=
  {| ControlService.nist_id := id;
     ControlService.nist_title := title;
     ControlService.nist_description := description;
     ControlService.family := "Access Control";
     ControlService.class := "operational" |}.

(** A loaded catalog store, and the same after source B is loaded again
    with another title and description for [ac-1]. *)
Definition catalog : ControlService.t :=
  snd (ControlService.loadAllControls
         (inr [ism "ism-001" "Test ISM Control 1"; ism "ism-002" "Test ISM Control 2"])
         (inr [nist "ac-1" "Access Control Policy" "Access control policy description"])
         1000 ControlService.initial).

Definition reloadedCatalog : ControlService.t :=
  snd (ControlService.loadNISTControls
         (inr [nist "ac-1" "Policy and Procedures" "Revised description"])
         catalog).

Definition analysis (mappings : list OllamaService.ControlMapping)
    : OllamaService.MappingAnalysisResult :=
  {| OllamaService.mappings := mappings;
     OllamaService.processingTime := 1500;
     OllamaService.model := "llama3.1";
     OllamaService.timestamp := 2000 |}.

Definition candidate (nistControlId : string) (confidence : Q)
    : OllamaService.ControlMapping :=
  {| OllamaService.nistControlId := nistControlId;
     OllamaService.confidence := confidence;
     OllamaService.reasoning := JString "policy" |}.

(** An initialized engine. *)
Definition engine : MappingEngine.t :=
  MappingEngine.initialize OllamaService.defaultConfig MappingEngine.initial.

(** The engine after the analysis of [ism-001] came back with one target. *)
Definition engineAfterWrite : MappingEngine.t :=
  MappingEngine.storeResult catalog "job_1" 2100
    ("ism-001", analysis [candidate "AC-1" 85]) engine.

(** The engine after the analysis of [ism-001] came back with the two
    candidates that [parseResponse] returns on [repeatedText]. *)
Definition repeatedCandidates : list OllamaService.ControlMapping :=
  [ {| OllamaService.nistControlId := "AC-1";
       OllamaService.confidence := OllamaService.clampConfidence 80;
       OllamaService.reasoning := JString "policy" |};
    {| OllamaService.nistControlId := "AC-1";
       OllamaService.confidence := OllamaService.clampConfidence 60;
       OllamaService.reasoning := JString "procedures" |} ].

Definition repeatedWrite : Trace.Op :=
  Trace.AnalysisWrite catalog "job_1" 2100 "ism-001" (analysis repeatedCandidates).

Definition engineAfterRepeatedWrite : MappingEngine.t :=
  Trace.run [repeatedWrite] engine.

(** The engine after two analyses: two candidates for [ism-001], one for
    [ism-002]. *)
Definition engineOfTwoEntries : MappingEngine.t :=
  Trace.run
    [ Trace.AnalysisWrite catalog "job_1" 2100 "ism-001"
        (analysis [candidate "AC-1" 100; candidate "AC-2" 80]);
      Trace.AnalysisWrite catalog "job_1" 2200 "ism-002"
        (analysis [candidate "AC-3" 30]) ]
    engine.

(** The world of a batch of two: the first request fails, the second is
    answered with [looseText]. *)
Definition world (i : nat) : OllamaService.CallEnv :=
  match i with
  | 0 =>
      {| OllamaService.startTime := 3000;
         OllamaService.transport := OllamaService.AxiosThrows (Error "timeout of 180000ms exceeded");
         OllamaService.responseTime := 183000;
         OllamaService.resultTime := 183000 |}
  | _ =>
      {| OllamaService.startTime := 184000;
         OllamaService.transport := OllamaService.AxiosResponds (Some looseText);
         OllamaService.responseTime := 185500;
         OllamaService.resultTime := 185501 |}
  end.

Definition clock (completed : nat) : Z := 186000 + Z.of_nat completed.

(** Report data with one entry that has no correspondence. *)
Definition emptyEntry : MappingEngine.MappingResult :=
  {| MappingEngine.ismControlId := "ISM-0001";
     MappingEngine.nistMappings := [];
     MappingEngine.processingTimestamp := 2000;
     MappingEngine.aiModel := "llama3.1";
     MappingEngine.processingTime := 1500 |}.

Definition reportOfEmptyEntry : ReportService.ReportData :=
  {| ReportService.mappings := [emptyEntry];
     ReportService.metadata :=
       MappingEngine.calculateProcessingMetadata catalog 5000
         (MappingEngine.withMappingResults (JsMap.set "ISM-0001" emptyEntry) engine);
     ReportService.ismControls := ControlService.getISMControls catalog;
     ReportService.nistControls := ControlService.getNISTControls catalog;
     ReportService.generatedAt := 5000 |}.

End Examples.

(** ** More of the string methods *)
Module JsString.
Import Js.

(** [s.includes(needle)] *)
Fixpoint includes (needle s : string) : bool :=
  if String.prefix needle s then true
  else
    match s with
    | EmptyString => false
    | String _ rest => includes needle rest
    end.

(** [value.includes(c)] for a character. *)
Fixpoint hasChar (c : ascii) (s : string) : bool :=
  match s with
  | EmptyString => false
  | String d rest => Ascii.eqb d c || hasChar c rest
  end.

(** A text that is empty or starts with a character that is no white
    space, as [trimStart] leaves it. *)
Definition startsClean (s : string) : Prop :=
  match s with
  | EmptyString => True
  | String c _ => isWhiteSpace c = false
  end.

(** [s.split(separator)[0]] for a one-character separator: the text before
    its first occurrence, or the whole text. *)
Fixpoint beforeFirst (separator : ascii) (s : string) : string :=
  match s with
  | EmptyString => EmptyString
  | String c rest =>
      if Ascii.eqb c separator then EmptyString
      else String c (beforeFirst separator rest)
  end.

(** [parts.join(separator)] *)
Definition join (separator : string) (parts : list string) : string :=
  String.concat separator parts.

(** [x || fallback] on strings that may be absent. *)
Definition orDefault (x : option string) (fallback : string) : string :=
  match x with
  | Some s => if String.eqb s "" then fallback else s
  | None => fallback
  end.

(** [!!x] on a string that may be absent. *)
Definition present (x : option string) : bool :=
  match x with
  | Some s => negb (String.eqb s "")
  | None => false
  end.

(** [Array.from(new Set(values))]: the first occurrence of each value, in
    order. *)
Fixpoint unique (values : list string) : list string :=
  match values with
  | [] => []
  | v :: rest =>
      v :: filter (fun w => negb (String.eqb w v)) (unique rest)
  end.

(** [Array.prototype.sort()] on strings, in the order of their code units:
    the sorted rearrangement, built by insertion. *)
Fixpoint insertSorted (v : string) (sorted : list string) : list string :=
  match sorted with
  | [] => [v]
  | w :: rest =>
      if String.leb v w then v :: sorted else w :: insertSorted v rest
  end.

Fixpoint sort (values : list string) : list string :=
  match values with
  | [] => []
  | v :: rest => insertSorted v (sort rest)
  end.

End JsString.

(** ** services/ControlService.ts: the queries *)
Module ControlQueries.
Import Js JsString ControlService.

(** [searchISMControls] *)
Definition searchISMControls (query : string) (cs : t) : list ISMControl :=
  let lowerQuery := toLowerCase query in
  filter (fun control =>
            includes lowerQuery (toLowerCase (ism_id control))
            || includes lowerQuery (toLowerCase (ism_title control))
            || includes lowerQuery (toLowerCase (ism_description control))
            || includes lowerQuery (toLowerCase (controlFamily control)))
         (ismControls cs).

(** [searchNISTControls] *)
Definition searchNISTControls (query : string) (cs : t) : list NISTControl :=
  let lowerQuery := toLowerCase query in
  filter (fun control =>
            includes lowerQuery (toLowerCase (nist_id control))
            || includes lowerQuery (toLowerCase (nist_title control))
            || includes lowerQuery (toLowerCase (nist_description control))
            || includes lowerQuery (toLowerCase (family control)))
         (nistControls cs).

(** [getISMControlsByFamily] *)
Definition getISMControlsByFamily (wanted : string) (cs : t) : list ISMControl :=
  filter (fun control =>
            String.eqb (toLowerCase (controlFamily control)) (toLowerCase wanted))
         (ismControls cs).

(** [getNISTControlsByFamily] *)
Definition getNISTControlsByFamily (wanted : string) (cs : t) : list NISTControl :=
  filter (fun control =>
            String.eqb (toLowerCase (family control)) (toLowerCase wanted))
         (nistControls cs).

(** [getISMControlFamilies] *)
Definition getISMControlFamilies (cs : t) : list string :=
  sort (unique (map controlFamily (ismControls cs))).

(** [getNISTControlFamilies] *)
Definition getNISTControlFamilies (cs : t) : list string :=
  sort (unique (map family (nistControls cs))).

(** [getLoadingStatus] *)
Definition getLoadingStatus (cs : t) : ControlLoadingStatus := loadingStatus cs.

End ControlQueries.

(** ** services/OSCALParser.ts: from the catalog document to flat controls *)
Module OSCALParser.
Import Js JsString.

(** The part of models/Control.ts that the parser reads.  A part's [id] and
    nested [parts], a property's [class] and a control's [params] are never
    read. *)
Record ControlPart : Type := {
  part_name : string;
  prose : option string
}.

Record ControlProperty : Type := {
  prop_name : string;
  prop_value : string
}.

Record OSCALControl : Type := {
  oscal_id : string;
  oscal_title : string;
  props : option (list ControlProperty);
  parts : option (list ControlPart)
}.

(** A group: its id, its optional title, its controls and its nested groups
    (an absent array is the empty one: the parser tells them apart in its
    log only). *)
#[local] Unset Elimination Schemes.
Inductive OSCALGroup : Type :=
| Group (group_id : string) (group_title : option string)
    (group_controls : list OSCALControl) (group_groups : list OSCALGroup).
#[local] Set Elimination Schemes.

(** Induction on a group, given the property of its nested groups. *)
Definition OSCALGroup_nested_ind (P : OSCALGroup -> Prop)
    (step : forall id title controls groups,
        Forall P groups -> P (Group id title controls groups))
    : forall g : OSCALGroup, P g :=
  fix visit (g : OSCALGroup) : P g :=
    match g with
    | Group id title controls groups =>
        step id title controls groups
          ((fix visitAll (l : list OSCALGroup) : Forall P l :=
              match l with
              | [] => Forall_nil P
              | x :: rest => Forall_cons x (visit x) (visitAll rest)
              end) groups)
    end.

Record OSCALCatalog : Type := {
  catalog_groups : list OSCALGroup;
  catalog_controls : list OSCALControl
}.

Definition group_id_of (g : OSCALGroup) : string :=
  match g with Group id _ _ _ => id end.

Definition group_title_of (g : OSCALGroup) : option string :=
  match g with Group _ title _ _ => title end.

Definition group_controls_of (g : OSCALGroup) : list OSCALControl :=
  match g with Group _ _ controls _ => controls end.

Definition group_groups_of (g : OSCALGroup) : list OSCALGroup :=
  match g with Group _ _ _ groups => groups end.

Definition oneOf (names : list string) (name : string) : bool :=
  existsb (String.eqb name) names.

(** [extractDescription] *)
Definition extractDescription (parts : option (list ControlPart)) : string :=
  match parts with
  | None => ""
  | Some parts =>
      let descriptionPart :=
        find (fun part => oneOf ["statement"; "description"; "overview"] (part_name part))
             parts in
      match descriptionPart with
      | Some part =>
          if present (prose part) then orDefault (prose part) ""
          else join " " (map (fun p => orDefault (prose p) "")
                             (filter (fun p => present (prose p)) parts))
      | None =>
          join " " (map (fun p => orDefault (prose p) "")
                        (filter (fun p => present (prose p)) parts))
      end
  end.

(** [extractImplementationGuidance] *)
Definition extractImplementationGuidance (parts : option (list ControlPart)) : string :=
  match parts with
  | None => ""
  | Some parts =>
      match find (fun part =>
                    oneOf ["guidance"; "implementation"; "implementation-guidance"]
                          (part_name part))
                 parts with
      | Some part => orDefault (prose part) ""
      | None => ""
      end
  end.

(** [extractRiskLevel] *)
Definition extractRiskLevel (props : option (list ControlProperty))
    : ControlService.RiskLevel :=
  match props with
  | None => ControlService.MEDIUM
  | Some props =>
      match find (fun prop => oneOf ["risk-level"; "priority"; "criticality"] (prop_name prop))
                 props with
      | Some riskProp =>
          let value := toUpperCase (prop_value riskProp) in
          if includes "HIGH" value || includes "CRITICAL" value then ControlService.HIGH
          else if includes "LOW" value || includes "BASIC" value then ControlService.LOW
          else ControlService.MEDIUM
      | None => ControlService.MEDIUM
      end
  end.

(** [extractControlClass] *)
Definition extractControlClass (props : option (list ControlProperty)) : string :=
  match props with
  | None => "operational"
  | Some props =>
      match find (fun prop => oneOf ["class"; "control-class"] (prop_name prop)) props with
      | Some classProp => orDefault (Some (prop_value classProp)) "operational"
      | None => "operational"
      end
  end.

(** [convertOSCALToISMControl]; on a typed control nothing in its [try]
    block throws, so it returns a control. *)
Definition convertOSCALToISMControl (oscalControl : OSCALControl)
    (groupTitle : option string) : ControlService.ISMControl :=
  {| ControlService.ism_id := oscal_id oscalControl;
     ControlService.ism_title := orDefault (Some (oscal_title oscalControl)) "Untitled Control";
     ControlService.ism_description :=
       orDefault (Some (extractDescription (parts oscalControl))) "No description available";
     ControlService.implementationGuidance :=
       orDefault (Some (extractImplementationGuidance (parts oscalControl)))
                 "No implementation guidance available";
     ControlService.controlFamily := orDefault groupTitle "Unknown";
     ControlService.riskLevel := extractRiskLevel (props oscalControl) |}.

(** [convertOSCALToNISTControl]; the group's id is passed and not used. *)
Definition convertOSCALToNISTControl (oscalControl : OSCALControl)
    (groupTitle : option string) (groupId : option string) : ControlService.NISTControl :=
  {| ControlService.nist_id := oscal_id oscalControl;
     ControlService.nist_title := oscal_title oscalControl;
     ControlService.nist_description := extractDescription (parts oscalControl);
     ControlService.family := orDefault groupTitle "Unknown";
     ControlService.class := extractControlClass (props oscalControl) |}.

(** The title under which a group's controls are filed: its own title, or
    its id, after its parent's when it has one. *)
Definition fullTitle (parentTitle : option string) (g : OSCALGroup) : string :=
  let groupTitle := orDefault (group_title_of g) (group_id_of g) in
  if present parentTitle then orDefault parentTitle "" ++ " - " ++ groupTitle
  else groupTitle.

(** The body of the loop of [processGroups] for one group: the controls it
    pushes, the group's own first, then those of its nested groups. *)
Fixpoint processGroup (parentTitle : option string) (g : OSCALGroup)
    : list ControlService.ISMControl :=
  match g with
  | Group _ _ controls groups =>
      let title := fullTitle parentTitle g in
      map (fun control => convertOSCALToISMControl control (Some title)) controls
      ++ flat_map (processGroup (Some title)) groups
  end.

(** [processGroups]: what it pushes onto [controls]. *)
Definition processGroups (groups : list OSCALGroup) (parentTitle : option string)
    : list ControlService.ISMControl :=
  flat_map (processGroup parentTitle) groups.

(** [parseISMControls] *)
Definition parseISMControls (catalog : OSCALCatalog) : list ControlService.ISMControl :=
  map (fun control => convertOSCALToISMControl control None) (catalog_controls catalog)
  ++ processGroups (catalog_groups catalog) None.

(** [parseNISTControls] *)
Definition parseNISTControls (catalog : OSCALCatalog) : list ControlService.NISTControl :=
  map (fun control => convertOSCALToNISTControl control None None) (catalog_controls catalog)
  ++ flat_map (fun g =>
                 map (fun control =>
                        convertOSCALToNISTControl control (group_title_of g)
                          (Some (group_id_of g)))
                     (group_controls_of g))
              (catalog_groups catalog).

End OSCALParser.

(** ** services/ReportService.ts: filters and CSV values *)
Module ReportExport.
Import Js JsString ReportService.

Inductive Format : Type := json | csv | pdf.

Record ExportOptions : Type := {
  format : Format;
  includeReasoning : option bool;
  confidenceThreshold : option Q;
  controlFamilies : option (list string)
}.

(** The callback of the confidence filter:
    [mapping.nistMappings.some(nm => nm.confidence >= threshold)]. *)
Definition reachesThreshold (threshold : Q) (mapping : MappingEngine.MappingResult) : bool :=
  existsb (fun nm => Qle_bool threshold (MappingEngine.confidence nm))
          (MappingEngine.nistMappings mapping).

(** The callback of the family filter. *)
Definition inFamilies (ismControls : list ControlService.ISMControl)
    (families : list string) (mapping : MappingEngine.MappingResult) : bool :=
  match find (fun c => String.eqb (ControlService.ism_id c)
                                  (MappingEngine.ismControlId mapping))
             ismControls with
  | Some ismControl => existsb (String.eqb (ControlService.controlFamily ismControl)) families
  | None => false
  end.

(** [applyFilters] *)
Definition applyFilters (reportData : ReportData) (options : ExportOptions) : ReportData :=
  let filteredMappings := mappings reportData in
  let filteredMappings :=
    match confidenceThreshold options with
    | Some threshold => filter (reachesThreshold threshold) filteredMappings
    | None => filteredMappings
    end in
  let filteredMappings :=
    match controlFamilies options with
    | Some (family :: families) =>
        filter (inFamilies (ismControls reportData) (family :: families)) filteredMappings
    | _ => filteredMappings
    end in
  {| mappings := filteredMappings;
     metadata := metadata reportData;
     ismControls := ismControls reportData;
     nistControls := nistControls reportData;
     generatedAt := generatedAt reportData |}.

Definition doubleQuote : ascii := ascii_of_nat 34.
Definition lineFeed : ascii := ascii_of_nat 10.
Definition comma : ascii := ascii_of_nat 44.

(** [value.replace] with the global pattern of one double quote and the
    replacement of two. *)
Fixpoint doubleQuotes (s : string) : string :=
  match s with
  | EmptyString => EmptyString
  | String c rest =>
      if Ascii.eqb c doubleQuote then String doubleQuote (String doubleQuote (doubleQuotes rest))
      else String c (doubleQuotes rest)
  end.

(** [escapeCsvValue] *)
Definition escapeCsvValue (value : string) : string :=
  if hasChar comma value || hasChar doubleQuote value || hasChar lineFeed value
  then String doubleQuote (doubleQuotes value ++ String doubleQuote EmptyString)
  else value.

End ReportExport.

(** ** controllers/MappingController.ts: the checks in front of the engine *)
Module MappingController.
Import Js.

(** The errors of middleware/errorHandler.ts that the controller throws,
    with the status code and the code that their constructors set. *)
Inductive AppError : Type :=
| ValidationError (message : string)
| NotFoundError (message : string)
| ServiceUnavailableError (message : string).


(** [!v || typeof v !== 'string'] *)
Definition notAString (v : JsValue) : bool :=
  match v with
  | JString s => String.eqb s ""
  | _ => true
  end.

(** The handler [applyManualOverride]: [controlId] is the route parameter,
    the three values are the fields of the request body ([undefined] when
    absent). *)
Definition applyManualOverride (cs : ControlService.t) (now : Z)
    (controlId : option string) (nistControlId confidence reasoning : JsValue)
    (e : MappingEngine.t) : sum AppError unit * MappingEngine.t :=
  match controlId with
  | None => (inl (ValidationError "Control ID is required"), e)
  | Some controlId =>
      if String.eqb controlId "" then (inl (ValidationError "Control ID is required"), e)
      else
        match nistControlId with
        | JString target =>
            if String.eqb target "" then
              (inl (ValidationError "NIST control ID is required and must be a string"), e)
            else
              match confidence with
              | JNumber c =>
                  if negb (Qle_bool 0 c) || negb (Qle_bool c 100) then
                    (inl (ValidationError "Confidence must be a number between 0 and 100"), e)
                  else
                    match reasoning with
                    | JString why =>
                        if String.eqb why "" then
                          (inl (ValidationError "Reasoning is required and must be a string"),
                           e)
                        else
                          (inr tt,
                           MappingEngine.applyManualOverride cs now controlId target c why e)
                    | _ =>
                        (inl (ValidationError "Reasoning is required and must be a string"), e)
                    end
              | _ =>
                  (inl (ValidationError "Confidence must be a number between 0 and 100"), e)
              end
        | _ => (inl (ValidationError "NIST control ID is required and must be a string"), e)
        end
  end.

(** The handler [removeManualOverride], which answers with status 400 when
    a route parameter is missing. *)
Definition removeManualOverride (controlId nistControlId : option string)
    (e : MappingEngine.t) : Z * MappingEngine.t :=
  match controlId, nistControlId with
  | Some c, Some n =>
      if String.eqb c "" || String.eqb n "" then (400%Z, e)
      else (200%Z, MappingEngine.removeManualOverride c n e)
  | _, _ => (400%Z, e)
  end.

(** The data of the handler [getNewResults]. *)
Record NewResults : Type := {
  hasNewResults : bool;
  results : list MappingEngine.QueueItem;
  count : nat
}.

Definition getNewResults (jobId : option string) (e : MappingEngine.t)
    : NewResults * MappingEngine.t :=
  let has := MappingEngine.hasNewResults jobId e in
  let (newResults, e') :=
    if has then MappingEngine.getNewResults jobId e else ([], e) in
  ({| hasNewResults := has; results := newResults; count := length newResults |}, e').

End MappingController.

(** ** services/OllamaService.ts: the sample of source-B controls in the prompt *)
Module OllamaPrompt.
Import Js JsString.

(** The table [keywordMappings], in the order of its keys. *)
Definition keywordMappings : list (string * list string) :=
  [ ("access", ["AC"; "IA"]);
    ("authentication", ["IA"; "AC"]);
    ("authorization", ["AC"; "IA"]);
    ("audit", ["AU"; "SI"]);
    ("logging", ["AU"; "SI"]);
    ("monitoring", ["AU"; "SI"; "IR"]);
    ("incident", ["IR"; "AU"]);
    ("backup", ["CP"; "SC"]);
    ("recovery", ["CP"; "IR"]);
    ("encryption", ["SC"; "MP"]);
    ("cryptographic", ["SC"; "MP"]);
    ("network", ["SC"; "AC"]);
    ("firewall", ["SC"; "AC"]);
    ("personnel", ["PS"; "AT"]);
    ("training", ["AT"; "PS"]);
    ("awareness", ["AT"; "PS"]);
    ("physical", ["PE"; "MP"]);
    ("media", ["MP"; "PE"]);
    ("configuration", ["CM"; "SI"]);
    ("vulnerability", ["SI"; "RA"]);
    ("assessment", ["CA"; "RA"]);
    ("risk", ["RA"; "PM"]);
    ("planning", ["PL"; "PM"]);
    ("policy", ["PL"; "PM"]);
    ("procedure", ["PL"; "PM"]) ].

(** The text in which the keywords are looked for. *)
Definition controlText (ismControl : ControlService.ISMControl) : string :=
  toLowerCase
    (ControlService.ism_title ismControl ++ " "
     ++ ControlService.ism_description ismControl ++ " "
     ++ ControlService.implementationGuidance ismControl).

(** The members of the set [relevantFamilies]. *)
Definition relevantFamilies (ismControl : ControlService.ISMControl) : list string :=
  flat_map (fun entry : string * list string =>
              let (keyword, families) := entry in
              if includes keyword (controlText ismControl) then families else [])
           keywordMappings.

(** [relevantFamilies.has(control.id.split('-')[0])] *)
Definition isRelevant (families : list string) (control : ControlService.NISTControl) : bool :=
  existsb (String.eqb (beforeFirst "-" (ControlService.nist_id control))) families.

Section Sample.

(** [a.localeCompare(b)]: the order of the host's collation. *)
Variable localeCompare : string -> string -> comparison.

(** The comparator given to [sort]. *)
Definition compareControls (families : list string)
    (a b : ControlService.NISTControl) : comparison :=
  let aRelevant := isRelevant families a in
  let bRelevant := isRelevant families b in
  if aRelevant && negb bRelevant then Lt
  else if negb aRelevant && bRelevant then Gt
  else localeCompare (ControlService.nist_id a) (ControlService.nist_id b).

(** [Array.prototype.sort] with a comparator that orders the elements: the
    stable sorted rearrangement, built by insertion from the right. *)
Fixpoint insertControl (families : list string) (x : ControlService.NISTControl)
    (sorted : list ControlService.NISTControl) : list ControlService.NISTControl :=
  match sorted with
  | [] => [x]
  | y :: rest =>
      match compareControls families x y with
      | Gt => y :: insertControl families x rest
      | _ => x :: sorted
      end
  end.

Fixpoint sortControls (families : list string)
    (controls : list ControlService.NISTControl) : list ControlService.NISTControl :=
  match controls with
  | [] => []
  | x :: rest => insertControl families x (sortControls families rest)
  end.

(** [prioritizeRelevantControls] *)
Definition prioritizeRelevantControls (nistControls : list ControlService.NISTControl)
    (ismControl : ControlService.ISMControl) : list ControlService.NISTControl :=
  sortControls (relevantFamilies ismControl) nistControls.

(** The sample of [buildMappingPrompt]: the first 15 controls. *)
Definition sampledControls (ismControl : ControlService.ISMControl)
    (nistControls : list ControlService.NISTControl) : list ControlService.NISTControl :=
  firstn 15 (prioritizeRelevantControls nistControls ismControl).

End Sample.

End OllamaPrompt.

(** ** Requests, as the engine sees them through the controller *)
Module ApiTrace.
Import Js.

(** A request that reaches the mapping state, or the end of one item of a
    running batch, with what the world answers. *)
Inductive Event : Type :=
| OverrideRequest (cs : ControlService.t) (now : Z) (controlId : option string)
    (nistControlId confidence reasoning : JsValue)
| RemoveOverrideRequest (controlId nistControlId : option string)
| ItemAnalysed (cs : ControlService.t) (config : OllamaService.OllamaConfig)
    (jobId : string) (completed total : nat) (pushedAt : Z)
    (control : ControlService.ISMControl) (w : OllamaService.CallEnv)
| ResetRequest.

Section Events.

Variable JSON_parse : string -> option JsValue.

Definition handle (e : MappingEngine.t) (event : Event) : MappingEngine.t :=
  match event with
  | OverrideRequest cs now controlId nistControlId confidence reasoning =>
      snd (MappingController.applyManualOverride cs now controlId nistControlId
             confidence reasoning e)
  | RemoveOverrideRequest controlId nistControlId =>
      snd (MappingController.removeManualOverride controlId nistControlId e)
  | ItemAnalysed cs config jobId completed total pushedAt control w =>
      match OllamaService.analyzeControlMapping JSON_parse config control
              (ControlService.getNISTControls cs) w with
      | inr result =>
          MappingEngine.onProgress cs jobId (fun _ => pushedAt) completed total
            (Some (ControlService.ism_id control, result)) e
      | inl _ =>
          MappingEngine.onProgress cs jobId (fun _ => pushedAt) completed total None e
      end
  | ResetRequest => MappingEngine.reset e
  end.

Definition handleAll (events : list Event) (e : MappingEngine.t) : MappingEngine.t :=
  fold_left handle events e.

End Events.

End ApiTrace.

(** ** Vocabulary for the further properties *)
Module View.
Import Js.

(** The queue items of a job. *)
Definition itemsOf (jobId : string) (queue : list MappingEngine.QueueItem)
    : list MappingEngine.QueueItem :=
  filter (fun item => String.eqb (MappingEngine.jobId item) jobId) queue.

(** The queue items of the other jobs. *)
Definition itemsOfOthers (jobId : string) (queue : list MappingEngine.QueueItem)
    : list MappingEngine.QueueItem :=
  filter (fun item => negb (String.eqb (MappingEngine.jobId item) jobId)) queue.

(** The correspondences of an entry that no human wrote. *)
Definition analysed (l : list MappingEngine.NistMapping) : list MappingEngine.NistMapping :=
  filter (fun m => negb (MappingEngine.isManualOverride m)) l.

(** The correspondences of an entry for other targets than [target]. *)
Definition forOtherTargets (target : string) (l : list MappingEngine.NistMapping)
    : list MappingEngine.NistMapping :=
  filter (fun m => negb (String.eqb (MappingEngine.nistControlId m) target)) l.

(** A correspondence without its title and description. *)
Definition core (m : MappingEngine.NistMapping) : string * Q * JsValue * bool :=
  (MappingEngine.nistControlId m, MappingEngine.confidence m,
   MappingEngine.reasoning m, MappingEngine.isManualOverride m).

(** An entry without the titles and descriptions of its correspondences. *)
Definition coreOfResult (r : MappingEngine.MappingResult)
    : string * list (string * Q * JsValue * bool) * Z * string * Q :=
  (MappingEngine.ismControlId r, map core (MappingEngine.nistMappings r),
   MappingEngine.processingTimestamp r, MappingEngine.aiModel r,
   MappingEngine.processingTime r).

(** A confidence between 0 and 100. *)
Definition inRange (m : MappingEngine.NistMapping) : Prop :=
  (0 <= MappingEngine.confidence m /\ MappingEngine.confidence m <= 100)%Q.

(** Every stored confidence lies between 0 and 100. *)
Definition confidencesInRange (e : MappingEngine.t) : Prop :=
  Forall (fun r => Forall inRange (MappingEngine.nistMappings r))
         (JsMap.values (MappingEngine.mappingResults e)).

(** The counts of the loading status agree with its flags: a count is the
    length of its list while the list counts as loaded, and 0 otherwise. *)
Definition statusConsistent (cs : ControlService.t) : Prop :=
  let st := ControlService.loadingStatus cs in
  ControlService.ismControlCount st
  = (if ControlService.ismControlsLoaded st
     then length (ControlService.ismControls cs) else 0)
  /\ ControlService.nistControlCount st
     = (if ControlService.nistControlsLoaded st
        then length (ControlService.nistControls cs) else 0).

(** The timestamps of the entries. *)
Definition timestamps (e : MappingEngine.t) : list Z :=
  map MappingEngine.processingTimestamp (JsMap.values (MappingEngine.mappingResults e)).

(** The queue items that a batch pushes: one for each analysis that
    succeeds, in the order of the batch; the items of the batch are numbered
    from [k]. *)
Fixpoint pushedItems (cs : ControlService.t) (jobId : string) (clock : nat -> Z)
    (outcome : nat -> ControlService.ISMControl ->
               Completion OllamaService.MappingAnalysisResult)
    (batch : list ControlService.ISMControl) (k : nat) : list MappingEngine.QueueItem :=
  match batch with
  | [] => []
  | control :: rest =>
      match outcome k control with
      | inr r =>
          {| MappingEngine.jobId := jobId;
             MappingEngine.result :=
               MappingEngine.toMappingResult cs (ControlService.ism_id control) r;
             MappingEngine.queue_timestamp := clock (S k) |}
          :: pushedItems cs jobId clock outcome rest (S k)
      | inl _ => pushedItems cs jobId clock outcome rest (S k)
      end
  end.

(** The calls of the progress callback that a batch of [total] controls
    makes, its items numbered from [k]. *)
Fixpoint progressCalls
    (outcome : nat -> ControlService.ISMControl ->
               Completion OllamaService.MappingAnalysisResult)
    (total : nat) (batch : list ControlService.ISMControl) (k : nat)
    : list (nat * nat * option (string * OllamaService.MappingAnalysisResult)) :=
  match batch with
  | [] => []
  | control :: rest =>
      (S k, total,
       match outcome k control with
       | inr r => Some (ControlService.ism_id control, r)
       | inl _ => None
       end)
      :: progressCalls outcome total rest (S k)
  end.

(** The progress callback that records its calls. *)
Definition recordCall (completed total : nat)
    (latest : option (string * OllamaService.MappingAnalysisResult))
    (calls : list (nat * nat * option (string * OllamaService.MappingAnalysisResult)))
    : list (nat * nat * option (string * OllamaService.MappingAnalysisResult)) :=
  calls ++ [(completed, total, latest)].

(** All the controls of a group, at any depth, in the order of the document. *)
Fixpoint controlsOfGroup (g : OSCALParser.OSCALGroup) : list OSCALParser.OSCALControl :=
  match g with
  | OSCALParser.Group _ _ controls groups => controls ++ flat_map controlsOfGroup groups
  end.

(** All the controls of a catalog document. *)
Definition controlsOfCatalog (catalog : OSCALParser.OSCALCatalog)
    : list OSCALParser.OSCALControl :=
  OSCALParser.catalog_controls catalog
  ++ flat_map controlsOfGroup (OSCALParser.catalog_groups catalog).

(** The controls of a catalog document that lie in no group or directly in a
    group of the first level. *)
Definition shallowControls (catalog : OSCALParser.OSCALCatalog)
    : list OSCALParser.OSCALControl :=
  OSCALParser.catalog_controls catalog
  ++ flat_map OSCALParser.group_controls_of (OSCALParser.catalog_groups catalog).

(** Some part carries prose. *)
Definition hasProse (parts : option (list OSCALParser.ControlPart)) : bool :=
  match parts with
  | Some parts => existsb (fun p => JsString.present (OSCALParser.prose p)) parts
  | None => false
  end.

(** The correspondences of all entries, pooled. *)
Definition allCorrespondences (entries : list MappingEngine.MappingResult)
    : list MappingEngine.NistMapping :=
  flat_map MappingEngine.nistMappings entries.

(** The number of correspondences that a confidence distribution counts. *)
Definition bandTotal (d : ReportService.ConfidenceDistribution) : nat :=
  ReportService.excellent d + ReportService.veryGood d + ReportService.good d
  + ReportService.fair d + ReportService.poor d + ReportService.veryPoor d.

(** The correspondence's target is the id of a control of the list, letter
    for letter. *)
Definition filed (nistControls : list ControlService.NISTControl)
    (m : MappingEngine.NistMapping) : bool :=
  existsb (fun c => String.eqb (ControlService.nist_id c) (MappingEngine.nistControlId m))
          nistControls.

(** The correspondence's target is the id of a control of the list, and the
    family of the first such control is no name that a plain object
    inherits. *)
Definition filedUnderOwnName (nistControls : list ControlService.NISTControl)
    (m : MappingEngine.NistMapping) : bool :=
  match find (fun c => String.eqb (ControlService.nist_id c)
                                  (MappingEngine.nistControlId m)) nistControls with
  | Some c => negb (ReportService.inherited (ControlService.family c))
  | None => false
  end.

(** The sum of the counts of a family distribution. *)
Definition countOf (v : ReportService.FamilyCount) : nat :=
  match v with
  | ReportService.Counted n => n
  | ReportService.NotACount => 0
  end.

Definition familyTotal (d : JsMap.t ReportService.FamilyCount) : nat :=
  list_sum (map countOf (JsMap.values d)).

(** A family distribution holds a text exactly under the names that a plain
    object inherits. *)
Definition textsUnderInheritedNames (d : JsMap.t ReportService.FamilyCount) : Prop :=
  forall name v,
    JsMap.get name d = Some v ->
    (v = ReportService.NotACount <-> ReportService.inherited name = true).

(** The inverse of [escapeCsvValue]: the value of a CSV field. *)
Fixpoint undoubleQuotes (s : string) : string :=
  match s with
  | EmptyString => EmptyString
  | String c rest =>
      if Ascii.eqb c ReportExport.doubleQuote then
        match rest with
        | String d rest' =>
            if Ascii.eqb d ReportExport.doubleQuote
            then String ReportExport.doubleQuote (undoubleQuotes rest')
            else EmptyString
        | EmptyString => EmptyString
        end
      else String c (undoubleQuotes rest)
  end.

Definition readCsvField (field : string) : string :=
  match field with
  | String c rest =>
      if Ascii.eqb c ReportExport.doubleQuote then undoubleQuotes rest else field
  | EmptyString => EmptyString
  end.

(** The number of double quotes of a text. *)
Fixpoint countQuotes (s : string) : nat :=
  match s with
  | EmptyString => 0
  | String c rest =>
      (if Ascii.eqb c ReportExport.doubleQuote then 1 else 0) + countQuotes rest
  end.

End View.

(** * Properties *)

(** ** Auxiliary facts *)

Module JsFacts.
Import Js.

Lemma isWhiteSpace_upcase (c : ascii) : isWhiteSpace (upcase c) = isWhiteSpace c.
Proof. destruct c as [[] [] [] [] [] [] [] []]; reflexivity. Qed.

Lemma isLowerAscii_upcase (c : ascii) : isLowerAscii (upcase c) = false.
Proof. destruct c as [[] [] [] [] [] [] [] []]; reflexivity. Qed.

Lemma trimStart_toUpperCase (s : string) :
  trimStart (toUpperCase s) = toUpperCase (trimStart s).
Proof.
  unfold toUpperCase.
  induction s as [| c rest IH]; simpl; [reflexivity |].
  rewrite isWhiteSpace_upcase.
  destruct (isWhiteSpace c); [exact IH | reflexivity].
Qed.

Lemma trimEnd_toUpperCase (s : string) :
  trimEnd (toUpperCase s) = toUpperCase (trimEnd s).
Proof.
  unfold toUpperCase.
  induction s as [| c rest IH]; simpl; [reflexivity |].
  rewrite IH.
  destruct (trimEnd rest); simpl; [| reflexivity].
  rewrite isWhiteSpace_upcase.
  destruct (isWhiteSpace c); reflexivity.
Qed.

Lemma trim_toUpperCase (s : string) : trim (toUpperCase s) = toUpperCase (trim s).
Proof.
  unfold trim. now rewrite trimStart_toUpperCase, trimEnd_toUpperCase.
Qed.

Lemma mapM_inr {A B : Type} (f : A -> Completion B) (l : list A) (l' : list B) :
  mapM f l = inr l' -> Forall2 (fun x y => f x = inr y) l l'.
Proof.
  revert l'.
  induction l as [| x rest IH]; intros l' H; simpl in H.
  - inversion H. constructor.
  - destruct (f x) as [e | y] eqn:Hx; simpl in H; [discriminate |].
    destruct (mapM f rest) as [e | ys] eqn:Hr; simpl in H; [discriminate |].
    inversion H; subst. constructor; auto.
Qed.


Lemma mapM_Forall2 {A B : Type} (f : A -> Completion B) (l : list A) (l' : list B) :
  Forall2 (fun x y => f x = inr y) l l' -> mapM f l = inr l'.
Proof.
  induction 1 as [| x y l l' Hx _ IH]; simpl; [reflexivity |].
  now rewrite Hx, IH.
Qed.
End JsFacts.

Module JsMapFacts.
Import JsMap.

Lemma get_set_same {V : Type} (k : string) (v : V) (m : t V) :
  get k (set k v m) = Some v.
Proof.
  induction m as [| [k' v'] m IH]; simpl.
  - now rewrite String.eqb_refl.
  - destruct (String.eqb k' k) eqn:E; simpl.
    + now rewrite String.eqb_refl.
    + now rewrite E.
Qed.

Lemma get_set_other {V : Type} (k k' : string) (v : V) (m : t V) :
  k <> k' -> get k' (set k v m) = get k' m.
Proof.
  intros Hne.
  induction m as [| [k0 v0] m IH]; simpl.
  - apply String.eqb_neq in Hne. now rewrite Hne.
  - destruct (String.eqb k0 k) eqn:E; simpl.
    + apply String.eqb_eq in E. subst k0.
      apply String.eqb_neq in Hne. now rewrite Hne.
    + now rewrite IH.
Qed.

Lemma get_set {V : Type} (k k' : string) (v : V) (m : t V) :
  get k' (set k v m) = if String.eqb k k' then Some v else get k' m.
Proof.
  destruct (String.eqb_spec k k') as [-> | Hne].
  - apply get_set_same.
  - now apply get_set_other.
Qed.

Lemma set_set {V : Type} (k : string) (v v' : V) (m : t V) :
  set k v (set k v' m) = set k v m.
Proof.
  induction m as [| [k0 v0] m IH]; simpl.
  - now rewrite String.eqb_refl.
  - destruct (String.eqb k0 k) eqn:E; simpl.
    + now rewrite String.eqb_refl.
    + now rewrite E, IH.
Qed.
End JsMapFacts.

Module ParserFacts.
Import Js OllamaService Spec JsFacts.

Lemma fallback_eq : fallback = inr [fallbackCandidate].
Proof. reflexivity. Qed.

(** [parseMapping] returns exactly on the elements that have their
    required fields, and throws on the others. *)
Lemma parseMapping_inr (element : JsValue) (m : ControlMapping) :
  parseMapping element = inr m ->
  hasRequiredFields element = true /\ storedFrom element m.
Proof.
  unfold parseMapping, hasRequiredFields, storedFrom, field.
  destruct element as [| | b | q | s | l | fields]; simpl; try discriminate.
  destruct (lookupField "nistControlId" fields) as [| | b | q | s | l | fs] eqn:Hid;
    simpl; try discriminate.
  all: try (destruct b; simpl; try discriminate).
  all: try (destruct (negb (Qeq_bool q 0)); simpl; try discriminate).
  all: try (destruct (negb (String.eqb s "")) eqn:Hs; simpl; try discriminate).
  all: destruct (lookupField "confidence" fields) as [| | b' | c | s' | l' | fs'] eqn:Hc;
    simpl; try discriminate.
  all: destruct (truthy (lookupField "reasoning" fields)) eqn:Hr; simpl; try discriminate.
  intros H. inversion H; subst; clear H. simpl.
  split; [reflexivity |].
  exists s, c. repeat split; reflexivity.
Qed.


Lemma parseParsed_inr (parsed : JsValue) (l : list ControlMapping) :
  parseParsed parsed = inr l ->
  exists elements,
    mappingsArray parsed = Some elements /\ mapM parseMapping elements = inr l.
Proof.
  unfold parseParsed, mappingsArray, field.
  destruct (getProp parsed "mappings") as [e | ms]; simpl; [discriminate |].
  destruct (truthy ms) eqn:Ht; simpl; [| discriminate].
  destruct ms; try discriminate.
  intros H. eauto.
Qed.


Lemma parseParsed_array (parsed : JsValue) (elements : list JsValue) :
  mappingsArray parsed = Some elements ->
  parseParsed parsed = mapM parseMapping elements.
Proof.
  unfold parseParsed, mappingsArray, field.
  destruct (getProp parsed "mappings") as [e | ms]; simpl; [discriminate |].
  destruct ms; try discriminate.
  intros H. inversion H; subst. reflexivity.
Qed.

Section WithParser.
Variable JSON_parse : string -> option JsValue.


Lemma parseResponse_total (content : string) :
  exists l, parseResponse JSON_parse content = inr l.
Proof.
  unfold parseResponse.
  destruct (parseResponse_try JSON_parse content) as [e | l]; simpl.
  - rewrite fallback_eq. eauto.
  - eauto.
Qed.
End WithParser.
End ParserFacts.

Module ClampFacts.
Import Js OllamaService.
Local Open Scope Q_scope.

Lemma clamp_low (c : Q) : c <= 0 -> clampConfidence c == 0.
Proof.
  intros H. unfold clampConfidence, Math_max, Math_min.
  apply Q.max_l. rewrite Q.min_r; [assumption |].
  apply Qle_trans with 0; [assumption | discriminate].
Qed.

Lemma clamp_high (c : Q) : 100 <= c -> clampConfidence c == 100.
Proof.
  intros H. unfold clampConfidence, Math_max, Math_min.
  rewrite Q.min_l by assumption. apply Q.max_r. discriminate.
Qed.

Lemma clamp_between (c : Q) : 0 <= c -> c <= 100 -> clampConfidence c == c.
Proof.
  intros H0 H1. unfold clampConfidence, Math_max, Math_min.
  rewrite Q.min_r by assumption. now apply Q.max_r.
Qed.

Lemma clamp_range (c : Q) : 0 <= clampConfidence c /\ clampConfidence c <= 100.
Proof.
  unfold clampConfidence, Math_max, Math_min. split.
  - apply Q.le_max_l.
  - apply Q.max_lub; [discriminate | apply Q.le_min_l].
Qed.

Lemma clamp_monotone (c c' : Q) : c <= c' -> clampConfidence c <= clampConfidence c'.
Proof.
  intros H. unfold clampConfidence, Math_max, Math_min.
  apply Q.max_le_compat_l. now apply Q.min_le_compat_l.
Qed.
End ClampFacts.

Module StatsFacts.
Import MappingEngine Spec.
Local Open Scope Q_scope.

Lemma sum_app (l1 l2 : list Q) : sum (l1 ++ l2) == sum l1 + sum l2.
Proof.
  induction l1 as [| x l1 IH]; simpl.
  - now rewrite Qplus_0_l.
  - rewrite IH. now rewrite Qplus_assoc.
Qed.

(** The inner loop of [calculateProcessingMetadata] adds the entry's
    confidences to the running total and its length to the count. *)
Lemma countMapping_fold (l : list NistMapping) (acc : MetadataAcc) :
  let acc' := fold_left countMapping l acc in
  totalConfidence acc' == totalConfidence acc + sum (map confidence l)
  /\ mappingCount acc' = (mappingCount acc + length l)%nat
  /\ acc_totalProcessingTime acc' = acc_totalProcessingTime acc.
Proof.
  revert acc.
  induction l as [| m l IH]; intros acc; simpl.
  - repeat split; [now rewrite Qplus_0_r | lia].
  - destruct (IH (countMapping acc m)) as (Ht & Hc & Hp).
    repeat split.
    + rewrite Ht. simpl. now rewrite Qplus_assoc.
    + rewrite Hc. simpl. lia.
    + rewrite Hp. reflexivity.
Qed.

Lemma countResult_fold (rs : list MappingResult) (acc : MetadataAcc) :
  let acc' := fold_left countResult rs acc in
  totalConfidence acc' == totalConfidence acc + sum (allConfidences rs)
  /\ mappingCount acc' = (mappingCount acc + length (allConfidences rs))%nat.
Proof.
  revert acc.
  induction rs as [| r rs IH]; intros acc; simpl.
  - split; [now rewrite Qplus_0_r | lia].
  - destruct (IH (countResult acc r)) as (Ht & Hc).
    unfold countResult in Ht, Hc |- *.
    match type of Ht with
    | context [fold_left countMapping ?l ?a] =>
        destruct (countMapping_fold l a) as (Ht' & Hc' & _)
    end.
    simpl in Ht', Hc'.
    split.
    + rewrite Ht, Ht'. rewrite sum_app. now rewrite Qplus_assoc.
    + rewrite Hc, Hc'. rewrite length_app, length_map. lia.
Qed.

Lemma averageConfidence_mean (cs : ControlService.t) (now : Z) (e : t) :
  averageConfidence (calculateProcessingMetadata cs now e)
  == mean (allConfidences (JsMap.values (mappingResults e))).
Proof.
  unfold calculateProcessingMetadata. simpl.
  match goal with
  | |- context [fold_left countResult ?rs ?a] =>
      destruct (countResult_fold rs a) as (Ht & Hc)
  end.
  simpl in Ht, Hc. rewrite Hc.
  destruct (allConfidences (JsMap.values (mappingResults e))) as [| c l] eqn:Hl.
  - reflexivity.
  - cbn [length Nat.add Nat.ltb Nat.leb mean]. rewrite Ht. now rewrite Qplus_0_l.
Qed.
End StatsFacts.

Module ReportFacts.
Import ReportService Spec.
Local Open Scope Q_scope.

Lemma report_countMapping_fold (nist : list ControlService.NISTControl)
    (l : list MappingEngine.NistMapping) (stats : SummaryStats) (total : Q) :
  let acc' := fold_left (countMapping nist) l (stats, total) in
  totalMappings (fst acc') = (totalMappings stats + length l)%nat
  /\ snd acc' = total.
Proof.
  revert stats.
  induction l as [| m l IH]; intros stats; simpl.
  - split; [lia | reflexivity].
  - match goal with
    | |- context [fold_left _ l (?s, total)] => destruct (IH s) as (Hc & Ht)
    end.
    simpl in Hc. rewrite Hc, Ht. split; [lia | reflexivity].
Qed.

Lemma report_countResult_fold (nist : list ControlService.NISTControl)
    (ms : list MappingEngine.MappingResult) (stats : SummaryStats) (total : Q) :
  let acc' := fold_left (countResult nist) ms (stats, total) in
  totalMappings (fst acc') = (totalMappings stats + length (allConfidences ms))%nat
  /\ snd acc' == total + sum (processingTimes ms).
Proof.
  revert stats total.
  induction ms as [| r ms IH]; intros stats total; simpl.
  - split; [lia | now rewrite Qplus_0_r].
  - destruct (report_countMapping_fold nist (MappingEngine.nistMappings r) stats
                (total + MappingEngine.processingTime r)) as (Hc & Ht).
    destruct (fold_left (countMapping nist) (MappingEngine.nistMappings r)
                (stats, total + MappingEngine.processingTime r)) as [stats' total'].
    simpl in Hc, Ht. subst total'.
    destruct (IH stats' (total + MappingEngine.processingTime r)) as (Hc' & Ht').
    split.
    + rewrite Hc', Hc. rewrite length_app, length_map. lia.
    + rewrite Ht'. now rewrite Qplus_assoc.
Qed.

(** What the code computes: the guard is on the number of
    correspondences, the divisor is the number of entries. *)
Lemma averageProcessingTime_eq (rd : ReportData) :
  averageProcessingTime (generateSummaryStats rd)
  == if (0 <? length (allConfidences (mappings rd)))%nat
     then mean (processingTimes (mappings rd))
     else 0.
Proof.
  unfold generateSummaryStats.
  match goal with
  | |- context [fold_left (countResult ?n) ?ms (?s, ?t)] =>
      destruct (report_countResult_fold n ms s t) as (Hc & Ht);
      destruct (fold_left (countResult n) ms (s, t)) as [stats total]
  end.
  simpl in Hc, Ht |- *. rewrite Hc.
  destruct (0 <? length (allConfidences (mappings rd)))%nat eqn:Hpos; [| reflexivity].
  rewrite Ht, Qplus_0_l.
  unfold mean, processingTimes.
  destruct (mappings rd) as [| r ms]; [discriminate |].
  rewrite length_map. reflexivity.
Qed.
End ReportFacts.

Module OverrideFacts.
Import MappingEngine Spec JsMapFacts.

Lemma find_none_not_in (target : string) (l : list NistMapping) :
  find (fun m => String.eqb (nistControlId m) target) l = None ->
  ~ In target (map nistControlId l).
Proof.
  induction l as [| m l IH]; simpl; [tauto |].
  destruct (String.eqb_spec (nistControlId m) target) as [E | E]; [discriminate |].
  intros H [Hm | Hin]; [contradiction | now apply IH].
Qed.

Lemma find_some_in (target : string) (l : list NistMapping) (m : NistMapping) :
  find (fun m => String.eqb (nistControlId m) target) l = Some m ->
  In target (map nistControlId l).
Proof.
  intros H. apply find_some in H. destruct H as [Hin E].
  apply String.eqb_eq in E. subst target. now apply in_map.
Qed.

Section Upsert.
Variables (target : string) (nistMetadata : string * string)
          (confidence : Q) (reasoning : string).

Local Abbreviation update := (assignOverride nistMetadata confidence reasoning).

(** The assignments keep the identifier, so the targets stay as they are. *)
Lemma mutateFirst_targets (l : list NistMapping) :
  map nistControlId (mutateFirst target update l) = map nistControlId l.
Proof.
  induction l as [| m l IH]; simpl; [reflexivity |].
  destruct (String.eqb (nistControlId m) target); simpl; [reflexivity | now rewrite IH].
Qed.

Lemma mutateFirst_idempotent (l : list NistMapping) :
  mutateFirst target update (mutateFirst target update l) = mutateFirst target update l.
Proof.
  induction l as [| m l IH]; simpl; [reflexivity |].
  destruct (String.eqb (nistControlId m) target) eqn:E; simpl.
  - now rewrite E.
  - now rewrite E, IH.
Qed.

Lemma upsertOverride_targets (l : list NistMapping) :
  map nistControlId (upsertOverride target nistMetadata confidence reasoning l)
  = if in_dec string_dec target (map nistControlId l)
    then map nistControlId l
    else map nistControlId l ++ [target].
Proof.
  unfold upsertOverride.
  destruct (find _ l) as [m |] eqn:Hf.
  - apply find_some_in in Hf.
    destruct (in_dec string_dec target (map nistControlId l)); [| contradiction].
    apply mutateFirst_targets.
  - apply find_none_not_in in Hf.
    destruct (in_dec string_dec target (map nistControlId l)); [contradiction |].
    now rewrite map_app.
Qed.

Lemma upsertOverride_NoDup (l : list NistMapping) :
  NoDup (map nistControlId l) ->
  NoDup (map nistControlId (upsertOverride target nistMetadata confidence reasoning l)).
Proof.
  intros H. rewrite upsertOverride_targets.
  destruct (in_dec string_dec target (map nistControlId l)) as [Hin | Hnin]; [assumption |].
  apply NoDup_app; [assumption | repeat constructor; simpl; tauto |].
  intros x Hx [<- | []]. contradiction.
Qed.

Lemma upsertOverride_found (l : list NistMapping) :
  In target (map nistControlId (upsertOverride target nistMetadata confidence reasoning l)).
Proof.
  rewrite upsertOverride_targets.
  destruct (in_dec string_dec target (map nistControlId l)); [assumption |].
  apply in_or_app. right. now left.
Qed.

Lemma upsertOverride_idempotent (l : list NistMapping) :
  upsertOverride target nistMetadata confidence reasoning
    (upsertOverride target nistMetadata confidence reasoning l)
  = upsertOverride target nistMetadata confidence reasoning l.
Proof.
  pose proof (upsertOverride_found l) as Hin.
  unfold upsertOverride at 1.
  destruct (find _ (upsertOverride _ _ _ _ l)) as [m |] eqn:Hf.
  - unfold upsertOverride in *.
    destruct (find _ l) as [m0 |] eqn:Hf0.
    + apply mutateFirst_idempotent.
    + clear Hin Hf. apply find_none_not_in in Hf0.
      induction l as [| x l IH]; simpl.
      * now rewrite String.eqb_refl.
      * simpl in Hf0.
        destruct (String.eqb_spec (nistControlId x) target) as [E | E]; [tauto |].
        rewrite IH; [reflexivity | tauto].
  - apply find_none_not_in in Hf. contradiction.
Qed.

Lemma count_occ_upsert (l : list NistMapping) :
  count_occ string_dec
    (map nistControlId (upsertOverride target nistMetadata confidence reasoning l)) target
  = Nat.max 1 (count_occ string_dec (map nistControlId l) target).
Proof.
  rewrite upsertOverride_targets.
  destruct (in_dec string_dec target (map nistControlId l)) as [Hin | Hnin].
  - apply (count_occ_In string_dec) in Hin. lia.
  - rewrite count_occ_app. simpl.
    apply (count_occ_not_In string_dec) in Hnin. rewrite Hnin.
    destruct (string_dec target target); [reflexivity | contradiction].
Qed.

(** In place: the first correspondence for the target takes the new
    confidence, reasoning and flag; every other position is as before. *)
Lemma mutateFirst_nth (l : list NistMapping) (i : nat) :
  nth_error (map nistControlId l) i = Some target ->
  (forall j, j < i -> nth_error (map nistControlId l) j <> Some target) ->
  nth_error (mutateFirst target update l) i
    = Some (overrideMapping target nistMetadata confidence reasoning)
  /\ forall j, j <> i ->
       nth_error (mutateFirst target update l) j = nth_error l j.
Proof.
  revert i.
  induction l as [| m l IH]; intros i Hi Hfirst.
  - destruct i; discriminate.
  - simpl. destruct (String.eqb_spec (nistControlId m) target) as [E | E].
    + destruct i as [| i].
      * split; [unfold assignOverride; simpl; now rewrite E |].
        intros [| j] Hj; [contradiction | reflexivity].
      * exfalso. apply (Hfirst 0); [lia |]. simpl. now rewrite E.
    + destruct i as [| i].
      * simpl in Hi. inversion Hi. contradiction.
      * simpl in Hi.
        destruct (IH i Hi) as [Hm Ho].
        { intros j Hj. apply (Hfirst (S j)). lia. }
        split; [exact Hm |].
        intros [| j] Hj; [reflexivity |].
        simpl. apply Ho. lia.
Qed.
End Upsert.

(** Dropping correspondences from an entry keeps its targets distinct. *)
Lemma targets_distinct_after_removal (keep : NistMapping -> bool) (l : list NistMapping) :
  NoDup (map nistControlId l) -> NoDup (map nistControlId (filter keep l)).
Proof.
  intros Hnd.
  induction l as [| m rest IH]; [constructor |].
  cbn [map filter] in *.
  apply NoDup_cons_iff in Hnd. destruct Hnd as [Hfresh Hrest].
  destruct (keep m); [| exact (IH Hrest)].
  cbn [map]. apply NoDup_cons; [| exact (IH Hrest)].
  intros Hin. apply Hfresh.
  apply in_map_iff in Hin. destruct Hin as (m' & Hid & Hm').
  apply filter_In in Hm'. rewrite <- Hid.
  apply in_map. exact (proj1 Hm').
Qed.
End OverrideFacts.

Module EngineFacts.
Import MappingEngine Spec JsMapFacts OverrideFacts.

Lemma mappingResults_updateJob (jobId : string) (f : ProcessingJob -> ProcessingJob) (e : t) :
  mappingResults (updateJob jobId f e) = mappingResults e.
Proof. unfold updateJob. now destruct (JsMap.get jobId (activeJobs e)). Qed.

Lemma resultsQueue_updateJob (jobId : string) (f : ProcessingJob -> ProcessingJob) (e : t) :
  resultsQueue (updateJob jobId f e) = resultsQueue e.
Proof. unfold updateJob. now destruct (JsMap.get jobId (activeJobs e)). Qed.

Lemma aiService_updateJob (jobId : string) (f : ProcessingJob -> ProcessingJob) (e : t) :
  aiService (updateJob jobId f e) = aiService e.
Proof. unfold updateJob. now destruct (JsMap.get jobId (activeJobs e)). Qed.

Lemma getJob_updateJob (jobId : string) (f : ProcessingJob -> ProcessingJob) (e : t) :
  JsMap.get jobId (activeJobs (updateJob jobId f e))
  = option_map f (JsMap.get jobId (activeJobs e)).
Proof.
  unfold updateJob.
  destruct (JsMap.get jobId (activeJobs e)) as [j |] eqn:Hj; simpl.
  - apply get_set_same.
  - exact Hj.
Qed.

Lemma mappingResults_storeResult (cs : ControlService.t) (jobId : string) (pushedAt : Z)
    (controlId : string) (ar : OllamaService.MappingAnalysisResult) (e : t) :
  mappingResults (storeResult cs jobId pushedAt (controlId, ar) e)
  = JsMap.set controlId (toMappingResult cs controlId ar) (mappingResults e).
Proof. unfold storeResult. simpl. now rewrite mappingResults_updateJob. Qed.

Lemma targets_toMappingResult (cs : ControlService.t) (controlId : string)
    (ar : OllamaService.MappingAnalysisResult) :
  targets (toMappingResult cs controlId ar)
  = map OllamaService.nistControlId (OllamaService.mappings ar).
Proof. unfold targets, toMappingResult. simpl. rewrite map_map. reflexivity. Qed.

(** What [applyManualOverride] leaves under the key it writes, and under
    the others. *)
Lemma get_applyManualOverride (cs : ControlService.t) (now : Z)
    (ismControlId nistControlId : string) (confidence : Q) (reasoning : string)
    (e : t) (k : string) :
  JsMap.get k (mappingResults
    (applyManualOverride cs now ismControlId nistControlId confidence reasoning e))
  = if String.eqb ismControlId k then
      Some
        match JsMap.get ismControlId (mappingResults e) with
        | None =>
            {| ismControlId := ismControlId;
               nistMappings :=
                 [overrideMapping nistControlId
                    (getNISTControlMetadata cs nistControlId) confidence reasoning];
               processingTimestamp := now;
               aiModel := "manual-override";
               processingTime := 0 |}
        | Some r =>
            {| ismControlId := MappingEngine.ismControlId r;
               nistMappings :=
                 upsertOverride nistControlId (getNISTControlMetadata cs nistControlId)
                   confidence reasoning (nistMappings r);
               processingTimestamp := processingTimestamp r;
               aiModel := aiModel r;
               processingTime := processingTime r |}
        end
    else JsMap.get k (mappingResults e).
Proof.
  unfold applyManualOverride.
  destruct (JsMap.get ismControlId (mappingResults e)); simpl; apply get_set.
Qed.

Lemma applyManualOverride_idempotent (cs : ControlService.t) (now now' : Z)
    (ismControlId nistControlId : string) (confidence : Q) (reasoning : string) (e : t) :
  applyManualOverride cs now' ismControlId nistControlId confidence reasoning
    (applyManualOverride cs now ismControlId nistControlId confidence reasoning e)
  = applyManualOverride cs now ismControlId nistControlId confidence reasoning e.
Proof.
  unfold applyManualOverride at 1.
  rewrite get_applyManualOverride, String.eqb_refl.
  unfold applyManualOverride.
  destruct (JsMap.get ismControlId (mappingResults e)) as [r |]; simpl.
  - rewrite upsertOverride_idempotent. unfold withMappingResults. simpl.
    now rewrite set_set.
  - change [overrideMapping nistControlId (getNISTControlMetadata cs nistControlId)
              confidence reasoning]
      with (upsertOverride nistControlId (getNISTControlMetadata cs nistControlId)
              confidence reasoning []).
    rewrite upsertOverride_idempotent. unfold withMappingResults. simpl.
    now rewrite set_set.
Qed.

Lemma correspondencesFor_applyManualOverride (cs : ControlService.t) (now : Z)
    (ismControlId nistControlId : string) (confidence : Q) (reasoning : string) (e : t) :
  correspondencesFor ismControlId nistControlId
    (applyManualOverride cs now ismControlId nistControlId confidence reasoning e)
  = Nat.max 1 (correspondencesFor ismControlId nistControlId e).
Proof.
  unfold correspondencesFor.
  rewrite get_applyManualOverride, String.eqb_refl.
  destruct (JsMap.get ismControlId (mappingResults e)) as [r |]; unfold targets; simpl.
  - apply count_occ_upsert.
  - destruct (string_dec nistControlId nistControlId); [reflexivity | contradiction].
Qed.

(** The invariant of the mapping state under each operation. *)
Lemma applyManualOverride_invariant (cs : ControlService.t) (now : Z)
    (ismControlId nistControlId : string) (confidence : Q) (reasoning : string) (e : t) :
  oneCorrespondencePerTarget e ->
  oneCorrespondencePerTarget
    (applyManualOverride cs now ismControlId nistControlId confidence reasoning e).
Proof.
  intros Hinv k r. rewrite get_applyManualOverride.
  destruct (String.eqb ismControlId k); [| apply Hinv].
  intros H. inversion H; subst; clear H.
  destruct (JsMap.get ismControlId (mappingResults e)) as [r0 |] eqn:Hr; unfold targets; simpl.
  - apply upsertOverride_NoDup. exact (Hinv _ _ Hr).
  - repeat constructor. simpl. tauto.
Qed.

Lemma removeManualOverride_invariant (ismControlId nistControlId : string) (e : t) :
  oneCorrespondencePerTarget e ->
  oneCorrespondencePerTarget (removeManualOverride ismControlId nistControlId e).
Proof.
  intros Hinv k r. unfold removeManualOverride.
  destruct (JsMap.get ismControlId (mappingResults e)) as [r0 |] eqn:Hr; [| apply Hinv].
  simpl. rewrite get_set.
  destruct (String.eqb ismControlId k); [| apply Hinv].
  intros H. inversion H; subst; clear H. unfold targets. simpl.
  apply targets_distinct_after_removal. exact (Hinv _ _ Hr).
Qed.

Lemma storeResult_invariant (cs : ControlService.t) (jobId : string) (pushedAt : Z)
    (controlId : string) (ar : OllamaService.MappingAnalysisResult) (e : t) :
  NoDup (map OllamaService.nistControlId (OllamaService.mappings ar)) ->
  oneCorrespondencePerTarget e ->
  oneCorrespondencePerTarget (storeResult cs jobId pushedAt (controlId, ar) e).
Proof.
  intros Hnd Hinv k r. rewrite mappingResults_storeResult, get_set.
  destruct (String.eqb controlId k); [| apply Hinv].
  intros H. inversion H; subst; clear H.
  now rewrite targets_toMappingResult.
Qed.

Lemma reset_invariant (e : t) : oneCorrespondencePerTarget (reset e).
Proof. intros k r H. discriminate. Qed.

Lemma apply_invariant (op : Trace.Op) (e : t) :
  Trace.distinctTargets op ->
  oneCorrespondencePerTarget e -> oneCorrespondencePerTarget (Trace.apply e op).
Proof.
  destruct op; simpl; intros Hd Hinv.
  - now apply applyManualOverride_invariant.
  - now apply removeManualOverride_invariant.
  - now apply storeResult_invariant.
  - apply reset_invariant.
Qed.
End EngineFacts.

Module MetadataFacts.
Import MappingEngine Spec JsMapFacts OverrideFacts EngineFacts.

Lemma values_set_Forall {V : Type} (P : V -> Prop) (k : string) (v : V) (m : JsMap.t V) :
  P v -> Forall P (JsMap.values m) -> Forall P (JsMap.values (JsMap.set k v m)).
Proof.
  intros Hv. unfold JsMap.values.
  induction m as [| [k' v'] m IH]; simpl; intros H.
  - repeat constructor. exact Hv.
  - inversion H; subst.
    destruct (String.eqb k' k); simpl; constructor; auto.
Qed.

Lemma get_In_values {V : Type} (k : string) (v : V) (m : JsMap.t V) :
  JsMap.get k m = Some v -> In v (JsMap.values m).
Proof.
  unfold JsMap.values.
  induction m as [| [k' v'] m IH]; simpl; [discriminate |].
  destruct (String.eqb k' k); intros H.
  - inversion H. now left.
  - right. now apply IH.
Qed.

Lemma orElse_nonempty (x : option string) (fallback : string) :
  fallback <> "" -> orElse x fallback <> "".
Proof.
  intros Hf. unfold orElse.
  destruct x as [s |]; [| exact Hf].
  destruct (String.eqb_spec s ""); assumption.
Qed.

(** The metadata of a target is never empty: an unknown target or an empty
    text gets the placeholder. *)
Lemma getNISTControlMetadata_nonempty (cs : ControlService.t) (nistControlId : string) :
  fst (getNISTControlMetadata cs nistControlId) <> ""
  /\ snd (getNISTControlMetadata cs nistControlId) <> "".
Proof.
  unfold getNISTControlMetadata. simpl.
  split; apply orElse_nonempty; discriminate.
Qed.

Lemma enrich_titled (cs : ControlService.t) (m : NistMapping) :
  titled m -> enrich cs m = m.
Proof.
  intros [Ht Hd]. unfold enrich.
  apply String.eqb_neq in Ht, Hd. now rewrite Ht, Hd.
Qed.

Lemma enrichResult_titled (cs : ControlService.t) (r : MappingResult) :
  Forall titled (nistMappings r) -> enrichResult cs r = r.
Proof.
  intros H. unfold enrichResult. destruct r as [i l ts a p]. simpl in *. f_equal.
  induction H as [| m l Hm _ IH]; simpl; [reflexivity |].
  now rewrite enrich_titled, IH.
Qed.







End MetadataFacts.

Module BatchFacts.
Import MappingEngine Spec JsMapFacts EngineFacts.

Section Batch.
Variable JSON_parse : string -> option Js.JsValue.
Variables (cs : ControlService.t) (jobId : string) (clock : nat -> Z).
Variables (ai : OllamaService.OllamaConfig)
          (nistControls : list ControlService.NISTControl)
          (world : nat -> OllamaService.CallEnv) (total : nat).

Local Abbreviation outcome := (Spec.outcome JSON_parse ai nistControls world).

Lemma mappingResults_onProgress (completed : nat)
    (latest : option (string * OllamaService.MappingAnalysisResult)) (e : t) :
  mappingResults (onProgress cs jobId clock completed total latest e)
  = match latest with
    | Some (id, r) => JsMap.set id (toMappingResult cs id r) (mappingResults e)
    | None => mappingResults e
    end.
Proof.
  unfold onProgress.
  destruct latest as [[id r] |].
  - now rewrite mappingResults_storeResult, mappingResults_updateJob.
  - apply mappingResults_updateJob.
Qed.

Lemma aiService_onProgress (completed : nat)
    (latest : option (string * OllamaService.MappingAnalysisResult)) (e : t) :
  aiService (onProgress cs jobId clock completed total latest e) = aiService e.
Proof.
  unfold onProgress, storeResult.
  destruct latest as [[id r] |]; simpl;
    repeat (rewrite aiService_updateJob; simpl); reflexivity.
Qed.

(** The callback sets the job's counter to [completed] and leaves its
    status and its total as they are. *)
Lemma job_onProgress (completed : nat)
    (latest : option (string * OllamaService.MappingAnalysisResult))
    (e : t) (job : ProcessingJob) :
  JsMap.get jobId (activeJobs e) = Some job ->
  exists job',
    JsMap.get jobId (activeJobs (onProgress cs jobId clock completed total latest e))
      = Some job'
    /\ status job' = status job
    /\ totalControls job' = totalControls job
    /\ processedControls job' = completed.
Proof.
  intros Hj. unfold onProgress.
  destruct latest as [[id r] |].
  - unfold storeResult. simpl.
    rewrite getJob_updateJob. simpl. rewrite getJob_updateJob, Hj. simpl.
    eexists. split; [reflexivity |]. simpl. auto.
  - rewrite getJob_updateJob, Hj. simpl.
    eexists. split; [reflexivity |]. simpl. auto.
Qed.

Lemma batchLoop_cons {St : Type}
    (onProgress : nat -> nat -> option (string * OllamaService.MappingAnalysisResult)
                  -> St -> St)
    (c : ControlService.ISMControl) (rest : list ControlService.ISMControl)
    (k : nat) (results : JsMap.t OllamaService.MappingAnalysisResult) (st : St) :
  OllamaService.batchLoop JSON_parse ai nistControls onProgress total world
    (c :: rest) k results st
  = match outcome k c with
    | inr r =>
        OllamaService.batchLoop JSON_parse ai nistControls onProgress total world
          rest (S k) (JsMap.set (ControlService.ism_id c) r results)
          (onProgress (S k) total (Some (ControlService.ism_id c, r)) st)
    | inl _ =>
        OllamaService.batchLoop JSON_parse ai nistControls onProgress total world
          rest (S k) results (onProgress (S k) total None st)
    end.
Proof. reflexivity. Qed.

Lemma batchLoop_spec (batch : list ControlService.ISMControl) :
  forall (k : nat) (results : JsMap.t OllamaService.MappingAnalysisResult)
         (e : t) (job : ProcessingJob),
    JsMap.get jobId (activeJobs e) = Some job ->
    let e' :=
      snd (OllamaService.batchLoop JSON_parse ai nistControls
             (onProgress cs jobId clock) total world batch k results e) in
    (exists job',
        JsMap.get jobId (activeJobs e') = Some job'
        /\ status job' = status job
        /\ totalControls job' = totalControls job
        /\ processedControls job'
           = match batch with
             | [] => processedControls job
             | _ => k + length batch
             end)
    /\ forall id,
         JsMap.get id (mappingResults e')
         = match lastSuccess outcome batch k id with
           | Some r => Some (toMappingResult cs id r)
           | None => JsMap.get id (mappingResults e)
           end.
Proof.
  induction batch as [| c rest IH]; intros k results e job Hj; cbv zeta.
  - simpl. split; [exists job; auto | reflexivity].
  - rewrite batchLoop_cons. cbn [lastSuccess length].
    destruct (outcome k c) as [err | r] eqn:Ho.
    + destruct (job_onProgress (S k) None e job Hj) as (job1 & Hj1 & Hs & Ht & Hp).
      destruct (IH (S k) results _ job1 Hj1) as ((job' & Hj' & Hs' & Ht' & Hp') & Hm).
      split.
      * exists job'. repeat split; try congruence.
        rewrite Hp'. destruct rest; simpl; lia.
      * intros id. rewrite Hm, mappingResults_onProgress.
        destruct (lastSuccess outcome rest (S k) id); [reflexivity |].
        now destruct (String.eqb (ControlService.ism_id c) id).
    + destruct (job_onProgress (S k) (Some (ControlService.ism_id c, r)) e job Hj)
        as (job1 & Hj1 & Hs & Ht & Hp).
      destruct (IH (S k) (JsMap.set (ControlService.ism_id c) r results) _ job1 Hj1)
        as ((job' & Hj' & Hs' & Ht' & Hp') & Hm).
      split.
      * exists job'. repeat split; try congruence.
        rewrite Hp'. destruct rest; simpl; lia.
      * intros id. rewrite Hm, mappingResults_onProgress, get_set.
        destruct (lastSuccess outcome rest (S k) id); [reflexivity |].
        destruct (String.eqb_spec (ControlService.ism_id c) id) as [-> | Hne];
          reflexivity.
Qed.

Lemma lastSuccess_none (batch : list ControlService.ISMControl) (k : nat) (id : string) :
  (forall i c, nth_error batch i = Some c -> ControlService.ism_id c = id ->
               exists err, outcome (k + i) c = inl err) ->
  lastSuccess outcome batch k id = None.
Proof.
  revert k.
  induction batch as [| c rest IH]; intros k H; simpl; [reflexivity |].
  rewrite IH.
  - destruct (String.eqb_spec (ControlService.ism_id c) id) as [E | E]; [| reflexivity].
    destruct (H 0 c eq_refl E) as [err Herr].
    rewrite Nat.add_0_r in Herr. now rewrite Herr.
  - intros i c' Hi Hid. replace (S k + i) with (k + S i) by lia.
    now apply H.
Qed.

Lemma lastSuccess_some (batch : list ControlService.ISMControl) (k i : nat)
    (c : ControlService.ISMControl) (r : OllamaService.MappingAnalysisResult) :
  nth_error batch i = Some c -> outcome (k + i) c = inr r ->
  exists r', lastSuccess outcome batch k (ControlService.ism_id c) = Some r'.
Proof.
  revert k i.
  induction batch as [| c0 rest IH]; intros k i Hi Ho; [destruct i; discriminate |].
  simpl. destruct i as [| i]; simpl in Hi.
  - inversion Hi; subst c0. rewrite Nat.add_0_r in Ho.
    destruct (lastSuccess outcome rest (S k) (ControlService.ism_id c)); [eauto |].
    rewrite String.eqb_refl, Ho. eauto.
  - replace (k + S i) with (S k + i) in Ho by lia.
    destruct (IH (S k) i Hi Ho) as [r' ->]. eauto.
Qed.
End Batch.
End BatchFacts.

(** ** The claims *)



(** Claim C7.  Where the response parses, each stored candidate comes from
    the element of [mappings] at its position: its target is the element's
    [nistControlId] in upper case and trimmed, its confidence the element's
    [confidence] clamped by [clampConfidence].  The clamp sends a number at
    most 0 to 0, a number at least 100 to 100, leaves the numbers between
    as they are, stays within 0 and 100, and is monotone. *)
Theorem parsed_candidates_are_normalized_and_clamped :
  (forall (JSON_parse : string -> option Js.JsValue) (content : string)
          (l : list OllamaService.ControlMapping),
      OllamaService.parseResponse_try JSON_parse content = inr l ->
      OllamaService.parseResponse JSON_parse content = inr l
      /\ exists json parsed elements,
           Js.matchBraces content = Some json
           /\ JSON_parse json = Some parsed
           /\ Spec.mappingsArray parsed = Some elements
           /\ Forall2 Spec.storedFrom elements l)
  /\ (forall c : Q,
        (c <= 0 -> OllamaService.clampConfidence c == 0)
        /\ (100 <= c -> OllamaService.clampConfidence c == 100)
        /\ (0 <= c -> c <= 100 -> OllamaService.clampConfidence c == c)
        /\ 0 <= OllamaService.clampConfidence c <= 100)%Q
  /\ (forall c c' : Q,
        c <= c' -> OllamaService.clampConfidence c <= OllamaService.clampConfidence c')%Q.
Proof.
  split; [| split].
  - intros JSON_parse content l H. split.
    + unfold OllamaService.parseResponse. now rewrite H.
    + unfold OllamaService.parseResponse_try in H.
      destruct (Js.matchBraces content) as [json |]; [| discriminate].
      destruct (JSON_parse json) as [parsed |] eqn:Hp; [| discriminate].
      apply ParserFacts.parseParsed_inr in H. destruct H as (elements & Ha & Hm).
      exists json, parsed, elements. repeat split; try assumption.
      apply JsFacts.mapM_inr in Hm.
      revert Hm. apply Forall2_impl. intros x y Hxy.
      exact (proj2 (ParserFacts.parseMapping_inr _ _ Hxy)).
  - intros c. repeat split.
    + apply ClampFacts.clamp_low.
    + apply ClampFacts.clamp_high.
    + apply ClampFacts.clamp_between.
    + apply ClampFacts.clamp_range.
    + apply ClampFacts.clamp_range.
  - apply ClampFacts.clamp_monotone.
Qed.

(** The candidate [ ac-2 ] at confidence 250 is stored as [AC-2] at 100. *)
Lemma parsed_candidates_are_normalized_and_clamped_witness :
  OllamaService.parseResponse_try JsonText.readJson Examples.looseText
    = inr [ {| OllamaService.nistControlId := "AC-2";
               OllamaService.confidence := OllamaService.clampConfidence 250;
               OllamaService.reasoning := Js.JString "account management" |} ]
  /\ (OllamaService.clampConfidence 250 == 100)%Q
  /\ exists json parsed elements,
       Js.matchBraces Examples.looseText = Some json
       /\ JsonText.readJson json = Some parsed
       /\ Spec.mappingsArray parsed = Some elements
       /\ Forall2 Spec.storedFrom elements
            [ {| OllamaService.nistControlId := "AC-2";
                 OllamaService.confidence := OllamaService.clampConfidence 250;
                 OllamaService.reasoning := Js.JString "account management" |} ].
Proof.
  split; [reflexivity |].
  split.
  - apply (proj1 (proj2 (proj1 (proj2 parsed_candidates_are_normalized_and_clamped) 250%Q))).
    discriminate.
  - exact (proj2 (proj1 parsed_candidates_are_normalized_and_clamped
                    JsonText.readJson Examples.looseText _ eq_refl)).
Defined.

Module StartFacts.
Import MappingEngine Spec.

Lemma filterBoolean_known (cs : ControlService.t) (ids : list string) :
  filterBoolean (map (fun id => ControlService.getISMControlById id cs) ids)
  = filterBoolean (map (fun id => ControlService.getISMControlById id cs) (knownIds cs ids)).
Proof.
  unfold knownIds.
  induction ids as [| id ids IH]; simpl; [reflexivity |].
  destruct (ControlService.getISMControlById id cs) as [c |] eqn:Hc; simpl.
  - now rewrite Hc, IH.
  - exact IH.
Qed.

Lemma length_filterBoolean_known (cs : ControlService.t) (ids : list string) :
  length (filterBoolean (map (fun id => ControlService.getISMControlById id cs) ids))
  = length (knownIds cs ids).
Proof.
  unfold knownIds.
  induction ids as [| id ids IH]; simpl; [reflexivity |].
  destruct (ControlService.getISMControlById id cs); simpl; now rewrite IH.
Qed.

Lemma startProcessing_failure (cs : ControlService.t) (jobId : string) (now : Z)
    (controlIds : option (list string)) (e : t) (err : Js.JsError) (e' : t) :
  startProcessing cs jobId now controlIds e = (inl err, e') -> e' = e.
Proof.
  unfold startProcessing.
  destruct (aiService e); [| now inversion 1].
  destruct (negb (ControlService.isReady cs)); [now inversion 1 |].
  destruct (length (selectControls cs controlIds) =? 0)%nat; [now inversion 1 |].
  destruct (length (ControlService.getNISTControls cs) =? 0)%nat; [now inversion 1 |].
  discriminate.
Qed.
End StartFacts.

(** Claim C5.  [startProcessing] fails with the not-initialized error when
    the engine has no service, with the not-ready error when the service is
    there and the catalog store is not ready, and with the empty-batch error
    when the batch is empty; every failure leaves the engine, so the jobs
    table and the mapping state, as it was.  The ids that the catalog store
    does not know are dropped: the batch is that of the known ids, and the
    job is started on it when it is not empty; when [startProcessing] returns
    the job is in the table, [processing], with the size of that batch. *)
Theorem startProcessing_preconditions :
  forall (cs : ControlService.t) (jobId : string) (now : Z)
         (controlIds : option (list string)) (e : MappingEngine.t),
    let started := MappingEngine.startProcessing cs jobId now controlIds e in
    (MappingEngine.aiService e = None ->
       started = (inl MappingEngine.notInitializedError, e))
    /\ (MappingEngine.aiService e <> None -> ControlService.isReady cs = false ->
          started = (inl MappingEngine.notReadyError, e))
    /\ (MappingEngine.aiService e <> None -> ControlService.isReady cs = true ->
          MappingEngine.selectControls cs controlIds = [] ->
          started = (inl MappingEngine.emptyBatchError, e))
    /\ (forall err e', started = (inl err, e') ->
          e' = e
          /\ MappingEngine.activeJobs e' = MappingEngine.activeJobs e
          /\ MappingEngine.mappingResults e' = MappingEngine.mappingResults e)
    /\ (forall ids, controlIds = Some ids ->
          MappingEngine.selectControls cs controlIds
            = MappingEngine.selectControls cs (Some (Spec.knownIds cs ids))
          /\ length (MappingEngine.selectControls cs controlIds)
             = length (Spec.knownIds cs ids)
          /\ (MappingEngine.aiService e <> None -> ControlService.isReady cs = true ->
              Spec.knownIds cs ids <> [] -> ControlService.getNISTControls cs <> [] ->
              exists job,
                started = (inr jobId,
                           MappingEngine.withActiveJobs (JsMap.set jobId job) e)
                /\ MappingEngine.status job = MappingEngine.processing
                /\ MappingEngine.totalControls job = length (Spec.knownIds cs ids))).
Proof.
  intros cs jobId now controlIds e started.
  split; [| split; [| split; [| split]]].
  - intros Hai. subst started. unfold MappingEngine.startProcessing. now rewrite Hai.
  - intros Hai Hr. subst started. unfold MappingEngine.startProcessing.
    destruct (MappingEngine.aiService e); [| contradiction]. now rewrite Hr.
  - intros Hai Hr Hb. subst started. unfold MappingEngine.startProcessing.
    destruct (MappingEngine.aiService e); [| contradiction]. now rewrite Hr, Hb.
  - intros err e' H. apply StartFacts.startProcessing_failure in H. now subst e'.
  - intros ids ->. split; [| split].
    + apply StartFacts.filterBoolean_known.
    + apply StartFacts.length_filterBoolean_known.
    + intros Hai Hr Hk Hn. subst started. unfold MappingEngine.startProcessing.
      destruct (MappingEngine.aiService e); [| contradiction]. rewrite Hr. simpl.
      rewrite StartFacts.length_filterBoolean_known.
      destruct (Spec.knownIds cs ids) as [| k ks] eqn:Hks; [contradiction |].
      destruct (ControlService.getNISTControls cs) as [| n ns]; [contradiction |].
      cbn [length Nat.eqb].
      unfold MappingEngine.beginProcessing, MappingEngine.updateJob.
      cbn [MappingEngine.withActiveJobs MappingEngine.activeJobs].
      rewrite JsMapFacts.get_set_same.
      unfold MappingEngine.withActiveJobs.
      cbn [MappingEngine.activeJobs MappingEngine.aiService MappingEngine.mappingResults
           MappingEngine.resultsQueue].
      rewrite JsMapFacts.set_set.
      eexists. split; [reflexivity |]. split; reflexivity.
Qed.

(** The three failures, and a batch of three ids of which one is unknown,
    whose job is [processing] when [startProcessing] returns. *)
Lemma startProcessing_preconditions_witness :
  (MappingEngine.aiService MappingEngine.initial = None
   /\ MappingEngine.startProcessing Examples.catalog "job_7" 2900 None MappingEngine.initial
      = (inl MappingEngine.notInitializedError, MappingEngine.initial))
  /\ (MappingEngine.aiService Examples.engine <> None
      /\ ControlService.isReady ControlService.initial = false
      /\ MappingEngine.startProcessing ControlService.initial "job_7" 2900 None Examples.engine
         = (inl MappingEngine.notReadyError, Examples.engine))
  /\ (ControlService.isReady Examples.catalog = true
      /\ MappingEngine.selectControls Examples.catalog (Some ["ism-404"]) = []
      /\ MappingEngine.startProcessing Examples.catalog "job_7" 2900 (Some ["ism-404"])
           Examples.engine
         = (inl MappingEngine.emptyBatchError, Examples.engine))
  /\ (Spec.knownIds Examples.catalog ["ism-001"; "ism-404"; "ism-002"] = ["ism-001"; "ism-002"]
      /\ length (MappingEngine.selectControls Examples.catalog
                   (Some ["ism-001"; "ism-404"; "ism-002"])) = 2)
  /\ (exists job,
        MappingEngine.startProcessing Examples.catalog "job_7" 2900
          (Some ["ism-001"; "ism-404"; "ism-002"]) Examples.engine
        = (inr "job_7",
           MappingEngine.withActiveJobs (JsMap.set "job_7" job) Examples.engine)
        /\ MappingEngine.status job = MappingEngine.processing
        /\ MappingEngine.totalControls job = 2).
Proof.
  assert (Hai : MappingEngine.aiService Examples.engine <> None) by discriminate.
  split; [| split; [| split; [| split]]].
  - split; [reflexivity |].
    exact (proj1 (startProcessing_preconditions Examples.catalog "job_7" 2900 None
                    MappingEngine.initial) eq_refl).
  - split; [exact Hai |]. split; [reflexivity |].
    exact (proj1 (proj2 (startProcessing_preconditions ControlService.initial "job_7" 2900
                           None Examples.engine)) Hai eq_refl).
  - split; [reflexivity |]. split; [reflexivity |].
    exact (proj1 (proj2 (proj2 (startProcessing_preconditions Examples.catalog "job_7" 2900
                                  (Some ["ism-404"]) Examples.engine)))
             Hai eq_refl eq_refl).
  - split; [reflexivity |].
    exact (proj1 (proj2 (proj2 (proj2 (proj2 (proj2
             (startProcessing_preconditions Examples.catalog "job_7" 2900
                (Some ["ism-001"; "ism-404"; "ism-002"]) Examples.engine))))
             ["ism-001"; "ism-404"; "ism-002"] eq_refl))).
  - assert (Hk : Spec.knownIds Examples.catalog ["ism-001"; "ism-404"; "ism-002"] <> [])
      by discriminate.
    assert (Hn : ControlService.getNISTControls Examples.catalog <> []) by discriminate.
    exact (proj2 (proj2 (proj2 (proj2 (proj2 (proj2
             (startProcessing_preconditions Examples.catalog "job_7" 2900
                (Some ["ism-001"; "ism-404"; "ism-002"]) Examples.engine))))
             ["ism-001"; "ism-404"; "ism-002"] eq_refl)) Hai eq_refl Hk Hn).
Defined.

(** Claim C10.  [reset] does not clear the results queue: when the queue is
    not empty, right after the reset [hasNewResults()] is true and
    [getNewResults()] returns the items queued before it (for a given job id
    too), while no entry and no job is left and [totalMappings] is 0. *)
Theorem reset_keeps_results_queue :
  forall e : MappingEngine.t,
    MappingEngine.resultsQueue e <> [] ->
    let e' := MappingEngine.reset e in
    MappingEngine.hasNewResults None e' = true
    /\ fst (MappingEngine.getNewResults None e') = MappingEngine.resultsQueue e
    /\ (forall jobId,
          MappingEngine.hasNewResults jobId e' = MappingEngine.hasNewResults jobId e
          /\ fst (MappingEngine.getNewResults jobId e')
             = fst (MappingEngine.getNewResults jobId e))
    /\ (forall cs ismControlId, MappingEngine.getMappingResult cs e' ismControlId = None)
    /\ MappingEngine.totalMappings (MappingEngine.getProcessingStats e') = 0
    /\ (forall jobId, MappingEngine.getJobStatus e' jobId = None).
Proof.
  intros e Hq e'. subst e'.
  repeat split.
  - unfold MappingEngine.hasNewResults. simpl.
    destruct (MappingEngine.resultsQueue e); [contradiction | reflexivity].
  - unfold MappingEngine.getNewResults, MappingEngine.hasNewResults.
    now destruct (MappingEngine.givenJobId jobId).
Qed.

(** The item queued by an analysis write is still there after the reset. *)
Lemma reset_keeps_results_queue_witness :
  MappingEngine.resultsQueue Examples.engineAfterWrite <> []
  /\ MappingEngine.hasNewResults None (MappingEngine.reset Examples.engineAfterWrite) = true
  /\ fst (MappingEngine.getNewResults None (MappingEngine.reset Examples.engineAfterWrite))
     = MappingEngine.resultsQueue Examples.engineAfterWrite.
Proof.
  assert (Hq : MappingEngine.resultsQueue Examples.engineAfterWrite <> []) by discriminate.
  split; [exact Hq |].
  split.
  - exact (proj1 (reset_keeps_results_queue Examples.engineAfterWrite Hq)).
  - exact (proj1 (proj2 (reset_keeps_results_queue Examples.engineAfterWrite Hq))).
Defined.

(** Claim C6.  For every mapping state and every number of source-A
    controls, [unmappedControls] plus the number of entries is
    [totalISMControls], and [averageConfidence] is the mean of the
    confidences of all correspondences of all entries pooled, which is 0
    when there is none. *)
Theorem statistics_consistent :
  forall (cs : ControlService.t) (now : Z) (e : MappingEngine.t),
    let m := MappingEngine.calculateProcessingMetadata cs now e in
    let entries := JsMap.values (MappingEngine.mappingResults e) in
    (MappingEngine.unmappedControls m + Z.of_nat (length entries)
       = MappingEngine.totalISMControls m)%Z
    /\ MappingEngine.totalISMControls m
       = Z.of_nat (length (ControlService.getISMControls cs))
    /\ (MappingEngine.averageConfidence m == Spec.mean (Spec.allConfidences entries))%Q.
Proof.
  intros cs now e m entries. subst m entries.
  split; [| split].
  - unfold MappingEngine.calculateProcessingMetadata. simpl. lia.
  - reflexivity.
  - apply StatsFacts.averageConfidence_mean.
Qed.

(** Claim C9, on the report of one entry that has no correspondence and took
    1500 ms: the mean of the entry-level times is 1500, and
    [generateSummaryStats] gives 0, its guard being the number of
    correspondences and not the number of entries. *)
Theorem averageProcessingTime_zero_without_correspondences :
  ReportService.mappings Examples.reportOfEmptyEntry = [Examples.emptyEntry]
  /\ ReportService.averageProcessingTime
       (ReportService.generateSummaryStats Examples.reportOfEmptyEntry) = 0%Q
  /\ (Spec.mean (Spec.processingTimes (ReportService.mappings Examples.reportOfEmptyEntry))
      == 1500)%Q
  /\ ~ (ReportService.averageProcessingTime
          (ReportService.generateSummaryStats Examples.reportOfEmptyEntry)
        == Spec.mean (Spec.processingTimes
                        (ReportService.mappings Examples.reportOfEmptyEntry)))%Q.
Proof.
  repeat split; try reflexivity. intros H. vm_compute in H. discriminate.
Qed.

(** The invariant of claim C1 does not hold after every analysis write: the
    candidates parsed from a response that names [AC-1] twice, in two
    spellings, are stored as two correspondences for [AC-1]. *)
Lemma analysis_write_repeats_target :
  OllamaService.parseResponse JsonText.readJson Examples.repeatedText
    = inr Examples.repeatedCandidates
  /\ Spec.oneCorrespondencePerTarget Examples.engine
  /\ ~ Spec.oneCorrespondencePerTarget (Trace.run [Examples.repeatedWrite] Examples.engine).
Proof.
  split; [reflexivity |].
  split.
  - intros k r H. discriminate.
  - intros H.
    specialize (H "ism-001" _ eq_refl).
    inversion H as [| x l Hnin _]; subst.
    apply Hnin. left. reflexivity.
Qed.

(** Claim C1, as amended.  In every entry of the mapping state no two
    correspondences share a target identifier, after any sequence of manual
    overrides, removals of overrides, resets and writes of analysis results
    whose candidates have pairwise distinct targets. *)
Theorem one_correspondence_per_target_preserved :
  forall (ops : list Trace.Op) (e : MappingEngine.t),
    Forall Trace.distinctTargets ops ->
    Spec.oneCorrespondencePerTarget e ->
    Spec.oneCorrespondencePerTarget (Trace.run ops e).
Proof.
  unfold Trace.run.
  induction ops as [| op ops IH]; intros e Hops Hinv; simpl; [assumption |].
  inversion Hops; subst.
  apply IH; [assumption |].
  now apply EngineFacts.apply_invariant.
Qed.

(** A write of two distinct targets, two overrides and a removal. *)
Lemma one_correspondence_per_target_preserved_witness :
  let ops :=
    [ Trace.AnalysisWrite Examples.catalog "job_1" 2100 "ism-001"
        (Examples.analysis [Examples.candidate "AC-1" 85; Examples.candidate "AC-2" 70]);
      Trace.Override Examples.catalog 3000 "ism-001" "AC-1" 95 "manual review";
      Trace.Override Examples.catalog 3100 "ism-002" "AC-1" 40 "manual review";
      Trace.RemoveOverride "ism-002" "AC-1" ] in
  Forall Trace.distinctTargets ops
  /\ Spec.oneCorrespondencePerTarget Examples.engine
  /\ Spec.oneCorrespondencePerTarget (Trace.run ops Examples.engine).
Proof.
  intros ops.
  assert (Hops : Forall Trace.distinctTargets ops).
  { repeat constructor; simpl; intuition discriminate. }
  assert (Hinv : Spec.oneCorrespondencePerTarget Examples.engine).
  { intros k r H. discriminate. }
  split; [exact Hops |]. split; [exact Hinv |].
  exact (one_correspondence_per_target_preserved ops Examples.engine Hops Hinv).
Defined.

(** The count of claim C8 is not always one: on the entry that holds two
    correspondences for [AC-1] after an analysis write, two overrides of
    [AC-1] with the same arguments leave two correspondences for it. *)
Lemma override_twice_keeps_repeated_target :
  let once :=
    MappingEngine.applyManualOverride Examples.catalog 3000 "ism-001" "AC-1" 95
      "manual review" Examples.engineAfterRepeatedWrite in
  let twice :=
    MappingEngine.applyManualOverride Examples.catalog 3001 "ism-001" "AC-1" 95
      "manual review" once in
  Spec.correspondencesFor "ism-001" "AC-1" Examples.engineAfterRepeatedWrite = 2
  /\ Spec.correspondencesFor "ism-001" "AC-1" twice = 2
  /\ Spec.correspondencesFor "ism-001" "AC-1" twice <> 1.
Proof. repeat split. discriminate. Qed.

(** Claim C8, as amended.  A second [applyManualOverride] with the arguments of
    the first changes nothing.  After the calls the entry holds as many
    correspondences for the target as before, and one where it held none:
    exactly one where it held at most one.  Where the entry has a
    correspondence for the target, the first of them takes the new
    confidence, reasoning, flag and metadata at its position, and every
    other position and the length of the list are as before. *)
Theorem applyManualOverride_is_keyed_upsert :
  forall (cs : ControlService.t) (now now' : Z) (ismControlId nistControlId : string)
         (confidence : Q) (reasoning : string) (e : MappingEngine.t),
    let once :=
      MappingEngine.applyManualOverride cs now ismControlId nistControlId
        confidence reasoning e in
    let twice :=
      MappingEngine.applyManualOverride cs now' ismControlId nistControlId
        confidence reasoning once in
    twice = once
    /\ Spec.correspondencesFor ismControlId nistControlId twice
       = Nat.max 1 (Spec.correspondencesFor ismControlId nistControlId e)
    /\ (Spec.correspondencesFor ismControlId nistControlId e <= 1 ->
        Spec.correspondencesFor ismControlId nistControlId twice = 1)
    /\ (forall (r : MappingEngine.MappingResult) (i : nat),
          JsMap.get ismControlId (MappingEngine.mappingResults e) = Some r ->
          nth_error (Spec.targets r) i = Some nistControlId ->
          (forall j, j < i -> nth_error (Spec.targets r) j <> Some nistControlId) ->
          exists r',
            JsMap.get ismControlId (MappingEngine.mappingResults once) = Some r'
            /\ nth_error (MappingEngine.nistMappings r') i
               = Some (MappingEngine.overrideMapping nistControlId
                         (MappingEngine.getNISTControlMetadata cs nistControlId)
                         confidence reasoning)
            /\ (forall j, j <> i ->
                  nth_error (MappingEngine.nistMappings r') j
                  = nth_error (MappingEngine.nistMappings r) j)
            /\ length (MappingEngine.nistMappings r')
               = length (MappingEngine.nistMappings r)).
Proof.
  intros cs now now' ismControlId nistControlId confidence reasoning e once twice.
  assert (Hidem : twice = once) by apply EngineFacts.applyManualOverride_idempotent.
  assert (Hcount :
    Spec.correspondencesFor ismControlId nistControlId twice
    = Nat.max 1 (Spec.correspondencesFor ismControlId nistControlId e)).
  { rewrite Hidem. apply EngineFacts.correspondencesFor_applyManualOverride. }
  split; [exact Hidem |]. split; [exact Hcount |]. split.
  - intros Hle. rewrite Hcount. lia.
  - intros r i Hr Hi Hfirst. subst once.
    rewrite EngineFacts.get_applyManualOverride, String.eqb_refl, Hr.
    eexists. split; [reflexivity |]. simpl.
    assert (Hin : In nistControlId (map MappingEngine.nistControlId
                                        (MappingEngine.nistMappings r))).
    { apply nth_error_In with i. exact Hi. }
    unfold MappingEngine.upsertOverride.
    destruct (find _ (MappingEngine.nistMappings r)) as [m |] eqn:Hf.
    + destruct (OverrideFacts.mutateFirst_nth nistControlId
                  (MappingEngine.getNISTControlMetadata cs nistControlId)
                  confidence reasoning (MappingEngine.nistMappings r) i Hi Hfirst)
        as [Hm Ho].
      split; [exact Hm |]. split; [exact Ho |].
      transitivity (length (map MappingEngine.nistControlId (MappingEngine.nistMappings r)));
        [| apply length_map].
      rewrite <- (OverrideFacts.mutateFirst_targets nistControlId
                    (MappingEngine.getNISTControlMetadata cs nistControlId)
                    confidence reasoning).
      symmetry. apply length_map.
    + apply OverrideFacts.find_none_not_in in Hf. contradiction.
Qed.

(** Two overrides of the target that the analysis wrote once. *)
Lemma applyManualOverride_is_keyed_upsert_witness :
  let once :=
    MappingEngine.applyManualOverride Examples.catalog 3000 "ism-001" "AC-1" 95
      "manual review" Examples.engineAfterWrite in
  let twice :=
    MappingEngine.applyManualOverride Examples.catalog 3001 "ism-001" "AC-1" 95
      "manual review" once in
  Spec.correspondencesFor "ism-001" "AC-1" Examples.engineAfterWrite <= 1
  /\ twice = once
  /\ Spec.correspondencesFor "ism-001" "AC-1" twice = 1.
Proof.
  intros once twice.
  assert (Hle : Spec.correspondencesFor "ism-001" "AC-1" Examples.engineAfterWrite <= 1).
  { apply Nat.le_refl. }
  pose proof (applyManualOverride_is_keyed_upsert Examples.catalog 3000 3001
                "ism-001" "AC-1" 95 "manual review" Examples.engineAfterWrite) as H.
  split; [exact Hle |].
  split; [exact (proj1 H) |].
  exact (proj1 (proj2 (proj2 H)) Hle).
Defined.




Module JobFacts.
Import MappingEngine Spec JsMapFacts EngineFacts.

(** A successful [startProcessing] has found the service and leaves the
    job, [processing], under the id it returns. *)
Lemma startProcessing_success (cs : ControlService.t) (jobId : string) (now : Z)
    (controlIds : option (list string)) (e : t) (j : string) (e1 : t) :
  startProcessing cs jobId now controlIds e = (inr j, e1) ->
  j = jobId
  /\ (exists ai, aiService e = Some ai /\ aiService e1 = Some ai)
  /\ mappingResults e1 = mappingResults e
  /\ exists job,
       JsMap.get jobId (activeJobs e1) = Some job
       /\ status job = processing
       /\ totalControls job = length (selectControls cs controlIds)
       /\ processedControls job = 0.
Proof.
  unfold startProcessing.
  destruct (aiService e) as [ai |] eqn:Hai; [| discriminate].
  destruct (negb (ControlService.isReady cs)); [discriminate |].
  destruct (length (selectControls cs controlIds) =? 0)%nat; [discriminate |].
  destruct (length (ControlService.getNISTControls cs) =? 0)%nat; [discriminate |].
  intros H. inversion H; subst; clear H.
  unfold beginProcessing.
  split; [reflexivity |].
  split; [exists ai; now rewrite aiService_updateJob |].
  split; [now rewrite mappingResults_updateJob |].
  rewrite getJob_updateJob. cbn [withActiveJobs activeJobs]. rewrite get_set_same.
  eexists. split; [reflexivity |]. cbn. auto.
Qed.
End JobFacts.

(** Claim C3.  A job started on a batch of N controls ends [completed] with
    [processedControls] and [totalControls] at N, whichever analyses throw.
    The mapping state then holds, for each control id, the entry built from
    the last successful analysis of that control; where every analysis of a
    control threw it holds what it held before the job: a failed item writes
    no entry, and a successful one does. *)
Theorem batch_completes_despite_failures :
  forall (JSON_parse : string -> option Js.JsValue) (cs : ControlService.t)
         (world : nat -> OllamaService.CallEnv) (clock : nat -> Z)
         (jobId : string) (now finishedAt : Z) (controlIds : option (list string))
         (e : MappingEngine.t) (j : string) (e' : MappingEngine.t),
    MappingEngine.runJob JSON_parse cs world clock jobId now finishedAt controlIds e
      = (inr j, e') ->
    let batch := MappingEngine.selectControls cs controlIds in
    exists ai job,
      MappingEngine.aiService e = Some ai
      /\ MappingEngine.getJobStatus e' j = Some job
      /\ MappingEngine.status job = MappingEngine.completed
      /\ MappingEngine.totalControls job = length batch
      /\ MappingEngine.processedControls job = length batch
      /\ let outcome :=
           Spec.outcome JSON_parse ai (ControlService.getNISTControls cs) world in
         (forall id,
             JsMap.get id (MappingEngine.mappingResults e')
             = match Spec.lastSuccess outcome batch 0 id with
               | Some r => Some (MappingEngine.toMappingResult cs id r)
               | None => JsMap.get id (MappingEngine.mappingResults e)
               end)
         /\ (forall id,
               (forall i c, nth_error batch i = Some c -> ControlService.ism_id c = id ->
                            exists err, outcome i c = inl err) ->
               JsMap.get id (MappingEngine.mappingResults e')
               = JsMap.get id (MappingEngine.mappingResults e))
         /\ (forall i c r,
               nth_error batch i = Some c -> outcome i c = inr r ->
               exists r',
                 JsMap.get (ControlService.ism_id c) (MappingEngine.mappingResults e')
                 = Some (MappingEngine.toMappingResult cs (ControlService.ism_id c) r')).
Proof.
  intros JSON_parse cs world clock jobId now finishedAt controlIds e j e' Hrun batch.
  unfold MappingEngine.runJob in Hrun.
  destruct (MappingEngine.startProcessing cs jobId now controlIds e) as [[err | j0] e1] eqn:Hs;
    [discriminate |].
  inversion Hrun; subst j0 e'; clear Hrun.
  apply JobFacts.startProcessing_success in Hs.
  destruct Hs as (-> & (ai & Hai & Hai1) & Hm1 & job0 & Hj0 & Hq & Ht & Hp).
  exists ai.
  unfold MappingEngine.completeProcessing.
  rewrite Hai1.
  unfold OllamaService.batchAnalyzeControls.
  pose proof (BatchFacts.batchLoop_spec JSON_parse cs jobId clock ai
                (ControlService.getNISTControls cs) world (length batch) batch
                0 JsMap.empty e1 _ Hj0) as Hspec.
  fold batch.
  destruct (OllamaService.batchLoop JSON_parse ai (ControlService.getNISTControls cs)
              (MappingEngine.onProgress cs jobId clock) (length batch) world batch 0
              JsMap.empty e1) as [results e3].
  cbn [snd] in Hspec.
  destruct Hspec as ((job3 & Hj3 & Hs3 & Ht3 & Hp3) & Hm3).
  assert (Hm : forall id,
             JsMap.get id (MappingEngine.mappingResults
                (MappingEngine.updateJob jobId
                   (fun j => MappingEngine.finish MappingEngine.completed 100
                               (MappingEngine.error j) finishedAt j) e3))
             = match Spec.lastSuccess
                       (Spec.outcome JSON_parse ai (ControlService.getNISTControls cs) world)
                       batch 0 id with
               | Some r => Some (MappingEngine.toMappingResult cs id r)
               | None => JsMap.get id (MappingEngine.mappingResults e)
               end).
  { intros id. rewrite EngineFacts.mappingResults_updateJob, Hm3.
    now rewrite Hm1. }
  eexists. split; [exact Hai |]. split.
  { unfold MappingEngine.getJobStatus. rewrite EngineFacts.getJob_updateJob, Hj3.
    reflexivity. }
  cbn [MappingEngine.finish MappingEngine.status MappingEngine.totalControls
       MappingEngine.processedControls].
  split; [reflexivity |]. split; [rewrite Ht3; exact Ht |]. split.
  { rewrite Hp3, Hp. now destruct batch. }
  cbv zeta. split; [exact Hm |]. split.
  - intros id Hfail. rewrite Hm.
    rewrite BatchFacts.lastSuccess_none; [reflexivity |]. exact Hfail.
  - intros i c r Hi Ho.
    destruct (BatchFacts.lastSuccess_some JSON_parse ai (ControlService.getNISTControls cs)
                world batch 0 i c r Hi Ho) as [r' Hr'].
    exists r'. now rewrite Hm, Hr'.
Qed.

(** A batch of two whose first request times out. *)
Lemma batch_completes_despite_failures_witness :
  exists e' job,
    MappingEngine.runJob JsonText.readJson Examples.catalog Examples.world Examples.clock
      "job_7" 2900 190000 (Some ["ism-001"; "ism-002"]) Examples.engine
      = (inr "job_7", e')
    /\ MappingEngine.getJobStatus e' "job_7" = Some job
    /\ MappingEngine.status job = MappingEngine.completed
    /\ MappingEngine.processedControls job = 2
    /\ JsMap.get "ism-001" (MappingEngine.mappingResults e') = None
    /\ JsMap.get "ism-002" (MappingEngine.mappingResults e') <> None.
Proof.
  pose (run := MappingEngine.runJob JsonText.readJson Examples.catalog Examples.world
                 Examples.clock "job_7" 2900 190000 (Some ["ism-001"; "ism-002"])
                 Examples.engine).
  assert (Hrun : run = (inr "job_7", snd run)) by reflexivity.
  destruct (batch_completes_despite_failures JsonText.readJson Examples.catalog
              Examples.world Examples.clock "job_7" 2900 190000
              (Some ["ism-001"; "ism-002"]) Examples.engine "job_7" (snd run) Hrun)
    as (ai & job & Hai & Hj & Hs & Ht & Hp & Hm & Hfail & Hok).
  exists (snd run), job.
  split; [exact Hrun |]. split; [exact Hj |]. split; [exact Hs |]. split; [exact Hp |].
  split.
  - reflexivity.
  - discriminate.
Defined.

(** The reader on the texts of the examples. *)
Example readJson_examples :
  JsonText.readJson Examples.incompleteJson = Some Examples.incompleteResponse
  /\ JsonText.readJson Examples.repeatedText = Some Examples.repeatedResponse
  /\ Js.matchBraces Examples.looseText = Some Examples.looseJson
  /\ JsonText.readJson Examples.looseJson = Some Examples.looseResponse
  /\ JsonText.readJson Examples.numericReasoningText
     = Some Examples.numericReasoningResponse
  /\ JsonText.readJson Examples.looseText = None.
Proof. repeat split; reflexivity. Qed.


(** Upper case and trimming commute, so the normalized identifier is also
    the trimmed identifier in upper case. *)
Example normalizeNistControlId_trim_first (s : string) :
  OllamaService.normalizeNistControlId (Js.JString s)
  = inr (Js.toUpperCase (Js.trim s)).
Proof. simpl. now rewrite JsFacts.trim_toUpperCase. Qed.

(** The average confidence is pooled: with one entry of confidences 100 and
    80 and another of confidence 30 it is 70, where the mean of the
    entries' means is 60. *)
Example averageConfidence_is_pooled :
  (MappingEngine.averageConfidence
     (MappingEngine.calculateProcessingMetadata Examples.catalog 5000
        Examples.engineOfTwoEntries) == 70)%Q
  /\ (Spec.mean [Spec.mean [100; 80]; Spec.mean [30]] == 60)%Q.
Proof. split; reflexivity. Qed.

(** With a correspondence in the report, [averageProcessingTime] is the mean
    of the entry-level times. *)
Lemma averageProcessingTime_with_correspondences (reportData : ReportService.ReportData) :
  Spec.allConfidences (ReportService.mappings reportData) <> [] ->
  (ReportService.averageProcessingTime (ReportService.generateSummaryStats reportData)
   == Spec.mean (Spec.processingTimes (ReportService.mappings reportData)))%Q.
Proof.
  intros H. rewrite ReportFacts.averageProcessingTime_eq.
  destruct (Spec.allConfidences (ReportService.mappings reportData)); [contradiction |].
  reflexivity.
Qed.

(** ** Further properties of the services *)

Module QueueFacts.
Import MappingEngine View.

Lemma filter_filter_none {A : Type} (p : A -> bool) (l : list A) :
  filter p (filter (fun x => negb (p x)) l) = [].
Proof.
  induction l as [| x l IH]; [reflexivity |].
  cbn [filter]. destruct (p x) eqn:Hp; cbn [negb]; [exact IH |].
  cbn [filter]. now rewrite Hp.
Qed.

Lemma existsb_filter_none {A : Type} (p : A -> bool) (l : list A) :
  existsb p (filter (fun x => negb (p x)) l) = false.
Proof.
  induction l as [| x l IH]; [reflexivity |].
  cbn [filter]. destruct (p x) eqn:Hp; cbn [negb]; [exact IH |].
  cbn [existsb]. now rewrite Hp.
Qed.

Lemma filter_other_job (j j' : string) (queue : list QueueItem) :
  j <> j' ->
  itemsOf j' (itemsOfOthers j queue) = itemsOf j' queue.
Proof.
  intros Hne. unfold itemsOf, itemsOfOthers.
  induction queue as [| item queue IH]; [reflexivity |].
  cbn [filter].
  destruct (String.eqb_spec (jobId item) j) as [Ej | Ej]; cbn [negb].
  - destruct (String.eqb_spec (jobId item) j') as [Ej' | Ej']; [congruence | exact IH].
  - cbn [filter]. destruct (String.eqb (jobId item) j'); now rewrite IH.
Qed.

Lemma length_partition (j : string) (queue : list QueueItem) :
  length (itemsOf j queue) + length (itemsOfOthers j queue) = length queue.
Proof.
  unfold itemsOf, itemsOfOthers.
  induction queue as [| item queue IH]; [reflexivity |].
  cbn [filter]. destruct (String.eqb (jobId item) j); cbn [negb length]; lia.
Qed.

Lemma existsb_false_filter {A : Type} (p : A -> bool) (l : list A) :
  existsb p l = false -> filter p l = [] /\ filter (fun x => negb (p x)) l = l.
Proof.
  induction l as [| x l IH]; [now split |].
  cbn [existsb filter]. intros H. apply orb_false_iff in H. destruct H as [Hx Hl].
  rewrite Hx. cbn [negb]. destruct (IH Hl) as [H1 H2]. now rewrite H1, H2.
Qed.

Lemma withResultsQueue_same (e : t) : withResultsQueue (fun _ => resultsQueue e) e = e.
Proof. now destruct e. Qed.
End QueueFacts.

(** Property X1.  Polling the results queue for a job id that is not empty returns the
    items of that job, in the order of the queue, and leaves the items of the
    other jobs in the queue, in their order: the two lists partition the
    queue.  After the poll the job has no new results and a second poll for
    it returns nothing; a poll for another job returns what it would have
    returned before; the mapping state and the jobs are as they were. *)
Theorem getNewResults_takes_the_items_of_the_job :
  forall (j : string) (e : MappingEngine.t),
    j <> "" ->
    let polled := MappingEngine.getNewResults (Some j) e in
    fst polled = View.itemsOf j (MappingEngine.resultsQueue e)
    /\ MappingEngine.resultsQueue (snd polled)
       = View.itemsOfOthers j (MappingEngine.resultsQueue e)
    /\ length (fst polled) + length (MappingEngine.resultsQueue (snd polled))
       = length (MappingEngine.resultsQueue e)
    /\ MappingEngine.hasNewResults (Some j) (snd polled) = false
    /\ fst (MappingEngine.getNewResults (Some j) (snd polled)) = []
    /\ (forall j', j' <> "" -> j' <> j ->
          fst (MappingEngine.getNewResults (Some j') (snd polled))
          = fst (MappingEngine.getNewResults (Some j') e))
    /\ MappingEngine.mappingResults (snd polled) = MappingEngine.mappingResults e
    /\ MappingEngine.activeJobs (snd polled) = MappingEngine.activeJobs e.
Proof.
  intros j e Hj polled. subst polled.
  assert (Hg : MappingEngine.givenJobId (Some j) = Some j).
  { unfold MappingEngine.givenJobId. apply String.eqb_neq in Hj. now rewrite Hj. }
  unfold MappingEngine.getNewResults, MappingEngine.hasNewResults. rewrite Hg.
  cbn [fst snd MappingEngine.withResultsQueue MappingEngine.resultsQueue
       MappingEngine.mappingResults MappingEngine.activeJobs].
  repeat split.
  - apply QueueFacts.length_partition.
  - apply (QueueFacts.existsb_filter_none
             (fun item => String.eqb (MappingEngine.jobId item) j)).
  - apply (QueueFacts.filter_filter_none
             (fun item => String.eqb (MappingEngine.jobId item) j)).
  - intros j' Hj' Hne.
    assert (Hg' : MappingEngine.givenJobId (Some j') = Some j').
    { unfold MappingEngine.givenJobId. apply String.eqb_neq in Hj'. now rewrite Hj'. }
    rewrite Hg'. cbn [fst].
    apply (QueueFacts.filter_other_job j j'). congruence.
Qed.

Lemma getNewResults_takes_the_items_of_the_job_witness :
  "job_1" <> ""
  /\ length (fst (MappingEngine.getNewResults (Some "job_1") Examples.engineOfTwoEntries)) = 2
  /\ MappingEngine.hasNewResults (Some "job_1")
       (snd (MappingEngine.getNewResults (Some "job_1") Examples.engineOfTwoEntries)) = false.
Proof.
  assert (Hj : "job_1" <> "") by discriminate.
  split; [exact Hj |]. split; [reflexivity |].
  exact (proj1 (proj2 (proj2 (proj2
           (getNewResults_takes_the_items_of_the_job "job_1" Examples.engineOfTwoEntries Hj))))).
Defined.

(** Property X2.  A poll without a job id, or with the empty job id, returns the whole
    queue, the items of every job, and leaves the queue empty: afterwards no
    job has new results, whatever id is asked for.  The mapping state is as
    it was. *)
Theorem getNewResults_without_job_drains_the_queue :
  forall (jobId : option string) (e : MappingEngine.t),
    jobId = None \/ jobId = Some "" ->
    let polled := MappingEngine.getNewResults jobId e in
    fst polled = MappingEngine.resultsQueue e
    /\ MappingEngine.resultsQueue (snd polled) = []
    /\ (forall anyJob, MappingEngine.hasNewResults anyJob (snd polled) = false)
    /\ MappingEngine.mappingResults (snd polled) = MappingEngine.mappingResults e.
Proof.
  intros jobId e Hj polled. subst polled.
  assert (Hg : MappingEngine.givenJobId jobId = None) by (destruct Hj; subst; reflexivity).
  unfold MappingEngine.getNewResults. rewrite Hg.
  cbn [fst snd MappingEngine.withResultsQueue MappingEngine.resultsQueue
       MappingEngine.mappingResults].
  repeat split.
  intros anyJob. unfold MappingEngine.hasNewResults.
  now destruct (MappingEngine.givenJobId anyJob).
Qed.

Lemma getNewResults_without_job_drains_the_queue_witness :
  length (fst (MappingEngine.getNewResults (Some "") Examples.engineOfTwoEntries)) = 2
  /\ MappingEngine.resultsQueue
       (snd (MappingEngine.getNewResults (Some "") Examples.engineOfTwoEntries)) = [].
Proof.
  split; [reflexivity |].
  exact (proj1 (proj2 (getNewResults_without_job_drains_the_queue (Some "")
                         Examples.engineOfTwoEntries (or_intror eq_refl)))).
Defined.

(** Property X3.  The handler [getNewResults] polls the engine only when [hasNewResults]
    holds, and its answer is nevertheless that of the poll in every case: the
    results and the engine afterwards are those of [getNewResults], [count]
    is the number of results, and the flag [hasNewResults] of the answer holds
    exactly when the answer carries a result. *)
Theorem handler_getNewResults_is_the_poll :
  forall (jobId : option string) (e : MappingEngine.t),
    let answer := MappingController.getNewResults jobId e in
    MappingController.results (fst answer) = fst (MappingEngine.getNewResults jobId e)
    /\ snd answer = snd (MappingEngine.getNewResults jobId e)
    /\ MappingController.count (fst answer) = length (MappingController.results (fst answer))
    /\ MappingController.hasNewResults (fst answer)
       = (0 <? MappingController.count (fst answer))%nat.
Proof.
  intros jobId e answer. subst answer.
  unfold MappingController.getNewResults.
  destruct (MappingEngine.hasNewResults jobId e) eqn:Hhas.
  - destruct (MappingEngine.getNewResults jobId e) as [items e'] eqn:Hg.
    cbn [fst snd MappingController.results MappingController.count
         MappingController.hasNewResults].
    repeat split.
    unfold MappingEngine.hasNewResults, MappingEngine.getNewResults in *.
    destruct (MappingEngine.givenJobId jobId) as [j |].
    + inversion Hg; subst.
      destruct (filter _ (MappingEngine.resultsQueue e)) eqn:Hf; [| reflexivity].
      exfalso. apply existsb_exists in Hhas. destruct Hhas as (item & Hin & Hitem).
      assert (H : In item (filter (fun item0 => String.eqb (MappingEngine.jobId item0) j)
                              (MappingEngine.resultsQueue e))).
      { apply filter_In. now split. }
      rewrite Hf in H. contradiction.
    + inversion Hg; subst. symmetry. exact Hhas.
  - cbn [fst snd MappingController.results MappingController.count
         MappingController.hasNewResults length].
    unfold MappingEngine.hasNewResults, MappingEngine.getNewResults in *.
    destruct (MappingEngine.givenJobId jobId) as [j |]; cbn [fst snd].
    + destruct (QueueFacts.existsb_false_filter _ _ Hhas) as [H1 H2].
      rewrite H1. split; [reflexivity |]. split; [| split; reflexivity].
      unfold MappingEngine.withResultsQueue. rewrite H2. now destruct e.
    + destruct (MappingEngine.resultsQueue e) eqn:Hq; [| discriminate].
      repeat split. destruct e. cbn in Hq |- *. now subst.
Qed.

Module RemovalFacts.
Import MappingEngine View.

Lemma get_removeManualOverride (ismControlId nistControlId : string) (e : t) (k : string) :
  JsMap.get k (mappingResults (removeManualOverride ismControlId nistControlId e))
  = if String.eqb ismControlId k then
      match JsMap.get ismControlId (mappingResults e) with
      | Some r =>
          Some {| ismControlId := MappingEngine.ismControlId r;
                  nistMappings :=
                    filter (fun m => negb (String.eqb (MappingEngine.nistControlId m)
                                                      nistControlId
                                           && isManualOverride m))
                           (nistMappings r);
                  processingTimestamp := processingTimestamp r;
                  aiModel := aiModel r;
                  processingTime := processingTime r |}
      | None => None
      end
    else JsMap.get k (mappingResults e).
Proof.
  unfold removeManualOverride.
  destruct (JsMap.get ismControlId (mappingResults e)) as [r |] eqn:Hr; simpl.
  - apply JsMapFacts.get_set.
  - destruct (String.eqb_spec ismControlId k) as [<- | _]; [exact Hr | reflexivity].
Qed.

Lemma analysed_after_removal (target : string) (l : list NistMapping) :
  analysed (filter (fun m => negb (String.eqb (nistControlId m) target && isManualOverride m)) l)
  = analysed l.
Proof.
  unfold analysed.
  induction l as [| m l IH]; [reflexivity |].
  cbn [filter].
  destruct (isManualOverride m) eqn:Hm; rewrite ?andb_true_r, ?andb_false_r; cbn [negb].
  - destruct (String.eqb (nistControlId m) target); cbn [negb filter];
      rewrite ?Hm; cbn [negb]; exact IH.
  - cbn [filter]. rewrite Hm. cbn [negb]. now rewrite IH.
Qed.

Lemma others_after_removal (target : string) (l : list NistMapping) :
  forOtherTargets target
    (filter (fun m => negb (String.eqb (nistControlId m) target && isManualOverride m)) l)
  = forOtherTargets target l.
Proof.
  unfold forOtherTargets.
  induction l as [| m l IH]; [reflexivity |].
  cbn [filter].
  destruct (String.eqb (nistControlId m) target) eqn:Hm; cbn [andb negb].
  - destruct (isManualOverride m); cbn [negb filter]; rewrite ?Hm; cbn [negb]; exact IH.
  - cbn [filter]. rewrite Hm. cbn [negb]. now rewrite IH.
Qed.

Lemma removal_idempotent (target : string) (l : list NistMapping) :
  let keep := fun m => negb (String.eqb (nistControlId m) target && isManualOverride m) in
  filter keep (filter keep l) = filter keep l.
Proof.
  intros keep.
  induction l as [| m l IH]; [reflexivity |].
  cbn [filter]. destruct (keep m) eqn:Hk; [| exact IH].
  cbn [filter]. now rewrite Hk, IH.
Qed.

Lemma no_override_left (target : string) (l : list NistMapping) (m : NistMapping) :
  In m (filter (fun m => negb (String.eqb (nistControlId m) target && isManualOverride m)) l) ->
  nistControlId m = target -> isManualOverride m = false.
Proof.
  intros Hin Hid. apply filter_In in Hin. destruct Hin as [_ Hk].
  apply negb_true_iff, andb_false_iff in Hk.
  destruct Hk as [Hk | Hk]; [| exact Hk].
  apply String.eqb_neq in Hk. contradiction.
Qed.
End RemovalFacts.

(** Property X4.  [removeManualOverride] takes from the entry the manual correspondences
    for the given target and nothing else.  Where the mapping state has no
    entry for the control, the engine stays as it is.  Where it has one, the
    entry stays in the mapping state, the correspondences that the analysis
    wrote and those for other targets stay in it, in order, and no manual
    correspondence for the target is left.  The other entries are not
    touched, and a second removal changes nothing. *)
Theorem removeManualOverride_keeps_the_analysis :
  forall (ismControlId nistControlId : string) (e : MappingEngine.t),
    let e' := MappingEngine.removeManualOverride ismControlId nistControlId e in
    (JsMap.get ismControlId (MappingEngine.mappingResults e) = None -> e' = e)
    /\ (forall r,
          JsMap.get ismControlId (MappingEngine.mappingResults e) = Some r ->
          exists r',
            JsMap.get ismControlId (MappingEngine.mappingResults e') = Some r'
            /\ View.analysed (MappingEngine.nistMappings r')
               = View.analysed (MappingEngine.nistMappings r)
            /\ View.forOtherTargets nistControlId (MappingEngine.nistMappings r')
               = View.forOtherTargets nistControlId (MappingEngine.nistMappings r)
            /\ (forall m, In m (MappingEngine.nistMappings r') ->
                          MappingEngine.nistControlId m = nistControlId ->
                          MappingEngine.isManualOverride m = false))
    /\ (forall k, k <> ismControlId ->
          JsMap.get k (MappingEngine.mappingResults e')
          = JsMap.get k (MappingEngine.mappingResults e))
    /\ MappingEngine.removeManualOverride ismControlId nistControlId e' = e'.
Proof.
  intros ismControlId nistControlId e e'. subst e'.
  split; [| split; [| split]].
  - intros H. unfold MappingEngine.removeManualOverride. now rewrite H.
  - intros r Hr. rewrite RemovalFacts.get_removeManualOverride, String.eqb_refl, Hr.
    eexists. split; [reflexivity |]. cbn [MappingEngine.nistMappings].
    split; [apply RemovalFacts.analysed_after_removal |].
    split; [apply RemovalFacts.others_after_removal |].
    apply RemovalFacts.no_override_left.
  - intros k Hk. rewrite RemovalFacts.get_removeManualOverride.
    apply String.eqb_neq in Hk. rewrite String.eqb_sym in Hk. now rewrite Hk.
  - destruct (JsMap.get ismControlId (MappingEngine.mappingResults e)) as [r |] eqn:Hr.
    + assert (Hget := RemovalFacts.get_removeManualOverride ismControlId nistControlId e
                        ismControlId).
      rewrite String.eqb_refl, Hr in Hget.
      unfold MappingEngine.removeManualOverride at 1. rewrite Hget.
      cbn [MappingEngine.nistMappings MappingEngine.ismControlId
           MappingEngine.processingTimestamp MappingEngine.aiModel
           MappingEngine.processingTime].
      rewrite (RemovalFacts.removal_idempotent nistControlId).
      unfold MappingEngine.removeManualOverride. rewrite Hr.
      unfold MappingEngine.withMappingResults.
      cbn [MappingEngine.mappingResults MappingEngine.aiService MappingEngine.activeJobs
           MappingEngine.resultsQueue].
      now rewrite JsMapFacts.set_set.
    + unfold MappingEngine.removeManualOverride. now rewrite Hr, Hr.
Qed.

Lemma removeManualOverride_keeps_the_analysis_witness :
  let e :=
    MappingEngine.applyManualOverride Examples.catalog 3000 "ism-001" "AC-9" 40
      "manual review" Examples.engineOfTwoEntries in
  exists r r',
    JsMap.get "ism-001" (MappingEngine.mappingResults e) = Some r
    /\ length (MappingEngine.nistMappings r) = 3
    /\ JsMap.get "ism-001"
         (MappingEngine.mappingResults (MappingEngine.removeManualOverride "ism-001" "AC-9" e))
       = Some r'
    /\ View.analysed (MappingEngine.nistMappings r')
       = View.analysed (MappingEngine.nistMappings r).
Proof.
  intros e.
  assert (Hr : JsMap.get "ism-001" (MappingEngine.mappingResults e)
               = Some (match JsMap.get "ism-001" (MappingEngine.mappingResults e) with
                       | Some r => r
                       | None => Examples.emptyEntry
                       end)) by reflexivity.
  destruct (proj1 (proj2 (removeManualOverride_keeps_the_analysis "ism-001" "AC-9" e)) _ Hr)
    as (r' & Hr' & Ha & _).
  eexists. exists r'. split; [exact Hr |]. split; [reflexivity |]. split; [exact Hr' | exact Ha].
Defined.

(** Property X5.  An override followed by its removal does not bring the entry back to
    what it was.  On an entry that has at most one correspondence per
    target, the correspondence for the target is gone afterwards, also when
    the analysis had written it: the override took its place, and the removal
    deletes it.  On a control without an entry, the entry that the override
    created stays in the mapping state with no correspondence, under the
    model name [manual-override], and [totalMappings] counts it. *)
Theorem override_then_removal_deletes :
  forall (cs : ControlService.t) (now : Z) (ismControlId nistControlId : string)
         (confidence : Q) (reasoning : string) (e : MappingEngine.t),
    let e' :=
      MappingEngine.removeManualOverride ismControlId nistControlId
        (MappingEngine.applyManualOverride cs now ismControlId nistControlId
           confidence reasoning e) in
    (forall r,
        JsMap.get ismControlId (MappingEngine.mappingResults e) = Some r ->
        NoDup (Spec.targets r) ->
        exists r',
          JsMap.get ismControlId (MappingEngine.mappingResults e') = Some r'
          /\ MappingEngine.nistMappings r'
             = View.forOtherTargets nistControlId (MappingEngine.nistMappings r))
    /\ (JsMap.get ismControlId (MappingEngine.mappingResults e) = None ->
        exists r',
          JsMap.get ismControlId (MappingEngine.mappingResults e') = Some r'
          /\ MappingEngine.nistMappings r' = []
          /\ MappingEngine.aiModel r' = "manual-override"
          /\ MappingEngine.totalMappings (MappingEngine.getProcessingStats e')
             = S (MappingEngine.totalMappings (MappingEngine.getProcessingStats e))).
Proof.
  intros cs now ismControlId nistControlId confidence reasoning e e'. subst e'.
  split.
  - intros r Hr Hnd.
    rewrite RemovalFacts.get_removeManualOverride, String.eqb_refl.
    rewrite EngineFacts.get_applyManualOverride, String.eqb_refl, Hr.
    eexists. split; [reflexivity |]. cbn [MappingEngine.nistMappings].
    unfold Spec.targets in Hnd. unfold View.forOtherTargets.
    unfold MappingEngine.upsertOverride.
    destruct (find _ (MappingEngine.nistMappings r)) as [m0 |] eqn:Hf.
    + clear Hf Hr. induction (MappingEngine.nistMappings r) as [| m l IH]; [reflexivity |].
      cbn [map] in Hnd. apply NoDup_cons_iff in Hnd. destruct Hnd as [Hfresh Hnd].
      cbn [MappingEngine.mutateFirst].
      destruct (String.eqb_spec (MappingEngine.nistControlId m) nistControlId) as [E | E].
      * cbn [filter MappingEngine.assignOverride MappingEngine.overrideMapping
             MappingEngine.nistControlId MappingEngine.isManualOverride].
        rewrite E, String.eqb_refl. cbn [andb negb].
        rewrite <- E in *. clear IH.
        induction l as [| x l IHl]; [reflexivity |].
        cbn [map] in Hfresh, Hnd. cbn [filter].
        assert (Hx : MappingEngine.nistControlId x <> MappingEngine.nistControlId m).
        { intros Hx. apply Hfresh. left. exact Hx. }
        apply String.eqb_neq in Hx. rewrite Hx. cbn [andb negb].
        f_equal. apply IHl.
        -- intros Hin. apply Hfresh. now right.
        -- now apply NoDup_cons_iff in Hnd.
      * cbn [filter]. apply String.eqb_neq in E. rewrite E. cbn [andb negb].
        f_equal. now apply IH.
    + apply OverrideFacts.find_none_not_in in Hf.
      rewrite filter_app. cbn [filter MappingEngine.overrideMapping
        MappingEngine.nistControlId MappingEngine.isManualOverride].
      rewrite String.eqb_refl. cbn [andb negb]. rewrite app_nil_r.
      clear Hr Hnd. induction (MappingEngine.nistMappings r) as [| m l IH]; [reflexivity |].
      cbn [map] in Hf. cbn [filter].
      assert (Hm : MappingEngine.nistControlId m <> nistControlId).
      { intros Hm. apply Hf. now left. }
      apply String.eqb_neq in Hm. rewrite Hm. cbn [andb negb].
      f_equal. apply IH. intros Hin. apply Hf. now right.
  - intros Hnone.
    rewrite RemovalFacts.get_removeManualOverride, String.eqb_refl.
    rewrite EngineFacts.get_applyManualOverride, String.eqb_refl, Hnone.
    eexists. split; [reflexivity |].
    cbn [MappingEngine.nistMappings MappingEngine.aiModel filter
         MappingEngine.overrideMapping MappingEngine.nistControlId
         MappingEngine.isManualOverride].
    rewrite String.eqb_refl. cbn [andb negb].
    repeat split.
    unfold MappingEngine.getProcessingStats, MappingEngine.removeManualOverride.
    rewrite EngineFacts.get_applyManualOverride, String.eqb_refl, Hnone.
    unfold MappingEngine.applyManualOverride. rewrite Hnone.
    cbn [MappingEngine.totalMappings MappingEngine.withMappingResults
         MappingEngine.mappingResults].
    rewrite JsMapFacts.set_set.
    clear - Hnone. unfold JsMap.size.
    induction (MappingEngine.mappingResults e) as [| [k v] m IH]; [reflexivity |].
    cbn [JsMap.get] in Hnone. cbn [JsMap.set].
    destruct (String.eqb k ismControlId); [discriminate |].
    cbn [length]. now rewrite IH.
Qed.

Lemma override_then_removal_deletes_witness :
  exists r r',
    JsMap.get "ism-001" (MappingEngine.mappingResults Examples.engineAfterWrite) = Some r
    /\ NoDup (Spec.targets r)
    /\ length (MappingEngine.nistMappings r) = 1
    /\ JsMap.get "ism-001"
         (MappingEngine.mappingResults
            (MappingEngine.removeManualOverride "ism-001" "AC-1"
               (MappingEngine.applyManualOverride Examples.catalog 3000 "ism-001" "AC-1" 95
                  "manual review" Examples.engineAfterWrite))) = Some r'
    /\ MappingEngine.nistMappings r' = [].
Proof.
  assert (Hr : JsMap.get "ism-001" (MappingEngine.mappingResults Examples.engineAfterWrite)
               = Some (MappingEngine.toMappingResult Examples.catalog "ism-001"
                         (Examples.analysis [Examples.candidate "AC-1" 85])))
    by reflexivity.
  assert (Hnd : NoDup (Spec.targets
                         (MappingEngine.toMappingResult Examples.catalog "ism-001"
                            (Examples.analysis [Examples.candidate "AC-1" 85])))).
  { repeat constructor. simpl. tauto. }
  destruct (proj1 (override_then_removal_deletes Examples.catalog 3000 "ism-001" "AC-1" 95
                     "manual review" Examples.engineAfterWrite) _ Hr Hnd)
    as (r' & Hr' & Hl).
  eexists. exists r'. split; [exact Hr |]. split; [exact Hnd |].
  split; [reflexivity |]. split; [exact Hr' |]. rewrite Hl. reflexivity.
Defined.

Module TimeFacts.
Import MappingEngine.

(** The counters of the loops of [calculateProcessingMetadata] that the
    inner loop leaves alone or raises. *)
Lemma window_countMapping_fold (l : list NistMapping) (acc : MetadataAcc) :
  let acc' := fold_left countMapping l acc in
  earliestStart acc' = earliestStart acc
  /\ latestEnd acc' = latestEnd acc
  /\ highConfidenceCount acc'
     = highConfidenceCount acc + length (filter (Qle_bool 70) (map confidence l)).
Proof.
  revert acc.
  induction l as [| m l IH]; intros acc; cbn [fold_left map filter].
  - cbn. repeat split. lia.
  - destruct (IH (countMapping acc m)) as (Hs & He & Hh).
    cbn zeta in Hs, He, Hh. rewrite Hs, He, Hh.
    cbn [countMapping earliestStart latestEnd highConfidenceCount].
    repeat split.
    destruct (Qle_bool 70 (confidence m)); cbn [length]; lia.
Qed.

Lemma window_countResult (acc : MetadataAcc) (r : MappingResult) :
  earliestStart (countResult acc r)
  = (if (processingTimestamp r <? earliestStart acc)%Z then processingTimestamp r
     else earliestStart acc)
  /\ latestEnd (countResult acc r)
     = (if (latestEnd acc <? processingTimestamp r)%Z then processingTimestamp r
        else latestEnd acc)
  /\ highConfidenceCount (countResult acc r)
     = highConfidenceCount acc
       + length (filter (Qle_bool 70) (map confidence (nistMappings r)))
  /\ acc_totalProcessingTime (countResult acc r)
     = (acc_totalProcessingTime acc + processingTime r)%Q.
Proof.
  unfold countResult.
  match goal with
  | |- context [fold_left countMapping ?l ?a] =>
      destruct (window_countMapping_fold l a) as (Ws & We & Wh);
      destruct (StatsFacts.countMapping_fold l a) as (_ & _ & Wp)
  end.
  cbn zeta in Ws, We, Wh, Wp. rewrite Ws, We, Wh, Wp.
  repeat split.
Qed.

Lemma window_countResult_fold (rs : list MappingResult) (acc : MetadataAcc) :
  let acc' := fold_left countResult rs acc in
  let ts := map processingTimestamp rs in
  (earliestStart acc' <= earliestStart acc)%Z
  /\ Forall (fun t => (earliestStart acc' <= t)%Z) ts
  /\ In (earliestStart acc') (earliestStart acc :: ts)
  /\ (latestEnd acc <= latestEnd acc')%Z
  /\ Forall (fun t => (t <= latestEnd acc')%Z) ts
  /\ In (latestEnd acc') (latestEnd acc :: ts)
  /\ highConfidenceCount acc'
     = highConfidenceCount acc
       + length (filter (Qle_bool 70) (Spec.allConfidences rs))
  /\ (acc_totalProcessingTime acc'
      == acc_totalProcessingTime acc + Spec.sum (Spec.processingTimes rs))%Q.
Proof.
  revert acc.
  induction rs as [| r rs IH]; intros acc.
  - cbn. repeat split; try lia; try constructor; auto.
    now rewrite Qplus_0_r.
  - cbn [fold_left map].
    destruct (IH (countResult acc r)) as (Hs & Hsa & Hsi & He & Hea & Hei & Hh & Hp).
    destruct (window_countResult acc r) as (Ws & We & Wh & Wp).
    cbn zeta in *.
    rewrite Ws in Hs, Hsi. rewrite We in He, Hei. rewrite Wh in Hh. rewrite Wp in Hp.
    set (acc' := fold_left countResult rs (countResult acc r)) in *.
    assert (Hlo : (earliestStart acc' <= processingTimestamp r
                   /\ earliestStart acc' <= earliestStart acc)%Z).
    { revert Hs. destruct (Z.ltb_spec (processingTimestamp r) (earliestStart acc)); lia. }
    assert (Hhi : (processingTimestamp r <= latestEnd acc'
                   /\ latestEnd acc <= latestEnd acc')%Z).
    { revert He. destruct (Z.ltb_spec (latestEnd acc) (processingTimestamp r)); lia. }
    split; [tauto |].
    split; [constructor; tauto |].
    split.
    { destruct Hsi as [Hsi | Hsi]; [| right; right; exact Hsi].
      rewrite <- Hsi.
      destruct (processingTimestamp r <? earliestStart acc)%Z;
        [right; left | left]; reflexivity. }
    split; [tauto |].
    split; [constructor; tauto |].
    split.
    { destruct Hei as [Hei | Hei]; [| right; right; exact Hei].
      rewrite <- Hei.
      destruct (latestEnd acc <? processingTimestamp r)%Z;
        [right; left | left]; reflexivity. }
    split.
    { rewrite Hh. unfold Spec.allConfidences. cbn [flat_map].
      rewrite filter_app, length_app. lia. }
    rewrite Hp. unfold Spec.processingTimes. cbn [map Spec.sum fold_right].
    now rewrite Qplus_assoc.
Qed.

Lemma status_classes (jobs : list ProcessingJob) :
  length jobs
  = length (filter (fun j => hasStatus processing j || hasStatus queued j) jobs)
    + length (filter (hasStatus completed) jobs)
    + length (filter (hasStatus failed) jobs).
Proof.
  induction jobs as [| j jobs IH]; [reflexivity |].
  cbn [filter].
  set (a := hasStatus processing j || hasStatus queued j).
  set (b := hasStatus completed j).
  set (c := hasStatus failed j).
  assert (Hj : (a = true /\ b = false /\ c = false)
               \/ (a = false /\ b = true /\ c = false)
               \/ (a = false /\ b = false /\ c = true)).
  { subst a b c. unfold hasStatus. destruct (status j); cbn; tauto. }
  clearbody a b c.
  destruct Hj as [(-> & -> & ->) | [(-> & -> & ->) | (-> & -> & ->)]];
    cbn [length]; lia.
Qed.
End TimeFacts.

(** Property X6.  In the metadata of [calculateProcessingMetadata], [processedControls]
    is the number of entries of the mapping state, [highConfidenceMappings]
    the number of correspondences, of all entries, whose confidence is at
    least 70, which is at most the number of correspondences, and
    [totalProcessingTime] the sum of the elapsed times of the entries. *)
Theorem metadata_counts_the_stored_entries :
  forall (cs : ControlService.t) (now : Z) (e : MappingEngine.t),
    let m := MappingEngine.calculateProcessingMetadata cs now e in
    let entries := JsMap.values (MappingEngine.mappingResults e) in
    MappingEngine.metadata_processedControls m = Z.of_nat (length entries)
    /\ MappingEngine.highConfidenceMappings m
       = length (filter (Qle_bool 70) (Spec.allConfidences entries))
    /\ MappingEngine.highConfidenceMappings m <= length (Spec.allConfidences entries)
    /\ (MappingEngine.totalProcessingTime m == Spec.sum (Spec.processingTimes entries))%Q.
Proof.
  intros cs now e m entries. subst m entries.
  unfold MappingEngine.calculateProcessingMetadata.
  cbn [MappingEngine.metadata_processedControls MappingEngine.highConfidenceMappings
       MappingEngine.totalProcessingTime].
  match goal with
  | |- context [fold_left MappingEngine.countResult ?rs ?a] =>
      destruct (TimeFacts.window_countResult_fold rs a)
        as (_ & _ & _ & _ & _ & _ & Hh & Hp)
  end.
  cbn zeta in Hh, Hp. cbn [MappingEngine.highConfidenceCount
    MappingEngine.acc_totalProcessingTime] in Hh, Hp.
  split; [reflexivity |]. split; [exact Hh |].
  split; [rewrite Hh; apply filter_length_le |].
  rewrite Hp. now rewrite Qplus_0_l.
Qed.

(** Property X7.  The time window of [calculateProcessingMetadata].  The start is the
    earliest of the time of the call and the timestamps of the entries: it is
    one of them and none is before it, so with no entry it is the time of the
    call.  The end is defined only when some entry has a timestamp after the
    epoch; it is then the latest timestamp of the entries.  Otherwise it is
    undefined and no timestamp is after the epoch. *)
Theorem metadata_time_window :
  forall (cs : ControlService.t) (now : Z) (e : MappingEngine.t),
    let m := MappingEngine.calculateProcessingMetadata cs now e in
    let start := MappingEngine.processingStartTime m in
    (start <= now)%Z
    /\ Forall (fun t => (start <= t)%Z) (View.timestamps e)
    /\ In start (now :: View.timestamps e)
    /\ match MappingEngine.processingEndTime m with
       | Some finish =>
           (0 < finish)%Z
           /\ In finish (View.timestamps e)
           /\ Forall (fun t => (t <= finish)%Z) (View.timestamps e)
       | None => Forall (fun t => (t <= 0)%Z) (View.timestamps e)
       end.
Proof.
  intros cs now e m start. subst m start.
  unfold MappingEngine.calculateProcessingMetadata, View.timestamps.
  cbn [MappingEngine.processingStartTime MappingEngine.processingEndTime].
  match goal with
  | |- context [fold_left MappingEngine.countResult ?rs ?a] =>
      destruct (TimeFacts.window_countResult_fold rs a)
        as (Hs & Hsa & Hsi & He & Hea & Hei & _)
  end.
  cbn zeta in Hs, Hsa, Hsi, He, Hea, Hei.
  cbn [MappingEngine.earliestStart MappingEngine.latestEnd] in Hs, Hsi, He, Hei.
  split; [exact Hs |]. split; [exact Hsa |]. split; [exact Hsi |].
  destruct (Z.ltb_spec 0 (MappingEngine.latestEnd
             (fold_left MappingEngine.countResult
                (JsMap.values (MappingEngine.mappingResults e))
                {| MappingEngine.totalConfidence := 0; MappingEngine.mappingCount := 0;
                   MappingEngine.highConfidenceCount := 0;
                   MappingEngine.earliestStart := now; MappingEngine.latestEnd := 0;
                   MappingEngine.acc_totalProcessingTime := 0 |}))) as [Hpos | Hneg].
  - split; [exact Hpos |]. split; [| exact Hea].
    destruct Hei as [Hei | Hei]; [lia | exact Hei].
  - eapply Forall_impl; [| exact Hea]. cbn beta. intros t Ht. lia.
Qed.

(** Property X8.  [getProcessingStats] counts every job once: [totalJobs], the size of
    the jobs table, is the sum of [activeJobs] (queued or processing),
    [completedJobs] and [failedJobs].  [totalMappings] is the number of
    entries that [getAllMappingResults] returns. *)
Theorem getProcessingStats_classifies_every_job :
  forall (cs : ControlService.t) (e : MappingEngine.t),
    let stats := MappingEngine.getProcessingStats e in
    MappingEngine.totalJobs stats
    = MappingEngine.stats_activeJobs stats + MappingEngine.completedJobs stats
      + MappingEngine.failedJobs stats
    /\ MappingEngine.totalJobs stats = JsMap.size (MappingEngine.activeJobs e)
    /\ MappingEngine.totalMappings stats
       = length (MappingEngine.getAllMappingResults cs e).
Proof.
  intros cs e stats. subst stats. unfold MappingEngine.getProcessingStats.
  cbn [MappingEngine.totalJobs MappingEngine.stats_activeJobs MappingEngine.completedJobs
       MappingEngine.failedJobs MappingEngine.totalMappings].
  split; [apply TimeFacts.status_classes |].
  split.
  - unfold JsMap.values, JsMap.size. apply length_map.
  - unfold MappingEngine.getAllMappingResults, JsMap.values, JsMap.size.
    now rewrite ?length_map.
Qed.

Module ReadFacts.
Import MappingEngine View Spec.

Lemma core_enrich (cs : ControlService.t) (m : NistMapping) :
  core (enrich cs m) = core m /\ titled (enrich cs m).
Proof.
  unfold enrich.
  destruct (String.eqb_spec (nistTitle m) "") as [Ht | Ht];
    destruct (String.eqb_spec (nistDescription m) "") as [Hd | Hd]; cbn [negb andb].
  4: now split.
  all: split; [reflexivity | apply MetadataFacts.getNISTControlMetadata_nonempty].
Qed.

Lemma core_enrichResult (cs : ControlService.t) (r : MappingResult) :
  coreOfResult (enrichResult cs r) = coreOfResult r
  /\ Forall titled (nistMappings (enrichResult cs r)).
Proof.
  unfold coreOfResult, enrichResult. cbn [ismControlId nistMappings processingTimestamp
    aiModel processingTime].
  split.
  - rewrite map_map. f_equal. f_equal. f_equal. f_equal.
    apply map_ext. intros m. apply core_enrich.
  - apply Forall_map, Forall_forall. intros m _. apply core_enrich.
Qed.
End ReadFacts.

(** Property X9.  The reads [getAllMappingResults] and [getMappingResult] change nothing
    but titles and descriptions: the entries come in the order of the mapping
    state, each with its id, timestamp, model and elapsed time, and each
    correspondence with its target, confidence, reasoning and override flag
    as stored.  Whatever the mapping state holds, every correspondence that a
    read returns has a title and a description that are not empty, and
    reading what was read returns it unchanged. *)
Theorem reads_fill_in_metadata_only :
  forall (cs : ControlService.t) (e : MappingEngine.t),
    map View.coreOfResult (MappingEngine.getAllMappingResults cs e)
    = map View.coreOfResult (JsMap.values (MappingEngine.mappingResults e))
    /\ Forall (fun r => Forall Spec.titled (MappingEngine.nistMappings r))
              (MappingEngine.getAllMappingResults cs e)
    /\ (forall ismControlId,
          option_map View.coreOfResult (MappingEngine.getMappingResult cs e ismControlId)
          = option_map View.coreOfResult
              (JsMap.get ismControlId (MappingEngine.mappingResults e)))
    /\ (forall ismControlId r,
          MappingEngine.getMappingResult cs e ismControlId = Some r ->
          Forall Spec.titled (MappingEngine.nistMappings r)
          /\ MappingEngine.enrichResult cs r = r)
    /\ map (MappingEngine.enrichResult cs) (MappingEngine.getAllMappingResults cs e)
       = MappingEngine.getAllMappingResults cs e.
Proof.
  intros cs e. unfold MappingEngine.getAllMappingResults, MappingEngine.getMappingResult.
  split; [| split; [| split; [| split]]].
  - rewrite map_map. apply map_ext. intros r. apply ReadFacts.core_enrichResult.
  - apply Forall_map, Forall_forall. intros r _. apply ReadFacts.core_enrichResult.
  - intros k. destruct (JsMap.get k (MappingEngine.mappingResults e)) as [r |];
      [| reflexivity].
    cbn [option_map]. f_equal. apply ReadFacts.core_enrichResult.
  - intros k r. destruct (JsMap.get k (MappingEngine.mappingResults e)) as [r0 |];
      [| discriminate].
    intros H. inversion H; subst r; clear H.
    assert (Ht := proj2 (ReadFacts.core_enrichResult cs r0)).
    split; [exact Ht |]. now apply MetadataFacts.enrichResult_titled.
  - rewrite map_map. apply map_ext. intros r.
    apply MetadataFacts.enrichResult_titled, ReadFacts.core_enrichResult.
Qed.

Lemma reads_fill_in_metadata_only_witness :
  exists r,
    MappingEngine.getMappingResult Examples.reloadedCatalog Examples.engineAfterWrite "ism-001"
      = Some r
    /\ Forall Spec.titled (MappingEngine.nistMappings r)
    /\ MappingEngine.enrichResult Examples.reloadedCatalog r = r.
Proof.
  eexists. split; [reflexivity |].
  apply (proj1 (proj2 (proj2 (proj2 (reads_fill_in_metadata_only Examples.reloadedCatalog
                                       Examples.engineAfterWrite)))) "ism-001").
  reflexivity.
Defined.

Module PushFacts.
Import MappingEngine View EngineFacts.

Lemma resultsQueue_onProgress (cs : ControlService.t) (jobId : string) (clock : nat -> Z)
    (completed total : nat)
    (latest : option (string * OllamaService.MappingAnalysisResult)) (e : t) :
  resultsQueue (onProgress cs jobId clock completed total latest e)
  = resultsQueue e
    ++ match latest with
       | Some (controlId, r) =>
           [ {| MappingEngine.jobId := jobId;
                result := toMappingResult cs controlId r;
                queue_timestamp := clock completed |} ]
       | None => []
       end.
Proof.
  unfold onProgress.
  destruct latest as [[controlId r] |].
  - unfold storeResult, withResultsQueue. cbn [resultsQueue].
    rewrite !resultsQueue_updateJob. unfold withMappingResults. cbn [resultsQueue].
    now rewrite resultsQueue_updateJob.
  - now rewrite resultsQueue_updateJob, app_nil_r.
Qed.

Section Loop.
Variable JSON_parse : string -> option Js.JsValue.
Variables (cs : ControlService.t) (jobId : string) (clock : nat -> Z).
Variables (ai : OllamaService.OllamaConfig)
          (nistControls : list ControlService.NISTControl)
          (world : nat -> OllamaService.CallEnv) (total : nat).

Lemma resultsQueue_batchLoop (batch : list ControlService.ISMControl) :
  forall (k : nat) (results : JsMap.t OllamaService.MappingAnalysisResult) (e : t),
    resultsQueue
      (snd (OllamaService.batchLoop JSON_parse ai nistControls
              (onProgress cs jobId clock) total world batch k results e))
    = resultsQueue e
      ++ pushedItems cs jobId clock (Spec.outcome JSON_parse ai nistControls world) batch k.
Proof.
  induction batch as [| c rest IH]; intros k results e.
  - cbn. now rewrite app_nil_r.
  - rewrite BatchFacts.batchLoop_cons. cbn [pushedItems].
    destruct (Spec.outcome JSON_parse ai nistControls world k c) as [err | r].
    + rewrite IH, resultsQueue_onProgress. now rewrite app_nil_r.
    + rewrite IH, resultsQueue_onProgress. now rewrite <- app_assoc.
Qed.

Lemma recorded_batchLoop (batch : list ControlService.ISMControl) :
  forall (k : nat) (results : JsMap.t OllamaService.MappingAnalysisResult)
         (calls : list (nat * nat * option (string * OllamaService.MappingAnalysisResult))),
    let answer :=
      OllamaService.batchLoop JSON_parse ai nistControls recordCall total world
        batch k results calls in
    snd answer
    = calls ++ progressCalls (Spec.outcome JSON_parse ai nistControls world) total batch k
    /\ forall id,
         JsMap.get id (fst answer)
         = match Spec.lastSuccess (Spec.outcome JSON_parse ai nistControls world) batch k id with
           | Some r => Some r
           | None => JsMap.get id results
           end.
Proof.
  induction batch as [| c rest IH]; intros k results calls; cbv zeta.
  - cbn. now rewrite app_nil_r.
  - rewrite BatchFacts.batchLoop_cons. cbn [progressCalls Spec.lastSuccess].
    destruct (Spec.outcome JSON_parse ai nistControls world k c) as [err | r].
    + destruct (IH (S k) results (recordCall (S k) total None calls)) as [Hc Hr].
      split.
      * rewrite Hc. unfold recordCall. now rewrite <- app_assoc.
      * intros id. rewrite Hr.
        destruct (Spec.lastSuccess _ rest (S k) id); [reflexivity |].
        now destruct (String.eqb (ControlService.ism_id c) id).
    + destruct (IH (S k) (JsMap.set (ControlService.ism_id c) r results)
                  (recordCall (S k) total (Some (ControlService.ism_id c, r)) calls))
        as [Hc Hr].
      split.
      * rewrite Hc. unfold recordCall. now rewrite <- app_assoc.
      * intros id. rewrite Hr.
        destruct (Spec.lastSuccess _ rest (S k) id); [reflexivity |].
        rewrite JsMapFacts.get_set.
        now destruct (String.eqb (ControlService.ism_id c) id).
Qed.

Lemma progressCalls_numbered (outcome : nat -> ControlService.ISMControl ->
                                        Js.Completion OllamaService.MappingAnalysisResult)
    (batch : list ControlService.ISMControl) (k : nat) :
  map (fun call => fst (fst call)) (progressCalls outcome total batch k)
  = seq (S k) (length batch)
  /\ Forall (fun call => snd (fst call) = total) (progressCalls outcome total batch k).
Proof.
  revert k.
  induction batch as [| c rest IH]; intros k; cbn [progressCalls map length seq].
  - split; [reflexivity | constructor].
  - destruct (IH (S k)) as [Hn Ht]. split.
    + cbn [fst]. now rewrite Hn.
    + constructor; [reflexivity | exact Ht].
Qed.

Lemma pushedItems_of_job (batch : list ControlService.ISMControl) (k : nat) :
  let pushed :=
    pushedItems cs jobId clock (Spec.outcome JSON_parse ai nistControls world) batch k in
  Forall (fun item => MappingEngine.jobId item = jobId) pushed
  /\ length pushed <= length batch.
Proof.
  revert k.
  induction batch as [| c rest IH]; intros k; cbn [pushedItems length].
  - split; [constructor | lia].
  - destruct (IH (S k)) as [Hj Hl]. cbv zeta in Hj, Hl.
    destruct (Spec.outcome JSON_parse ai nistControls world k c) as [err | r].
    + split; [exact Hj | lia].
    + split; [constructor; [reflexivity | exact Hj] | cbn [length]; lia].
Qed.
End Loop.
End PushFacts.

(** Property X10.  What a batch does to the results queue.  With an analyzer, the batch
    appends to the queue one item for each analysis that succeeds, in the
    order of the batch, under the id of the job, and nothing for an analysis
    that fails; the items that were queued stay in front.  Without an
    analyzer the queue and the mapping state stay as they are and the job
    ends [failed], with the error message of the missing service, the end
    time set and the progress as it was. *)
Theorem processControlsAsync_pushes_each_success :
  forall (JSON_parse : string -> option Js.JsValue) (cs : ControlService.t)
         (world : nat -> OllamaService.CallEnv) (clock : nat -> Z) (finishedAt : Z)
         (jobId : string) (ismControls : list ControlService.ISMControl)
         (nistControls : list ControlService.NISTControl) (e : MappingEngine.t),
    let e' :=
      MappingEngine.processControlsAsync JSON_parse cs world clock finishedAt jobId
        ismControls nistControls e in
    match MappingEngine.aiService e with
    | Some ai =>
        let pushed :=
          View.pushedItems cs jobId clock (Spec.outcome JSON_parse ai nistControls world)
            ismControls 0 in
        MappingEngine.resultsQueue e' = MappingEngine.resultsQueue e ++ pushed
        /\ Forall (fun item => MappingEngine.jobId item = jobId) pushed
        /\ length pushed <= length ismControls
    | None =>
        MappingEngine.resultsQueue e' = MappingEngine.resultsQueue e
        /\ MappingEngine.mappingResults e' = MappingEngine.mappingResults e
        /\ forall job,
             MappingEngine.getJobStatus e jobId = Some job ->
             exists job',
               MappingEngine.getJobStatus e' jobId = Some job'
               /\ MappingEngine.status job' = MappingEngine.failed
               /\ MappingEngine.error job' = Some "Ollama service not available"
               /\ MappingEngine.endTime job' = Some finishedAt
               /\ MappingEngine.progress job' = MappingEngine.progress job
    end.
Proof.
  intros JSON_parse cs world clock finishedAt jobId ismControls nistControls e e'.
  subst e'. unfold MappingEngine.processControlsAsync, MappingEngine.completeProcessing,
    MappingEngine.beginProcessing.
  rewrite EngineFacts.aiService_updateJob.
  destruct (MappingEngine.aiService e) as [ai |].
  - unfold OllamaService.batchAnalyzeControls.
    match goal with
    | |- context [OllamaService.batchLoop ?p ?a ?n ?f ?t ?w ?b ?k ?r ?s] =>
        assert (Hq := PushFacts.resultsQueue_batchLoop p cs jobId clock a n w t b k r s);
        destruct (OllamaService.batchLoop p a n f t w b k r s) as [results e2]
    end.
    cbn [snd] in Hq. rewrite EngineFacts.resultsQueue_updateJob in Hq |- *.
    cbv zeta. split; [exact Hq |].
    apply PushFacts.pushedItems_of_job.
  - rewrite !EngineFacts.resultsQueue_updateJob, !EngineFacts.mappingResults_updateJob.
    split; [reflexivity |]. split; [reflexivity |].
    intros job Hj. unfold MappingEngine.getJobStatus in *.
    rewrite !EngineFacts.getJob_updateJob, Hj. cbn [option_map].
    eexists. split; [reflexivity |]. cbn. auto.
Qed.

(** Property X11.  [batchAnalyzeControls] calls the progress callback once for every
    control of the batch, in order, also for a control whose analysis failed:
    the calls carry the numbers 1 to N as [completed], N as [total], and the
    result of the analysis or nothing.  The map that it returns holds, for
    each control id, the result of the last analysis of that id that
    succeeded, and no key for an id whose analyses all failed. *)
Theorem batchAnalyzeControls_reports_every_control :
  forall (JSON_parse : string -> option Js.JsValue) (config : OllamaService.OllamaConfig)
         (ismControls : list ControlService.ISMControl)
         (nistControls : list ControlService.NISTControl)
         (world : nat -> OllamaService.CallEnv),
    let outcome := Spec.outcome JSON_parse config nistControls world in
    let answer :=
      OllamaService.batchAnalyzeControls JSON_parse config ismControls nistControls
        View.recordCall world [] in
    snd answer = View.progressCalls outcome (length ismControls) ismControls 0
    /\ map (fun call => fst (fst call)) (snd answer) = seq 1 (length ismControls)
    /\ Forall (fun call => snd (fst call) = length ismControls) (snd answer)
    /\ forall id, JsMap.get id (fst answer) = Spec.lastSuccess outcome ismControls 0 id.
Proof.
  intros JSON_parse config ismControls nistControls world outcome answer.
  subst outcome answer. unfold OllamaService.batchAnalyzeControls.
  destruct (PushFacts.recorded_batchLoop JSON_parse config nistControls world
              (length ismControls) ismControls 0 JsMap.empty []) as [Hc Hr].
  cbn [app] in Hc. rewrite Hc.
  destruct (PushFacts.progressCalls_numbered (length ismControls)
              (Spec.outcome JSON_parse config nistControls world) ismControls 0) as [Hn Ht].
  split; [reflexivity |]. split; [exact Hn |]. split; [exact Ht |].
  intros id. rewrite Hr.
  now destruct (Spec.lastSuccess _ ismControls 0 id).
Qed.

Lemma processControlsAsync_pushes_each_success_witness :
  let job :=
    {| MappingEngine.id := "job_9"; MappingEngine.status := MappingEngine.queued;
       MappingEngine.progress := 0; MappingEngine.totalControls := 2;
       MappingEngine.processedControls := 0; MappingEngine.startTime := 2900;
       MappingEngine.endTime := None; MappingEngine.error := None;
       MappingEngine.results := JsMap.empty |} in
  let e := MappingEngine.withActiveJobs (JsMap.set "job_9" job) MappingEngine.initial in
  MappingEngine.getJobStatus e "job_9" = Some job
  /\ exists job',
       MappingEngine.getJobStatus
         (MappingEngine.processControlsAsync JsonText.readJson Examples.catalog
            Examples.world Examples.clock 190000 "job_9"
            (ControlService.getISMControls Examples.catalog)
            (ControlService.getNISTControls Examples.catalog) e) "job_9" = Some job'
       /\ MappingEngine.status job' = MappingEngine.failed
       /\ MappingEngine.error job' = Some "Ollama service not available"
       /\ MappingEngine.endTime job' = Some 190000%Z
       /\ MappingEngine.progress job' = MappingEngine.progress job.
Proof.
  intros job e.
  assert (Hj : MappingEngine.getJobStatus e "job_9" = Some job) by reflexivity.
  split; [exact Hj |].
  exact (proj2 (proj2 (processControlsAsync_pushes_each_success JsonText.readJson
                         Examples.catalog Examples.world Examples.clock 190000 "job_9"
                         (ControlService.getISMControls Examples.catalog)
                         (ControlService.getNISTControls Examples.catalog) e)) job Hj).
Defined.

Module RangeFacts.
Import Js MappingEngine View.
Local Open Scope Q_scope.

Lemma parseMapping_inRange (element : JsValue) (m : OllamaService.ControlMapping) :
  OllamaService.parseMapping element = inr m ->
  0 <= OllamaService.confidence m /\ OllamaService.confidence m <= 100.
Proof.
  intros H. apply ParserFacts.parseMapping_inr in H.
  destruct H as (_ & s & c & _ & _ & _ & Hc & _).
  rewrite Hc. apply ClampFacts.clamp_range.
Qed.

Section WithParser.
Variable JSON_parse : string -> option JsValue.

Lemma parseResponse_inRange (content : string) (l : list OllamaService.ControlMapping) :
  OllamaService.parseResponse JSON_parse content = inr l ->
  Forall (fun m => 0 <= OllamaService.confidence m /\ OllamaService.confidence m <= 100) l.
Proof.
  unfold OllamaService.parseResponse.
  destruct (OllamaService.parseResponse_try JSON_parse content) as [err | l0] eqn:Ht;
    cbn; intros H.
  - inversion H; subst l; clear H.
    repeat constructor; cbn; discriminate.
  - inversion H; subst l0; clear H.
    unfold OllamaService.parseResponse_try in Ht.
    destruct (matchBraces content) as [json |]; [| discriminate].
    destruct (JSON_parse json) as [parsed |]; [| discriminate].
    apply ParserFacts.parseParsed_inr in Ht. destruct Ht as (elements & _ & Hm).
    apply JsFacts.mapM_inr in Hm.
    induction Hm as [| x y xs ys Hxy _ IH]; constructor; [| exact IH].
    now apply parseMapping_inRange in Hxy.
Qed.

Lemma analyzeControlMapping_inr (config : OllamaService.OllamaConfig)
    (control : ControlService.ISMControl) (nistControls : list ControlService.NISTControl)
    (w : OllamaService.CallEnv) (r : OllamaService.MappingAnalysisResult) :
  OllamaService.analyzeControlMapping JSON_parse config control nistControls w = inr r ->
  exists content,
    OllamaService.transport w = OllamaService.AxiosResponds (Some content)
    /\ content <> ""%string
    /\ OllamaService.parseResponse JSON_parse content = inr (OllamaService.mappings r)
    /\ OllamaService.processingTime r
       = inject_Z (OllamaService.responseTime w - OllamaService.startTime w)
    /\ OllamaService.model r = OllamaService.config_model config
    /\ OllamaService.timestamp r = OllamaService.resultTime w.
Proof.
  unfold OllamaService.analyzeControlMapping, OllamaService.post.
  destruct (OllamaService.transport w) as [err | [content |]];
    cbn -[OllamaService.parseResponse String.append]; try discriminate.
  destruct (String.eqb_spec content "") as [-> | Hne];
    cbn -[OllamaService.parseResponse String.append]; [discriminate |].
  destruct (OllamaService.parseResponse JSON_parse content) as [err | ms] eqn:Hp;
    cbn -[String.append]; [discriminate |].
  intros H. inversion H; subst r; clear H. cbn.
  exists content. repeat split; assumption.
Qed.
End WithParser.

Lemma inRange_toMappingResult (cs : ControlService.t) (controlId : string)
    (r : OllamaService.MappingAnalysisResult) :
  Forall (fun m => 0 <= OllamaService.confidence m /\ OllamaService.confidence m <= 100)
         (OllamaService.mappings r) ->
  Forall inRange (nistMappings (toMappingResult cs controlId r)).
Proof.
  intros H. unfold toMappingResult. cbn [nistMappings].
  apply Forall_map. revert H. apply Forall_impl. intros m Hm. exact Hm.
Qed.

Lemma inRange_upsertOverride (target : string) (nistMetadata : string * string)
    (confidence : Q) (reasoning : string) (l : list NistMapping) :
  0 <= confidence -> confidence <= 100 ->
  Forall inRange l ->
  Forall inRange (upsertOverride target nistMetadata confidence reasoning l).
Proof.
  intros H0 H1 Hl. unfold upsertOverride.
  destruct (find _ l).
  - induction Hl as [| m l Hm Hl IH]; cbn [mutateFirst]; [constructor |].
    destruct (String.eqb (nistControlId m) target); constructor; try assumption.
    split; assumption.
  - apply Forall_app. split; [exact Hl |]. repeat constructor; assumption.
Qed.

Lemma inRange_applyManualOverride (cs : ControlService.t) (now : Z)
    (ismControlId nistControlId : string) (confidence : Q) (reasoning : string) (e : t) :
  0 <= confidence -> confidence <= 100 ->
  confidencesInRange e ->
  confidencesInRange
    (applyManualOverride cs now ismControlId nistControlId confidence reasoning e).
Proof.
  intros H0 H1 He. unfold confidencesInRange, applyManualOverride in *.
  destruct (JsMap.get ismControlId (mappingResults e)) as [r |] eqn:Hr;
    cbn [withMappingResults mappingResults];
    (apply MetadataFacts.values_set_Forall; [| exact He]); cbn [nistMappings].
  - apply inRange_upsertOverride; try assumption.
    apply MetadataFacts.get_In_values in Hr.
    exact (proj1 (Forall_forall _ _) He _ Hr).
  - repeat constructor; assumption.
Qed.

Lemma inRange_removeManualOverride (ismControlId nistControlId : string) (e : t) :
  confidencesInRange e ->
  confidencesInRange (removeManualOverride ismControlId nistControlId e).
Proof.
  intros He. unfold confidencesInRange, removeManualOverride in *.
  destruct (JsMap.get ismControlId (mappingResults e)) as [r |] eqn:Hr; [| exact He].
  cbn [withMappingResults mappingResults].
  apply MetadataFacts.values_set_Forall; [| exact He]. cbn [nistMappings].
  apply MetadataFacts.get_In_values in Hr.
  assert (Hl := proj1 (Forall_forall _ _) He _ Hr). cbn beta in Hl.
  apply Forall_forall. intros m Hm. apply filter_In in Hm.
  exact (proj1 (Forall_forall _ _) Hl _ (proj1 Hm)).
Qed.

Lemma inRange_onProgress (cs : ControlService.t) (jobId : string) (clock : nat -> Z)
    (completed total : nat)
    (latest : option (string * OllamaService.MappingAnalysisResult)) (e : t) :
  match latest with
  | Some (_, r) =>
      Forall (fun m => 0 <= OllamaService.confidence m /\ OllamaService.confidence m <= 100)
             (OllamaService.mappings r)
  | None => True
  end ->
  confidencesInRange e ->
  confidencesInRange (onProgress cs jobId clock completed total latest e).
Proof.
  intros Hl He. unfold confidencesInRange.
  rewrite (BatchFacts.mappingResults_onProgress cs jobId clock total completed latest e).
  destruct latest as [[controlId r] |]; [| exact He].
  apply MetadataFacts.values_set_Forall; [| exact He].
  now apply inRange_toMappingResult.
Qed.
End RangeFacts.

(** Property X12.  Every confidence in the mapping state lies between 0 and 100, and
    stays there under every sequence of override requests and removal
    requests that come through the controller, of items analysed by a running
    batch, whatever the analyzer answers, and of resets: the controller
    rejects a confidence outside the range, the parser clamps the confidences
    of a response, and the fallback candidate carries 50. *)
Theorem stored_confidences_stay_in_range :
  forall (JSON_parse : string -> option Js.JsValue) (events : list ApiTrace.Event)
         (e : MappingEngine.t),
    View.confidencesInRange e ->
    View.confidencesInRange (ApiTrace.handleAll JSON_parse events e).
Proof.
  intros JSON_parse events. unfold ApiTrace.handleAll.
  induction events as [| event events IH]; intros e He; [exact He |].
  cbn [fold_left]. apply IH. clear IH.
  destruct event as [cs now controlId target confidence reasoning
                    | controlId target
                    | cs config jobId completed total pushedAt control w
                    |]; cbn [ApiTrace.handle].
  - unfold MappingController.applyManualOverride.
    destruct controlId as [controlId |]; [| exact He].
    destruct (String.eqb controlId ""); [exact He |].
    destruct target as [| | | | target | |]; try exact He.
    destruct (String.eqb target ""); [exact He |].
    destruct confidence as [| | | c | | |]; try exact He.
    destruct (Qle_bool 0 c) eqn:H0; [| exact He].
    destruct (Qle_bool c 100) eqn:H1; [| exact He].
    cbn [negb orb].
    destruct reasoning as [| | | | why | |]; try exact He.
    destruct (String.eqb why ""); [exact He |].
    cbn [snd]. apply Qle_bool_iff in H0, H1.
    now apply RangeFacts.inRange_applyManualOverride.
  - unfold MappingController.removeManualOverride.
    destruct controlId as [c |]; [| exact He].
    destruct target as [n |]; [| exact He].
    destruct (String.eqb c "" || String.eqb n ""); [exact He |].
    cbn [snd]. now apply RangeFacts.inRange_removeManualOverride.
  - destruct (OllamaService.analyzeControlMapping JSON_parse config control
                (ControlService.getNISTControls cs) w) as [err | r] eqn:Ha.
    + now apply RangeFacts.inRange_onProgress.
    + apply RangeFacts.inRange_onProgress; [| exact He].
      apply RangeFacts.analyzeControlMapping_inr in Ha.
      destruct Ha as (content & _ & _ & Hp & _).
      now apply RangeFacts.parseResponse_inRange in Hp.
  - unfold View.confidencesInRange, MappingEngine.reset. cbn. constructor.
Qed.

Lemma stored_confidences_stay_in_range_witness :
  View.confidencesInRange MappingEngine.initial
  /\ View.confidencesInRange
       (ApiTrace.handleAll JsonText.readJson
          [ ApiTrace.ItemAnalysed Examples.catalog OllamaService.defaultConfig "job_7" 1 1
              186000 (Examples.ism "ism-002" "Test ISM Control 2") (Examples.world 1);
            ApiTrace.OverrideRequest Examples.catalog 187000 (Some "ism-002")
              (Js.JString "AC-2") (Js.JNumber 100) (Js.JString "manual review");
            ApiTrace.OverrideRequest Examples.catalog 188000 (Some "ism-002")
              (Js.JString "AC-3") (Js.JNumber 250) (Js.JString "manual review") ]
          MappingEngine.initial).
Proof.
  assert (H : View.confidencesInRange MappingEngine.initial) by constructor.
  split; [exact H |].
  apply (stored_confidences_stay_in_range JsonText.readJson). exact H.
Defined.


Module TextFacts.
Import Js JsString.

Lemma upcase_upcase (c : ascii) : upcase (upcase c) = upcase c.
Proof. destruct c as [[] [] [] [] [] [] [] []]; reflexivity. Qed.

Lemma toUpperCase_twice (s : string) : toUpperCase (toUpperCase s) = toUpperCase s.
Proof.
  unfold toUpperCase.
  induction s as [| c rest IH]; cbn [mapString]; [reflexivity |].
  now rewrite upcase_upcase, IH.
Qed.

Lemma upcase_downcase (c : ascii) : upcase (downcase c) = upcase c.
Proof. destruct c as [[] [] [] [] [] [] [] []]; reflexivity. Qed.

Lemma toUpperCase_toLowerCase (s : string) : toUpperCase (toLowerCase s) = toUpperCase s.
Proof.
  unfold toUpperCase, toLowerCase.
  induction s as [| c rest IH]; cbn [mapString]; [reflexivity |].
  now rewrite upcase_downcase, IH.
Qed.

Lemma trimStart_startsClean (s : string) : startsClean (trimStart s).
Proof.
  induction s as [| c rest IH]; cbn [trimStart]; [exact I |].
  destruct (isWhiteSpace c) eqn:Hc; [exact IH | exact Hc].
Qed.

Lemma trimStart_clean (s : string) : startsClean s -> trimStart s = s.
Proof.
  destruct s as [| c rest]; cbn [startsClean trimStart]; [reflexivity |].
  now intros ->.
Qed.

Lemma trimEnd_startsClean (s : string) : startsClean s -> startsClean (trimEnd s).
Proof.
  destruct s as [| c rest]; cbn [startsClean trimEnd]; [trivial |].
  intros Hc. destruct (trimEnd rest); [rewrite Hc |]; exact Hc.
Qed.

Lemma trimEnd_twice (s : string) : trimEnd (trimEnd s) = trimEnd s.
Proof.
  induction s as [| c rest IH]; [reflexivity |].
  cbn [trimEnd].
  destruct (trimEnd rest) as [| d t] eqn:Ht.
  - destruct (isWhiteSpace c) eqn:Hc; [reflexivity |].
    cbn [trimEnd]. now rewrite Hc.
  - cbn [trimEnd] in IH |- *.
    destruct (trimEnd t) as [| d' t'] eqn:Ht'.
    + destruct (isWhiteSpace d) eqn:Hd; [discriminate |].
      now rewrite IH.
    + now rewrite IH.
Qed.

Lemma trim_twice (s : string) : trim (trim s) = trim s.
Proof.
  unfold trim.
  rewrite (trimStart_clean (trimEnd (trimStart s))).
  - apply trimEnd_twice.
  - apply trimEnd_startsClean, trimStart_startsClean.
Qed.

Lemma fromFirstOpen_split (s t : string) :
  fromFirstOpen s = Some t ->
  exists pre rest,
    s = (pre ++ t)%string /\ hasChar "{" pre = false /\ t = String "{" rest.
Proof.
  induction s as [| c s IH]; cbn [fromFirstOpen]; [discriminate |].
  destruct (Ascii.eqb_spec c "{") as [-> | Hc].
  - intros H. inversion H; subst t; clear H.
    exists EmptyString, s. repeat split.
  - intros H. destruct (IH H) as (pre & rest & -> & Hp & ->).
    exists (String c pre), rest. repeat split.
    cbn [hasChar]. rewrite Hp. apply Ascii.eqb_neq in Hc. now rewrite Hc.
Qed.

Lemma fromFirstOpen_none (s : string) :
  fromFirstOpen s = None -> hasChar "{" s = false.
Proof.
  induction s as [| c s IH]; cbn [fromFirstOpen hasChar]; [reflexivity |].
  destruct (Ascii.eqb c "{"); [discriminate |]. exact IH.
Qed.

Lemma upToLastClose_split (s t : string) :
  upToLastClose s = Some t ->
  exists body post,
    s = (t ++ post)%string /\ hasChar "}" post = false
    /\ t = (body ++ String "}" EmptyString)%string.
Proof.
  revert t.
  induction s as [| c s IH]; intros t; cbn [upToLastClose]; [discriminate |].
  destruct (upToLastClose s) as [u |] eqn:Hu.
  - intros H. inversion H; subst t; clear H.
    destruct (IH u eq_refl) as (body & post & -> & Hp & ->).
    exists (String c body), post. repeat split. exact Hp.
  - destruct (Ascii.eqb_spec c "}") as [-> | Hc]; [| discriminate].
    intros H. inversion H; subst t; clear H.
    exists EmptyString, s. repeat split.
    clear IH. induction s as [| d s IHs]; [reflexivity |].
    cbn [upToLastClose] in Hu. cbn [hasChar].
    destruct (upToLastClose s); [discriminate |].
    destruct (Ascii.eqb d "}"); [discriminate |]. now apply IHs.
Qed.

Lemma upToLastClose_none (s : string) :
  upToLastClose s = None -> hasChar "}" s = false.
Proof.
  induction s as [| d s IHs]; [reflexivity |].
  cbn [upToLastClose hasChar].
  destruct (upToLastClose s); [discriminate |].
  destruct (Ascii.eqb d "}"); [discriminate |]. now apply IHs.
Qed.

Lemma isAsciiChar_upcase (c : ascii) : isAsciiChar (upcase c) = isAsciiChar c.
Proof. destruct c as [[] [] [] [] [] [] [] []]; reflexivity. Qed.

Lemma isAscii_toUpperCase (s : string) : isAscii (toUpperCase s) = isAscii s.
Proof.
  unfold toUpperCase.
  induction s as [| c rest IH]; cbn [mapString isAscii]; [reflexivity |].
  now rewrite isAsciiChar_upcase, IH.
Qed.

Lemma isAscii_trimStart (s : string) : isAscii s = true -> isAscii (trimStart s) = true.
Proof.
  induction s as [| c rest IH]; cbn [trimStart]; [trivial |].
  intros H. destruct (isWhiteSpace c); [| exact H].
  cbn [isAscii] in H. apply andb_true_iff in H. now apply IH.
Qed.

Lemma isAscii_trimEnd (s : string) : isAscii s = true -> isAscii (trimEnd s) = true.
Proof.
  induction s as [| c rest IH]; cbn [trimEnd]; [trivial |].
  cbn [isAscii]. intros H. apply andb_true_iff in H. destruct H as [Hc Hrest].
  specialize (IH Hrest).
  destruct (trimEnd rest) as [| d t].
  - destruct (isWhiteSpace c); cbn [isAscii]; [reflexivity |]. now rewrite Hc.
  - cbn [isAscii] in IH |- *. now rewrite Hc, IH.
Qed.
End TextFacts.

Module CandidateFacts.
Import Js OllamaService Spec.

Lemma parseMapping_complete (element : JsValue) :
  hasRequiredFields element = true -> exists m, parseMapping element = inr m.
Proof.
  unfold parseMapping, hasRequiredFields, isNonEmptyString, isNumber, field.
  destruct element as [| | b | q | s | l | fields]; cbn; try discriminate.
  destruct (lookupField "nistControlId" fields) as [| | b | q | s | l | fs];
    cbn; try discriminate.
  destruct (String.eqb s ""); cbn; [discriminate |].
  destruct (lookupField "confidence" fields) as [| | b' | c | s' | l' | fs'];
    cbn; try discriminate.
  destruct (truthy (lookupField "reasoning" fields)); cbn; [| discriminate].
  intros _. eauto.
Qed.

Lemma mapM_parseMapping_complete (elements : list JsValue) :
  forallb hasRequiredFields elements = true ->
  exists l, mapM parseMapping elements = inr l.
Proof.
  induction elements as [| x rest IH]; cbn [forallb]; intros H.
  - exists []. reflexivity.
  - apply andb_true_iff in H. destruct H as [Hx Hrest].
    destruct (parseMapping_complete x Hx) as [m Hm].
    destruct (IH Hrest) as [l Hl].
    exists (m :: l). cbn [mapM]. rewrite Hm. cbn. now rewrite Hl.
Qed.
End CandidateFacts.

(** Property X14.  For an identifier of ASCII characters, what
    [normalizeNistControlId] returns is a normal form: it is a text of ASCII
    characters, in upper case and trimmed already, so that normalizing it
    again returns it, and the identifier in lower case normalizes to the
    same.  (Outside ASCII the last part fails in the program: the upper case
    of a letter and of its lower case can differ.) *)
Theorem normalizeNistControlId_gives_a_normal_form :
  forall (s t : string),
    Js.isAscii s = true ->
    OllamaService.normalizeNistControlId (Js.JString s) = inr t ->
    Js.isAscii t = true
    /\ Js.toUpperCase t = t
    /\ Js.trim t = t
    /\ OllamaService.normalizeNistControlId (Js.JString t) = inr t
    /\ OllamaService.normalizeNistControlId (Js.JString (Js.toLowerCase s)) = inr t.
Proof.
  intros s t Hascii H. cbn in H. inversion H; subst t; clear H.
  assert (Hu : Js.toUpperCase (Js.trim (Js.toUpperCase s)) = Js.trim (Js.toUpperCase s)).
  { rewrite JsFacts.trim_toUpperCase. apply TextFacts.toUpperCase_twice. }
  split.
  { unfold Js.trim. apply TextFacts.isAscii_trimEnd, TextFacts.isAscii_trimStart.
    now rewrite TextFacts.isAscii_toUpperCase. }
  split; [exact Hu |].
  split; [apply TextFacts.trim_twice |].
  split.
  - cbn. f_equal. rewrite Hu. apply TextFacts.trim_twice.
  - cbn. now rewrite TextFacts.toUpperCase_toLowerCase.
Qed.

Lemma normalizeNistControlId_gives_a_normal_form_witness :
  Js.isAscii " Ac-1 " = true
  /\ OllamaService.normalizeNistControlId (Js.JString " Ac-1 ") = inr "AC-1"%string
  /\ OllamaService.normalizeNistControlId (Js.JString "AC-1") = inr "AC-1"%string
  /\ OllamaService.normalizeNistControlId (Js.JString (Js.toLowerCase " Ac-1 "))
     = inr "AC-1"%string.
Proof.
  assert (Ha : Js.isAscii " Ac-1 " = true) by reflexivity.
  assert (H : OllamaService.normalizeNistControlId (Js.JString " Ac-1 ") = inr "AC-1"%string)
    by reflexivity.
  split; [exact Ha |]. split; [exact H |].
  exact (proj2 (proj2 (proj2
           (normalizeNistControlId_gives_a_normal_form " Ac-1 " "AC-1" Ha H)))).
Defined.

(** Property X15.  The part of a response that [parseResponse] takes for JSON runs from
    the first opening brace of the text to its last closing brace: the text
    before it has no opening brace and the text after it no closing brace.
    There is no such part exactly when the text has no opening brace, or no
    closing brace after the first opening one. *)
Theorem matchBraces_is_first_open_to_last_close :
  forall content : string,
    match Js.matchBraces content with
    | Some json =>
        exists pre body post,
          content = (pre ++ json ++ post)%string
          /\ json = (String "{" body ++ String "}" EmptyString)%string
          /\ JsString.hasChar "{" pre = false
          /\ JsString.hasChar "}" post = false
    | None =>
        JsString.hasChar "{" content = false
        \/ exists pre rest,
             content = (pre ++ String "{" rest)%string
             /\ JsString.hasChar "{" pre = false
             /\ JsString.hasChar "}" rest = false
    end.
Proof.
  intros content. unfold Js.matchBraces.
  destruct (Js.fromFirstOpen content) as [s |] eqn:Hs.
  - destruct (TextFacts.fromFirstOpen_split _ _ Hs) as (pre & rest & -> & Hpre & ->).
    destruct (Js.upToLastClose (String "{" rest)) as [json |] eqn:Hj.
    + destruct (TextFacts.upToLastClose_split _ _ Hj) as (body & post & Hsplit & Hpost & ->).
      destruct body as [| b body].
      * cbn in Hj.
        destruct (Js.upToLastClose rest); cbn in Hj; discriminate.
      * cbn [String.append] in Hsplit. inversion Hsplit; subst b rest; clear Hsplit.
        exists pre, body, post. repeat split; assumption.
    + right. exists pre, rest. repeat split; [exact Hpre |].
      apply TextFacts.upToLastClose_none in Hj. exact Hj.
  - left. now apply TextFacts.fromFirstOpen_none.
Qed.

(** Property X16.  A response whose JSON part parses to an object with a [mappings] array
    of which every element has its required fields is not replaced by the
    fallback: the parser returns one candidate for each element, in order,
    each made from its element.  An empty [mappings] array gives no candidate
    at all, and not the fallback candidate. *)
Theorem well_formed_response_gives_its_candidates :
  forall (JSON_parse : string -> option Js.JsValue) (content json : string)
         (parsed : Js.JsValue) (elements : list Js.JsValue),
    Js.matchBraces content = Some json ->
    JSON_parse json = Some parsed ->
    Spec.mappingsArray parsed = Some elements ->
    forallb Spec.hasRequiredFields elements = true ->
    exists l,
      OllamaService.parseResponse JSON_parse content = inr l
      /\ Forall2 Spec.storedFrom elements l
      /\ length l = length elements
      /\ (elements = [] -> l = []).
Proof.
  intros JSON_parse content json parsed elements Hm Hj Ha Hall.
  destruct (CandidateFacts.mapM_parseMapping_complete elements Hall) as [l Hl].
  exists l.
  assert (Hf : Forall2 Spec.storedFrom elements l).
  { apply JsFacts.mapM_inr in Hl. revert Hl. apply Forall2_impl. intros x y Hxy.
    exact (proj2 (ParserFacts.parseMapping_inr _ _ Hxy)). }
  split.
  - unfold OllamaService.parseResponse, OllamaService.parseResponse_try.
    rewrite Hm, Hj, (ParserFacts.parseParsed_array _ _ Ha), Hl. reflexivity.
  - split; [exact Hf |]. split.
    + symmetry. exact (Forall2_length Hf).
    + intros ->. now inversion Hf.
Qed.

Lemma well_formed_response_gives_its_candidates_witness :
  exists l,
    OllamaService.parseResponse JsonText.readJson
      (JsonText.quoted "Nothing fits. {'mappings': []}") = inr l
    /\ l = [].
Proof.
  destruct (well_formed_response_gives_its_candidates JsonText.readJson
              (JsonText.quoted "Nothing fits. {'mappings': []}")
              (JsonText.quoted "{'mappings': []}")
              (Js.JObject [("mappings"%string, Js.JArray [])]) []
              eq_refl eq_refl eq_refl eq_refl) as (l & Hl & _ & _ & He).
  exists l. split; [exact Hl | exact (He eq_refl)].
Defined.

(** Property X17.  [analyzeControlMapping] returns exactly when the transport answers with
    a response text that is not empty, whatever the text is: the candidates
    are those of [parseResponse], the elapsed time is the difference of the
    two clock reads, and the model is the configured one.  It throws in the
    other cases only, when the transport throws or the answer has no text,
    and the error then carries the message of the cause after the prefix of
    the analyzer. *)
Theorem analyzeControlMapping_outcome :
  forall (JSON_parse : string -> option Js.JsValue) (config : OllamaService.OllamaConfig)
         (control : ControlService.ISMControl)
         (nistControls : list ControlService.NISTControl) (w : OllamaService.CallEnv),
    match OllamaService.analyzeControlMapping JSON_parse config control nistControls w with
    | inr r =>
        exists content,
          OllamaService.transport w = OllamaService.AxiosResponds (Some content)
          /\ content <> ""%string
          /\ OllamaService.parseResponse JSON_parse content = inr (OllamaService.mappings r)
          /\ OllamaService.processingTime r
             = inject_Z (OllamaService.responseTime w - OllamaService.startTime w)
          /\ OllamaService.model r = OllamaService.config_model config
          /\ OllamaService.timestamp r = OllamaService.resultTime w
    | inl err =>
        exists cause,
          err = Js.Error ("Ollama analysis failed: " ++ Js.message_of cause)
          /\ match OllamaService.transport w with
             | OllamaService.AxiosThrows thrown => cause = thrown
             | OllamaService.AxiosResponds (Some content) =>
                 content = ""%string /\ cause = Js.Error "No response from Ollama"
             | OllamaService.AxiosResponds None => cause = Js.Error "No response from Ollama"
             end
    end.
Proof.
  intros JSON_parse config control nistControls w.
  destruct (OllamaService.analyzeControlMapping JSON_parse config control nistControls w)
    as [err | r] eqn:Ha.
  - revert Ha. unfold OllamaService.analyzeControlMapping, OllamaService.post.
    destruct (OllamaService.transport w) as [thrown | [content |]];
      cbn -[OllamaService.parseResponse String.append].
    + intros H. inversion H. now exists thrown.
    + destruct (String.eqb_spec content "") as [-> | Hne];
        cbn -[OllamaService.parseResponse String.append].
      * intros H. inversion H. exists (Js.Error "No response from Ollama").
        split; [reflexivity | now split].
      * destruct (ParserFacts.parseResponse_total JSON_parse content) as [l Hl].
        rewrite Hl. cbn -[String.append]. discriminate.
    + intros H. inversion H. exists (Js.Error "No response from Ollama").
      split; reflexivity.
  - now apply RangeFacts.analyzeControlMapping_inr in Ha.
Qed.

Module CatalogFacts.
Import Js JsString ControlService ControlQueries.

(** The laws of the case maps below are laws of the ASCII maps of [Js]:
    they hold of the program on texts of ASCII characters. *)

Lemma includes_empty (s : string) : includes "" s = true.
Proof. destruct s; reflexivity. Qed.

Lemma prefix_same (s : string) : String.prefix s s = true.
Proof.
  induction s as [| c s IH]; [reflexivity |].
  cbn [String.prefix]. destruct (Ascii.ascii_dec c c); [exact IH | congruence].
Qed.

Lemma includes_same (s : string) : includes s s = true.
Proof. destruct s as [| c s]; cbn [includes]; now rewrite prefix_same. Qed.

Lemma downcase_upcase (c : ascii) : downcase (upcase c) = downcase c.
Proof. destruct c as [[] [] [] [] [] [] [] []]; reflexivity. Qed.

Lemma downcase_downcase (c : ascii) : downcase (downcase c) = downcase c.
Proof. destruct c as [[] [] [] [] [] [] [] []]; reflexivity. Qed.

Lemma toLowerCase_toUpperCase (s : string) : toLowerCase (toUpperCase s) = toLowerCase s.
Proof.
  unfold toUpperCase, toLowerCase.
  induction s as [| c rest IH]; cbn [mapString]; [reflexivity |].
  now rewrite downcase_upcase, IH.
Qed.

Lemma toLowerCase_twice (s : string) : toLowerCase (toLowerCase s) = toLowerCase s.
Proof.
  unfold toLowerCase.
  induction s as [| c rest IH]; cbn [mapString]; [reflexivity |].
  now rewrite downcase_downcase, IH.
Qed.

Lemma unique_In (v : string) (values : list string) : In v (unique values) <-> In v values.
Proof.
  induction values as [| w rest IH]; cbn [unique In]; [tauto |].
  rewrite filter_In, IH.
  destruct (String.eqb_spec v w) as [-> | Hne]; cbn [negb].
  - tauto.
  - split.
    + intros [H | [H _]]; [now left | now right].
    + intros [H | H]; [now left | right; now split].
Qed.

Lemma unique_NoDup (values : list string) : NoDup (unique values).
Proof.
  induction values as [| w rest IH]; cbn [unique]; constructor.
  - rewrite filter_In. intros [_ H]. now rewrite String.eqb_refl in H.
  - now apply NoDup_filter.
Qed.

Lemma insertSorted_Permutation (v : string) (sorted : list string) :
  Permutation (v :: sorted) (insertSorted v sorted).
Proof.
  induction sorted as [| w rest IH]; cbn [insertSorted]; [reflexivity |].
  destruct (String.leb v w); [reflexivity |].
  rewrite perm_swap. now apply perm_skip.
Qed.

Lemma sort_Permutation (values : list string) : Permutation values (sort values).
Proof.
  induction values as [| v rest IH]; cbn [sort]; [constructor |].
  rewrite <- insertSorted_Permutation. now apply perm_skip.
Qed.

Lemma insertSorted_Sorted (v : string) (sorted : list string) :
  Sorted (fun a b => String.leb a b = true) sorted ->
  Sorted (fun a b => String.leb a b = true) (insertSorted v sorted).
Proof.
  induction 1 as [| w rest Hs IH Hhd]; cbn [insertSorted].
  - repeat constructor.
  - destruct (String.leb v w) eqn:Hvw.
    + constructor; [now constructor | now constructor].
    + constructor; [exact IH |].
      assert (Hwv : String.leb w v = true).
      { destruct (String.leb_total v w) as [H | H]; [congruence | exact H]. }
      destruct Hhd as [| x rest Hwx]; cbn [insertSorted].
      * now constructor.
      * destruct (String.leb v x); now constructor.
Qed.

Lemma sort_Sorted (values : list string) :
  Sorted (fun a b => String.leb a b = true) (sort values).
Proof.
  induction values as [| v rest IH]; cbn [sort]; [constructor |].
  now apply insertSorted_Sorted.
Qed.
End CatalogFacts.

(** Property X18.  The outcomes of [loadAllControls].  Called while a load is running it
    throws and changes nothing.  Otherwise it lowers [isLoading] at its end,
    whatever happened.  When both loads succeed the store holds the two
    lists, is ready, counts them, and records the time and no error.  When the
    first load fails the second is not attempted: both lists stay as they
    were, also the list of the failed source, whose flag is lowered and whose
    count is 0, and the store is not ready.  When the second load fails the
    first list is the new one already.  A failure records the message of the
    error and keeps the time of the last load. *)
Theorem loadAllControls_outcomes :
  forall (loadedISM : Js.Completion (list ControlService.ISMControl))
         (loadedNIST : Js.Completion (list ControlService.NISTControl))
         (now : Z) (cs : ControlService.t),
    let answer := ControlService.loadAllControls loadedISM loadedNIST now cs in
    let st := ControlService.loadingStatus cs in
    let st' := ControlService.loadingStatus (snd answer) in
    (ControlService.isLoading st = true ->
       answer = (inl (Js.Error "Controls are already being loaded"), cs))
    /\ (ControlService.isLoading st = false ->
          ControlService.isLoading st' = false
          /\ match loadedISM, loadedNIST with
             | inr ism, inr nist =>
                 fst answer = inr tt
                 /\ ControlService.getISMControls (snd answer) = ism
                 /\ ControlService.getNISTControls (snd answer) = nist
                 /\ ControlService.isReady (snd answer) = true
                 /\ ControlService.ismControlCount st' = length ism
                 /\ ControlService.nistControlCount st' = length nist
                 /\ ControlService.lastLoadTime st' = Some now
                 /\ ControlService.error st' = None
             | inr ism, inl e =>
                 fst answer = inl e
                 /\ ControlService.getISMControls (snd answer) = ism
                 /\ ControlService.getNISTControls (snd answer)
                    = ControlService.getNISTControls cs
                 /\ ControlService.isReady (snd answer) = false
                 /\ ControlService.nistControlCount st' = 0
                 /\ ControlService.lastLoadTime st' = ControlService.lastLoadTime st
                 /\ ControlService.error st' = Some (Js.message_of e)
                 /\ ControlService.nistControlsLoaded st' = false
             | inl e, _ =>
                 fst answer = inl e
                 /\ ControlService.getISMControls (snd answer)
                    = ControlService.getISMControls cs
                 /\ ControlService.getNISTControls (snd answer)
                    = ControlService.getNISTControls cs
                 /\ ControlService.isReady (snd answer) = false
                 /\ ControlService.ismControlCount st' = 0
                 /\ ControlService.nistControlsLoaded st'
                    = ControlService.nistControlsLoaded st
                 /\ ControlService.nistControlCount st' = ControlService.nistControlCount st
                 /\ ControlService.lastLoadTime st' = ControlService.lastLoadTime st
                 /\ ControlService.error st' = Some (Js.message_of e)
                 /\ ControlService.ismControlsLoaded st' = false
             end).
Proof.
  intros loadedISM loadedNIST now cs answer st st'. subst answer st st'.
  unfold ControlService.loadAllControls.
  split; intros Hl; rewrite Hl; [reflexivity |].
  destruct loadedISM as [e | ism]; [| destruct loadedNIST as [e | nist]]; cbn.
  all: repeat split; try reflexivity; apply andb_false_r.
Qed.

Lemma loadAllControls_outcomes_witness :
  let cs := Examples.catalog in
  let answer :=
    ControlService.loadAllControls (inl (Js.Error "ENOENT")) (inr []) 2000 cs in
  ControlService.isLoading (ControlService.loadingStatus cs) = false
  /\ fst answer = inl (Js.Error "ENOENT")
  /\ length (ControlService.getISMControls (snd answer)) = 2
  /\ ControlService.ismControlCount (ControlService.loadingStatus (snd answer)) = 0
  /\ ControlService.isReady (snd answer) = false.
Proof.
  intros cs answer. subst answer.
  assert (Hl : ControlService.isLoading (ControlService.loadingStatus cs) = false)
    by reflexivity.
  destruct (proj2 (loadAllControls_outcomes (inl (Js.Error "ENOENT")) (inr []) 2000 cs) Hl)
    as (_ & Hf & Hi & _ & Hr & Hc & _).
  split; [exact Hl |]. split; [exact Hf |].
  split; [rewrite Hi; reflexivity |]. split; [exact Hc | exact Hr].
Defined.

(** Property X19.  The counts of the loading status agree with its flags.  If each count is
    the length of its list while the list counts as loaded, and 0 otherwise,
    then the same holds after [loadISMControls], after [loadNISTControls] and
    after [loadAllControls], whatever the loads come to, and after [reset].
    So in a store that is ready the two counts are the lengths of the lists
    that the store returns. *)
Theorem loading_status_stays_consistent :
  forall (cs : ControlService.t),
    View.statusConsistent cs ->
    (forall loaded, View.statusConsistent (snd (ControlService.loadISMControls loaded cs)))
    /\ (forall loaded, View.statusConsistent (snd (ControlService.loadNISTControls loaded cs)))
    /\ (forall loadedISM loadedNIST now,
          View.statusConsistent
            (snd (ControlService.loadAllControls loadedISM loadedNIST now cs)))
    /\ View.statusConsistent (ControlService.reset cs)
    /\ (ControlService.isReady cs = true ->
        ControlService.ismControlCount (ControlQueries.getLoadingStatus cs)
        = length (ControlService.getISMControls cs)
        /\ ControlService.nistControlCount (ControlQueries.getLoadingStatus cs)
           = length (ControlService.getNISTControls cs)).
Proof.
  intros cs [Hi Hn]. cbv zeta in Hi, Hn.
  split; [| split; [| split; [| split]]].
  - intros [e | l]; unfold View.statusConsistent; cbn; split; auto.
  - intros [e | l]; unfold View.statusConsistent; cbn; split; auto.
  - intros loadedISM loadedNIST now. unfold ControlService.loadAllControls.
    destruct (ControlService.isLoading (ControlService.loadingStatus cs));
      [split; assumption |].
    destruct loadedISM as [e | ism]; [| destruct loadedNIST as [e | nist]];
      unfold View.statusConsistent; cbn; split; auto.
  - split; reflexivity.
  - unfold ControlService.isReady. intros Hr. apply andb_true_iff in Hr.
    destruct Hr as [Hri Hrn]. unfold ControlQueries.getLoadingStatus,
      ControlService.getISMControls, ControlService.getNISTControls.
    rewrite Hi, Hn, Hri, Hrn. split; reflexivity.
Qed.

Lemma loading_status_stays_consistent_witness :
  View.statusConsistent Examples.catalog
  /\ ControlService.isReady Examples.catalog = true
  /\ ControlService.ismControlCount (ControlQueries.getLoadingStatus Examples.catalog) = 2.
Proof.
  assert (H : View.statusConsistent Examples.catalog) by (split; reflexivity).
  split; [exact H |]. split; [reflexivity |].
  destruct (proj2 (proj2 (proj2 (proj2 (loading_status_stays_consistent Examples.catalog H))))
              eq_refl) as [Hc _].
  rewrite Hc. reflexivity.
Defined.

(** Property X20.  The searches of the catalog store ignore the letter case
    of a query of ASCII characters: the query in upper case finds what the
    query finds.  The empty query finds every control.  A control whose id is
    a text of ASCII characters is found by its id in upper case and in lower
    case, and a control whose family is such a text is in the list of its
    family in upper case.  (Outside ASCII the case maps of the program do not
    undo each other, and the first and the last two parts fail.) *)
Theorem search_ignores_letter_case :
  forall (query : string) (cs : ControlService.t),
    (Js.isAscii query = true ->
     ControlQueries.searchISMControls (Js.toUpperCase query) cs
     = ControlQueries.searchISMControls query cs
     /\ ControlQueries.searchNISTControls (Js.toUpperCase query) cs
        = ControlQueries.searchNISTControls query cs)
    /\ ControlQueries.searchISMControls "" cs = ControlService.getISMControls cs
    /\ ControlQueries.searchNISTControls "" cs = ControlService.getNISTControls cs
    /\ (forall control,
          In control (ControlService.getISMControls cs) ->
          (Js.isAscii (ControlService.ism_id control) = true ->
           In control (ControlQueries.searchISMControls
                         (Js.toUpperCase (ControlService.ism_id control)) cs))
          /\ (Js.isAscii (ControlService.controlFamily control) = true ->
              In control (ControlQueries.getISMControlsByFamily
                            (Js.toUpperCase (ControlService.controlFamily control)) cs)))
    /\ (forall control,
          In control (ControlService.getNISTControls cs) ->
          (Js.isAscii (ControlService.nist_id control) = true ->
           In control (ControlQueries.searchNISTControls
                         (Js.toLowerCase (ControlService.nist_id control)) cs))
          /\ (Js.isAscii (ControlService.family control) = true ->
              In control (ControlQueries.getNISTControlsByFamily
                            (Js.toUpperCase (ControlService.family control)) cs))).
Proof.
  intros query cs.
  unfold ControlQueries.searchISMControls, ControlQueries.searchNISTControls,
    ControlQueries.getISMControlsByFamily, ControlQueries.getNISTControlsByFamily,
    ControlService.getISMControls, ControlService.getNISTControls.
  split; [| split; [| split; [| split]]].
  - intros _. rewrite !CatalogFacts.toLowerCase_toUpperCase. split; reflexivity.
  - induction (ControlService.ismControls cs) as [| c l IH]; [reflexivity |].
    cbn [filter Js.toLowerCase Js.mapString]. rewrite CatalogFacts.includes_empty.
    cbn [orb]. f_equal. exact IH.
  - induction (ControlService.nistControls cs) as [| c l IH]; [reflexivity |].
    cbn [filter Js.toLowerCase Js.mapString]. rewrite CatalogFacts.includes_empty.
    cbn [orb]. f_equal. exact IH.
  - intros control Hin. split; intros _; apply filter_In; (split; [exact Hin |]).
    + rewrite CatalogFacts.toLowerCase_toUpperCase, CatalogFacts.includes_same.
      reflexivity.
    + rewrite CatalogFacts.toLowerCase_toUpperCase. apply String.eqb_refl.
  - intros control Hin. split; intros _; apply filter_In; (split; [exact Hin |]).
    + rewrite CatalogFacts.toLowerCase_twice, CatalogFacts.includes_same.
      reflexivity.
    + rewrite CatalogFacts.toLowerCase_toUpperCase. apply String.eqb_refl.
Qed.

Lemma search_ignores_letter_case_witness :
  exists control,
    In control (ControlService.getISMControls Examples.catalog)
    /\ ControlService.ism_id control = "ism-001"%string
    /\ Js.isAscii (ControlService.ism_id control) = true
    /\ In control (ControlQueries.searchISMControls "ISM-001" Examples.catalog)
    /\ ControlQueries.searchISMControls "ISM" Examples.catalog
       = ControlQueries.searchISMControls "ism" Examples.catalog.
Proof.
  exists (Examples.ism "ism-001" "Test ISM Control 1").
  assert (Hin : In (Examples.ism "ism-001" "Test ISM Control 1")
                   (ControlService.getISMControls Examples.catalog)) by (left; reflexivity).
  assert (Ha : Js.isAscii "ism" = true) by reflexivity.
  split; [exact Hin |]. split; [reflexivity |]. split; [reflexivity |].
  split.
  - exact (proj1 (proj1 (proj2 (proj2 (proj2
             (search_ignores_letter_case "ism" Examples.catalog)))) _ Hin) eq_refl).
  - exact (proj1 (proj1 (search_ignores_letter_case "ism" Examples.catalog) Ha)).
Defined.

(** Property X21.  [getISMControlFamilies] and [getNISTControlFamilies] return the
    families of the stored controls, each once, in ascending order of their
    code units: a family is in the list exactly when some stored control has
    it.  Every family of the list has a control in [getISMControlsByFamily]. *)
Theorem control_families_are_sorted_and_distinct :
  forall cs : ControlService.t,
    let families := ControlQueries.getISMControlFamilies cs in
    Sorted (fun a b => String.leb a b = true) families
    /\ NoDup families
    /\ (forall f,
          In f families
          <-> exists control,
                In control (ControlService.getISMControls cs)
                /\ ControlService.controlFamily control = f)
    /\ (forall f, In f families -> ControlQueries.getISMControlsByFamily f cs <> [])
    /\ Sorted (fun a b => String.leb a b = true) (ControlQueries.getNISTControlFamilies cs)
    /\ NoDup (ControlQueries.getNISTControlFamilies cs)
    /\ (forall f,
          In f (ControlQueries.getNISTControlFamilies cs)
          <-> exists control,
                In control (ControlService.getNISTControls cs)
                /\ ControlService.family control = f).
Proof.
  intros cs families. subst families.
  unfold ControlQueries.getISMControlFamilies, ControlQueries.getNISTControlFamilies,
    ControlService.getISMControls, ControlService.getNISTControls.
  assert (Hism : forall f,
             In f (JsString.sort (JsString.unique
                     (map ControlService.controlFamily (ControlService.ismControls cs))))
             <-> exists control,
                   In control (ControlService.ismControls cs)
                   /\ ControlService.controlFamily control = f).
  { intros f. split.
    - intros H. apply (Permutation_in _ (Permutation_sym (CatalogFacts.sort_Permutation _))) in H.
      apply CatalogFacts.unique_In, in_map_iff in H.
      destruct H as (c & Hc & Hin). now exists c.
    - intros (c & Hin & Hc).
      apply (Permutation_in _ (CatalogFacts.sort_Permutation _)).
      apply CatalogFacts.unique_In, in_map_iff. now exists c. }
  split; [apply CatalogFacts.sort_Sorted |].
  split.
  { apply (Permutation_NoDup (CatalogFacts.sort_Permutation _)), CatalogFacts.unique_NoDup. }
  split; [exact Hism |].
  split.
  { intros f Hf. apply Hism in Hf. destruct Hf as (c & Hin & Hc).
    assert (Hc' : In c (ControlQueries.getISMControlsByFamily f cs)).
    { apply filter_In. split; [exact Hin |]. rewrite Hc. apply String.eqb_refl. }
    intros Hnil. rewrite Hnil in Hc'. exact Hc'. }
  split; [apply CatalogFacts.sort_Sorted |].
  split.
  { apply (Permutation_NoDup (CatalogFacts.sort_Permutation _)), CatalogFacts.unique_NoDup. }
  intros f. split.
  - intros H. apply (Permutation_in _ (Permutation_sym (CatalogFacts.sort_Permutation _))) in H.
    apply CatalogFacts.unique_In, in_map_iff in H.
    destruct H as (c & Hc & Hin). now exists c.
  - intros (c & Hin & Hc).
    apply (Permutation_in _ (CatalogFacts.sort_Permutation _)).
    apply CatalogFacts.unique_In, in_map_iff. now exists c.
Qed.

Lemma control_families_are_sorted_and_distinct_witness :
  ControlQueries.getISMControlFamilies Examples.catalog = ["Security"%string]
  /\ ControlQueries.getISMControlsByFamily "Security" Examples.catalog <> [].
Proof.
  assert (H : ControlQueries.getISMControlFamilies Examples.catalog = ["Security"%string])
    by reflexivity.
  split; [exact H |].
  apply (proj1 (proj2 (proj2 (proj2 (control_families_are_sorted_and_distinct
                                       Examples.catalog))))).
  rewrite H. left. reflexivity.
Defined.

Module CatalogDocumentFacts.
Import Js JsString OSCALParser View.

Lemma ids_processGroup (g : OSCALGroup) :
  forall parentTitle,
    map ControlService.ism_id (processGroup parentTitle g)
    = map oscal_id (controlsOfGroup g).
Proof.
  induction g as [id title controls groups IH] using OSCALGroup_nested_ind.
  intros parentTitle. cbn [processGroup controlsOfGroup].
  rewrite !map_app, map_map. cbn [convertOSCALToISMControl ControlService.ism_id].
  f_equal.
  generalize (Some (fullTitle parentTitle (Group id title controls groups))).
  intros parent.
  induction IH as [| g groups Hg _ IHgroups]; [reflexivity |].
  cbn [flat_map]. rewrite !map_app. now rewrite Hg, IHgroups.
Qed.

Lemma orDefault_nonempty (x : option string) (fallback : string) :
  fallback <> ""%string -> orDefault x fallback <> ""%string.
Proof.
  intros Hf. unfold orDefault.
  destruct x as [s |]; [| exact Hf].
  destruct (String.eqb_spec s ""); assumption.
Qed.

(** The fields that [convertOSCALToISMControl] fills in. *)
Lemma convert_filled (control : OSCALControl) (groupTitle : option string) :
  let c := convertOSCALToISMControl control groupTitle in
  ControlService.ism_title c <> ""%string
  /\ ControlService.ism_description c <> ""%string
  /\ ControlService.implementationGuidance c <> ""%string
  /\ ControlService.controlFamily c <> ""%string.
Proof.
  cbv zeta. unfold convertOSCALToISMControl.
  cbn [ControlService.ism_title ControlService.ism_description
       ControlService.implementationGuidance ControlService.controlFamily].
  repeat split; apply orDefault_nonempty; discriminate.
Qed.

Lemma filled_processGroup (g : OSCALGroup) :
  forall parentTitle,
    Forall (fun c => ControlService.ism_title c <> ""%string
                     /\ ControlService.ism_description c <> ""%string
                     /\ ControlService.implementationGuidance c <> ""%string
                     /\ ControlService.controlFamily c <> ""%string)
           (processGroup parentTitle g).
Proof.
  induction g as [id title controls groups IH] using OSCALGroup_nested_ind.
  intros parentTitle. cbn [processGroup].
  apply Forall_app. split.
  - apply Forall_map, Forall_forall. intros control _. apply convert_filled.
  - generalize (Some (fullTitle parentTitle (Group id title controls groups))).
    intros parent.
    induction IH as [| g groups Hg _ IHgroups]; [constructor |].
    cbn [flat_map]. apply Forall_app. split; [apply Hg | exact IHgroups].
Qed.

Lemma join_empty (proses : list string) :
  Forall (fun s => s <> ""%string) proses ->
  join " " proses = ""%string -> proses = [].
Proof.
  unfold join. intros H.
  destruct H as [| s rest Hs _]; [reflexivity |].
  cbn [String.concat]. destruct rest as [| s' rest].
  - intros E. contradiction.
  - destruct s; [contradiction | discriminate].
Qed.

Lemma proses_nonempty (parts : list ControlPart) :
  Forall (fun s => s <> ""%string)
         (map (fun p => orDefault (prose p) "")
              (filter (fun p => present (prose p)) parts)).
Proof.
  apply Forall_map, Forall_forall. intros p Hp. apply filter_In in Hp.
  destruct Hp as [_ Hp]. unfold present, orDefault in *.
  destruct (prose p) as [s |]; [| discriminate].
  destruct (String.eqb_spec s ""); [discriminate | assumption].
Qed.

Lemma allProse_empty (parts : list ControlPart) :
  join " " (map (fun p => orDefault (prose p) "")
                (filter (fun p => present (prose p)) parts)) = ""%string
  <-> existsb (fun p => present (prose p)) parts = false.
Proof.
  split.
  - intros H. apply join_empty in H; [| apply proses_nonempty].
    apply map_eq_nil in H.
    induction parts as [| p parts IH]; [reflexivity |].
    cbn [filter existsb] in *.
    destruct (present (prose p)); [discriminate | now apply IH].
  - intros H.
    replace (filter (fun p => present (prose p)) parts) with (@nil ControlPart);
      [reflexivity |].
    induction parts as [| p parts IH]; [reflexivity |].
    cbn [filter existsb] in *. apply orb_false_iff in H. destruct H as [Hp Hrest].
    rewrite Hp. now apply IH.
Qed.

Lemma find_skips (A : Type) (f : A -> bool) (pre post : list A) (x : A) :
  forallb (fun y => negb (f y)) pre = true -> f x = true ->
  find f (pre ++ x :: post) = Some x.
Proof.
  induction pre as [| y pre IH]; cbn [forallb app find]; intros Hpre Hx.
  - now rewrite Hx.
  - apply andb_true_iff in Hpre. destruct Hpre as [Hy Hpre].
    apply negb_true_iff in Hy. rewrite Hy. now apply IH.
Qed.

Lemma find_nowhere (A : Type) (f : A -> bool) (l : list A) :
  forallb (fun y => negb (f y)) l = true -> find f l = None.
Proof.
  induction l as [| y l IH]; cbn [forallb find]; [reflexivity |].
  intros H. apply andb_true_iff in H. destruct H as [Hy Hl].
  apply negb_true_iff in Hy. rewrite Hy. now apply IH.
Qed.
Lemma ids_parseISMControls (catalog : OSCALCatalog) :
  map ControlService.ism_id (parseISMControls catalog)
  = map oscal_id (controlsOfCatalog catalog).
Proof.
  unfold parseISMControls, controlsOfCatalog, processGroups.
  rewrite !map_app, map_map. cbn [convertOSCALToISMControl ControlService.ism_id].
  f_equal.
  induction (catalog_groups catalog) as [| g groups IH]; [reflexivity |].
  cbn [flat_map]. rewrite !map_app.
  now rewrite ids_processGroup, IH.
Qed.
End CatalogDocumentFacts.

(** Property X22.  [parseISMControls] reads every control of the catalog document, at
    whatever depth of nested groups it lies, once and in the order of the
    document: the controls of the catalog itself first, then group by group,
    the controls of a group before those of its nested groups.  No field of a
    control that it returns is empty: a missing title, description, guidance
    or family is replaced by its placeholder. *)
Theorem parseISMControls_reads_every_control :
  forall catalog : OSCALParser.OSCALCatalog,
    map ControlService.ism_id (OSCALParser.parseISMControls catalog)
    = map OSCALParser.oscal_id (View.controlsOfCatalog catalog)
    /\ length (OSCALParser.parseISMControls catalog)
       = length (View.controlsOfCatalog catalog)
    /\ Forall (fun c => ControlService.ism_title c <> ""%string
                        /\ ControlService.ism_description c <> ""%string
                        /\ ControlService.implementationGuidance c <> ""%string
                        /\ ControlService.controlFamily c <> ""%string)
              (OSCALParser.parseISMControls catalog).
Proof.
  intros catalog.
  assert (Hids := CatalogDocumentFacts.ids_parseISMControls catalog).
  split; [exact Hids |]. split.
  - rewrite <- (length_map ControlService.ism_id), Hids. apply length_map.
  - unfold OSCALParser.parseISMControls, OSCALParser.processGroups.
    apply Forall_app. split.
    + apply Forall_map, Forall_forall. intros control _.
      apply CatalogDocumentFacts.convert_filled.
    + induction (OSCALParser.catalog_groups catalog) as [| g groups IH]; [constructor |].
      cbn [flat_map]. apply Forall_app.
      split; [apply CatalogDocumentFacts.filled_processGroup | exact IH].
Qed.

(** Property X23.  [parseNISTControls] reads the controls of the catalog itself and those
    that lie directly in a group of the first level, in the order of the
    document, and no control of a nested group: it never returns more
    controls than [parseISMControls] does on the same document, and it
    returns the controls of the same ids when no group of the first level has
    nested groups. *)
Theorem parseNISTControls_reads_the_first_level_only :
  forall catalog : OSCALParser.OSCALCatalog,
    map ControlService.nist_id (OSCALParser.parseNISTControls catalog)
    = map OSCALParser.oscal_id (View.shallowControls catalog)
    /\ length (OSCALParser.parseNISTControls catalog)
       <= length (OSCALParser.parseISMControls catalog)
    /\ (Forall (fun g => OSCALParser.group_groups_of g = [])
               (OSCALParser.catalog_groups catalog) ->
        map ControlService.nist_id (OSCALParser.parseNISTControls catalog)
        = map ControlService.ism_id (OSCALParser.parseISMControls catalog)).
Proof.
  intros catalog.
  assert (Hids : map ControlService.nist_id (OSCALParser.parseNISTControls catalog)
                 = map OSCALParser.oscal_id (View.shallowControls catalog)).
  { unfold OSCALParser.parseNISTControls, View.shallowControls.
    rewrite !map_app, map_map. cbn [OSCALParser.convertOSCALToNISTControl ControlService.nist_id].
    f_equal.
    induction (OSCALParser.catalog_groups catalog) as [| g groups IH]; [reflexivity |].
    cbn [flat_map]. rewrite !map_app, map_map. now rewrite IH. }
  split; [exact Hids |].
  assert (Hism := CatalogDocumentFacts.ids_parseISMControls catalog).
  split.
  - rewrite <- (length_map ControlService.ism_id (OSCALParser.parseISMControls catalog)).
    rewrite Hism, <- (length_map ControlService.nist_id), Hids, !length_map.
    unfold View.shallowControls, View.controlsOfCatalog. rewrite !length_app.
    apply Nat.add_le_mono_l.
    induction (OSCALParser.catalog_groups catalog) as [| g groups IH]; [constructor |].
    cbn [flat_map]. rewrite !length_app.
    apply Nat.add_le_mono; [| exact IH].
    destruct g as [id title controls nested]. cbn [OSCALParser.group_controls_of
      View.controlsOfGroup]. rewrite length_app. lia.
  - intros Hflat. rewrite Hids, Hism.
    unfold View.shallowControls, View.controlsOfCatalog. f_equal. f_equal.
    induction Hflat as [| g groups Hg _ IH]; [reflexivity |].
    cbn [flat_map]. rewrite IH. f_equal.
    destruct g as [id title controls nested]. cbn in Hg. subst nested.
    cbn. now rewrite app_nil_r.
Qed.

Lemma parseNISTControls_reads_the_first_level_only_witness :
  let control :=
    {| OSCALParser.oscal_id := "ac-1"; OSCALParser.oscal_title := "Policy and Procedures";
       OSCALParser.props := None; OSCALParser.parts := None |} in
  let catalog :=
    {| OSCALParser.catalog_groups :=
         [OSCALParser.Group "ac" (Some "Access Control"%string) [control] []];
       OSCALParser.catalog_controls := [] |} in
  Forall (fun g => OSCALParser.group_groups_of g = []) (OSCALParser.catalog_groups catalog)
  /\ map ControlService.nist_id (OSCALParser.parseNISTControls catalog)
     = map ControlService.ism_id (OSCALParser.parseISMControls catalog).
Proof.
  intros control catalog.
  assert (H : Forall (fun g => OSCALParser.group_groups_of g = [])
                     (OSCALParser.catalog_groups catalog))
    by (repeat constructor).
  split; [exact H |].
  exact (proj2 (proj2 (parseNISTControls_reads_the_first_level_only catalog)) H).
Defined.

(** Property X24.  [extractDescription] returns the empty text exactly when no part of
    the control carries prose, whatever the names of the parts are.  So the
    description of a converted control is the placeholder exactly when the
    control has no prose, or when its prose is the text of the placeholder. *)
Theorem extractDescription_is_empty_only_without_prose :
  forall parts : option (list OSCALParser.ControlPart),
    (OSCALParser.extractDescription parts = ""%string <-> View.hasProse parts = false)
    /\ forall control groupTitle,
         OSCALParser.parts control = parts ->
         (ControlService.ism_description
            (OSCALParser.convertOSCALToISMControl control groupTitle)
          = "No description available"%string
          <-> View.hasProse parts = false
              \/ OSCALParser.extractDescription parts = "No description available"%string).
Proof.
  intros parts.
  assert (Hempty : OSCALParser.extractDescription parts = ""%string
                   <-> View.hasProse parts = false).
  { unfold OSCALParser.extractDescription, View.hasProse.
    destruct parts as [parts |]; [| tauto].
    destruct (find _ parts) as [part |] eqn:Hf.
    - destruct (JsString.present (OSCALParser.prose part)) eqn:Hp.
      + apply find_some in Hf. destruct Hf as [Hin _].
        split.
        * intros E. unfold JsString.present, JsString.orDefault in *.
          destruct (OSCALParser.prose part) as [s |]; [| discriminate].
          destruct (String.eqb_spec s ""); [discriminate | contradiction].
        * intros E.
          assert (Ht : existsb (fun p => JsString.present (OSCALParser.prose p)) parts = true).
          { apply existsb_exists. now exists part. }
          congruence.
      + apply CatalogDocumentFacts.allProse_empty.
    - apply CatalogDocumentFacts.allProse_empty. }
  split; [exact Hempty |].
  intros control groupTitle Hparts.
  unfold OSCALParser.convertOSCALToISMControl. cbn [ControlService.ism_description].
  rewrite Hparts. unfold JsString.orDefault.
  destruct (String.eqb_spec (OSCALParser.extractDescription parts) "") as [E | E].
  - split; [intros _; left; now apply Hempty | reflexivity].
  - split.
    + intros H. now right.
    + intros [H | H]; [apply Hempty in H; contradiction | exact H].
Qed.

Lemma extractDescription_is_empty_only_without_prose_witness :
  let control :=
    {| OSCALParser.oscal_id := "ism-1"; OSCALParser.oscal_title := "";
       OSCALParser.props := None;
       OSCALParser.parts :=
         Some [ {| OSCALParser.part_name := "statement"; OSCALParser.prose := None |} ] |} in
  ControlService.ism_description (OSCALParser.convertOSCALToISMControl control None)
  = "No description available"%string.
Proof.
  intros control.
  apply (proj2 (extractDescription_is_empty_only_without_prose (OSCALParser.parts control))
           control None eq_refl).
  left. reflexivity.
Defined.

(** Property X25.  [extractRiskLevel] reads the first property named [risk-level],
    [priority] or [criticality] and no other: the properties after it do not
    count.  Of its value in upper case, HIGH or CRITICAL gives the level
    HIGH, also when LOW or BASIC occurs in it; LOW or BASIC gives LOW
    otherwise.  Without such a property the level is MEDIUM. *)
Theorem extractRiskLevel_reads_the_first_risk_property :
  forall (pre post : list OSCALParser.ControlProperty) (p : OSCALParser.ControlProperty),
    let isRisk := fun prop =>
      OSCALParser.oneOf ["risk-level"; "priority"; "criticality"]%string
        (OSCALParser.prop_name prop) in
    forallb (fun prop => negb (isRisk prop)) pre = true ->
    isRisk p = true ->
    let level := OSCALParser.extractRiskLevel (Some (pre ++ p :: post)) in
    let value := Js.toUpperCase (OSCALParser.prop_value p) in
    level = OSCALParser.extractRiskLevel (Some [p])
    /\ (level = ControlService.HIGH
        <-> JsString.includes "HIGH" value = true
            \/ JsString.includes "CRITICAL" value = true)
    /\ (level = ControlService.LOW
        <-> level <> ControlService.HIGH
            /\ (JsString.includes "LOW" value = true
                \/ JsString.includes "BASIC" value = true))
    /\ OSCALParser.extractRiskLevel (Some pre) = ControlService.MEDIUM.
Proof.
  intros pre post p isRisk Hpre Hp level value. subst level value isRisk.
  cbv beta in Hpre, Hp.
  unfold OSCALParser.extractRiskLevel.
  rewrite (CatalogDocumentFacts.find_skips _ _ pre post p Hpre Hp).
  rewrite (CatalogDocumentFacts.find_nowhere _ _ pre Hpre).
  cbn [find]. rewrite Hp.
  split; [reflexivity |].
  destruct (JsString.includes "HIGH" (Js.toUpperCase (OSCALParser.prop_value p)));
    destruct (JsString.includes "CRITICAL" (Js.toUpperCase (OSCALParser.prop_value p)));
    destruct (JsString.includes "LOW" (Js.toUpperCase (OSCALParser.prop_value p)));
    destruct (JsString.includes "BASIC" (Js.toUpperCase (OSCALParser.prop_value p)));
    cbn [orb]; intuition (try discriminate; try congruence).
Qed.

Lemma extractRiskLevel_reads_the_first_risk_property_witness :
  OSCALParser.extractRiskLevel
    (Some [ {| OSCALParser.prop_name := "label"; OSCALParser.prop_value := "low" |};
            {| OSCALParser.prop_name := "priority";
               OSCALParser.prop_value := "Highly critical, not low" |};
            {| OSCALParser.prop_name := "risk-level"; OSCALParser.prop_value := "low" |} ])
  = ControlService.HIGH.
Proof.
  apply (proj1 (proj2 (extractRiskLevel_reads_the_first_risk_property
           [ {| OSCALParser.prop_name := "label"; OSCALParser.prop_value := "low" |} ]
           [ {| OSCALParser.prop_name := "risk-level"; OSCALParser.prop_value := "low" |} ]
           {| OSCALParser.prop_name := "priority";
              OSCALParser.prop_value := "Highly critical, not low" |}
           eq_refl eq_refl))).
  left. reflexivity.
Defined.

Module SummaryFacts.
Import ReportService View.

Lemma bandTotal_countBand (c : Q) (d : ConfidenceDistribution) :
  bandTotal (countBand c d) = S (bandTotal d).
Proof.
  unfold countBand, bandTotal.
  destruct (Qle_bool 95 c); [cbn; lia |].
  destruct (Qle_bool 85 c); [cbn; lia |].
  destruct (Qle_bool 75 c); [cbn; lia |].
  destruct (Qle_bool 65 c); [cbn; lia |].
  destruct (Qle_bool 55 c); cbn; lia.
Qed.

Lemma familyTotal_set (family : string) (v : FamilyCount) (d : JsMap.t FamilyCount) :
  familyTotal (JsMap.set family v d)
  + match JsMap.get family d with Some old => countOf old | None => 0 end
  = familyTotal d + countOf v.
Proof.
  unfold familyTotal, JsMap.values.
  induction d as [| [k old] d IH]; cbn [JsMap.set JsMap.get map list_sum fold_right].
  - cbn. lia.
  - destruct (String.eqb k family); cbn [map list_sum fold_right snd].
    + fold (list_sum (map countOf (map snd d))). lia.
    + fold (list_sum (map countOf (map snd d))).
      fold (list_sum (map countOf (map snd (JsMap.set family v d)))). lia.
Qed.

Lemma inherited_proto : inherited "__proto__" = true.
Proof. reflexivity. Qed.

(** A family adds 1 to the counts, unless the object inherits its name. *)
Lemma familyTotal_countFamily (family : string) (d : JsMap.t FamilyCount) :
  textsUnderInheritedNames d ->
  familyTotal (countFamily family d)
  = familyTotal d + (if inherited family then 0 else 1).
Proof.
  intros Hd. unfold countFamily.
  destruct (String.eqb_spec family "__proto__") as [-> | Hproto].
  - rewrite inherited_proto. lia.
  - destruct (JsMap.get family d) as [[n |] |] eqn:Hget.
    + assert (Hn : inherited family = false).
      { destruct (inherited family) eqn:Hi; [| reflexivity].
        apply (Hd _ _ Hget) in Hi. discriminate. }
      rewrite Hn.
      assert (H := familyTotal_set family (Counted (S n)) d).
      rewrite Hget in H. cbn [countOf] in H. lia.
    + assert (Hi : inherited family = true) by now apply (Hd _ _ Hget).
      rewrite Hi.
      assert (H := familyTotal_set family NotACount d).
      rewrite Hget in H. cbn [countOf] in H. lia.
    + destruct (inherited family).
      * assert (H := familyTotal_set family NotACount d).
        rewrite Hget in H. cbn [countOf] in H. lia.
      * assert (H := familyTotal_set family (Counted 1) d).
        rewrite Hget in H. cbn [countOf] in H. lia.
Qed.

Lemma texts_countFamily (family : string) (d : JsMap.t FamilyCount) :
  textsUnderInheritedNames d -> textsUnderInheritedNames (countFamily family d).
Proof.
  intros Hd. unfold countFamily.
  destruct (String.eqb_spec family "__proto__") as [-> | Hproto]; [exact Hd |].
  assert (Hset : forall v,
             (v = NotACount <-> inherited family = true) ->
             textsUnderInheritedNames (JsMap.set family v d)).
  { intros v Hv name w. rewrite JsMapFacts.get_set.
    destruct (String.eqb_spec family name) as [<- | Hne].
    - intros E. inversion E; subst w. exact Hv.
    - apply Hd. }
  destruct (JsMap.get family d) as [[n |] |] eqn:Hget.
  - apply Hset. destruct (Hd _ _ Hget) as [_ H2]. split; [discriminate |].
    intros Hi. apply H2 in Hi. discriminate.
  - apply Hset. destruct (Hd _ _ Hget) as [H1 _]. split; [intros _; now apply H1 | reflexivity].
  - destruct (inherited family) eqn:Hi; apply Hset; rewrite ?Hi.
    + split; reflexivity.
    + split; discriminate.
Qed.

Lemma countMapping_step (nist : list ControlService.NISTControl)
    (stats : SummaryStats) (total : Q) (m : MappingEngine.NistMapping) :
  countMapping nist (stats, total) m
  = ({| totalISMControls := totalISMControls stats;
        totalMappings := S (totalMappings stats);
        confidenceDistribution :=
          countBand (MappingEngine.confidence m) (confidenceDistribution stats);
        familyDistribution :=
          match find (fun c => String.eqb (ControlService.nist_id c)
                                          (MappingEngine.nistControlId m)) nist with
          | Some c => countFamily (ControlService.family c) (familyDistribution stats)
          | None => familyDistribution stats
          end;
        manualOverrides :=
          if MappingEngine.isManualOverride m then S (manualOverrides stats)
          else manualOverrides stats;
        averageProcessingTime := averageProcessingTime stats |},
     total).
Proof. reflexivity. Qed.

Lemma countResult_step (nist : list ControlService.NISTControl)
    (stats : SummaryStats) (total : Q) (r : MappingEngine.MappingResult) :
  countResult nist (stats, total) r
  = fold_left (countMapping nist) (MappingEngine.nistMappings r)
      (stats, (total + MappingEngine.processingTime r)%Q).
Proof. reflexivity. Qed.

(** What the loops of [generateSummaryStats] add to the counters. *)
Lemma counters_countMapping_fold (nist : list ControlService.NISTControl)
    (l : list MappingEngine.NistMapping) (stats : SummaryStats) (total : Q) :
  let stats' := fst (fold_left (countMapping nist) l (stats, total)) in
  bandTotal (confidenceDistribution stats')
  = bandTotal (confidenceDistribution stats) + length l
  /\ manualOverrides stats'
     = manualOverrides stats + length (filter MappingEngine.isManualOverride l)
  /\ totalISMControls stats' = totalISMControls stats
  /\ (textsUnderInheritedNames (familyDistribution stats) ->
      textsUnderInheritedNames (familyDistribution stats')
      /\ familyTotal (familyDistribution stats')
         = familyTotal (familyDistribution stats)
           + length (filter (filedUnderOwnName nist) l)).
Proof.
  revert stats.
  induction l as [| m l IH]; intros stats; cbn [fold_left filter length].
  - cbn [fst]. split; [lia |]. split; [cbn; lia |]. split; [reflexivity |].
    intros Hd. split; [exact Hd |]. cbn. lia.
  - rewrite countMapping_step.
    match goal with
    | |- context [fold_left (countMapping nist) l (?s, total)] =>
        destruct (IH s) as (Hb & Hm & Ht & Hf)
    end.
    cbv zeta in Hb, Hm, Hf, Ht |- *. rewrite Hb, Hm, Ht.
    cbn [confidenceDistribution manualOverrides familyDistribution totalISMControls]
      in Hf |- *.
    rewrite bandTotal_countBand.
    split; [lia |]. split.
    + destruct (MappingEngine.isManualOverride m); cbn [length]; lia.
    + split; [reflexivity |].
      intros Hd.
      assert (Hm' : filedUnderOwnName nist m
                    = match find (fun c => String.eqb (ControlService.nist_id c)
                                                      (MappingEngine.nistControlId m))
                                 nist with
                      | Some c => negb (inherited (ControlService.family c))
                      | None => false
                      end) by reflexivity.
      rewrite Hm'. clear Hm'.
      destruct (find _ nist) as [c |].
      * destruct (Hf (texts_countFamily _ _ Hd)) as [Hd' Hsum].
        split; [exact Hd' |].
        rewrite Hsum, (familyTotal_countFamily _ _ Hd).
        destruct (inherited (ControlService.family c)); cbn [negb length]; lia.
      * destruct (Hf Hd) as [Hd' Hsum]. split; [exact Hd' |]. rewrite Hsum. lia.
Qed.

Lemma counters_countResult_fold (nist : list ControlService.NISTControl)
    (ms : list MappingEngine.MappingResult) (stats : SummaryStats) (total : Q) :
  let stats' := fst (fold_left (countResult nist) ms (stats, total)) in
  bandTotal (confidenceDistribution stats')
  = bandTotal (confidenceDistribution stats) + length (allCorrespondences ms)
  /\ manualOverrides stats'
     = manualOverrides stats
       + length (filter MappingEngine.isManualOverride (allCorrespondences ms))
  /\ totalISMControls stats' = totalISMControls stats
  /\ (textsUnderInheritedNames (familyDistribution stats) ->
      textsUnderInheritedNames (familyDistribution stats')
      /\ familyTotal (familyDistribution stats')
         = familyTotal (familyDistribution stats)
           + length (filter (filedUnderOwnName nist) (allCorrespondences ms))).
Proof.
  revert stats total.
  induction ms as [| r ms IH]; intros stats total; cbn [fold_left allCorrespondences flat_map].
  - cbn. split; [lia |]. split; [lia |]. split; [reflexivity |].
    intros Hd. split; [exact Hd | lia].
  - rewrite countResult_step.
    destruct (counters_countMapping_fold nist (MappingEngine.nistMappings r) stats
                (total + MappingEngine.processingTime r)%Q) as (Wb & Wm & Wt & Wf).
    destruct (fold_left (countMapping nist) (MappingEngine.nistMappings r)
                (stats, (total + MappingEngine.processingTime r)%Q)) as [stats1 total1].
    cbn [fst] in Wb, Wm, Wf, Wt.
    destruct (IH stats1 total1) as (Hb & Hm & Ht & Hf).
    cbv zeta in Hb, Hm, Hf, Ht |- *.
    fold (allCorrespondences ms).
    rewrite Hb, Hm, Ht, Wb, Wm, Wt, !filter_app, !length_app.
    split; [lia |]. split; [lia |]. split; [reflexivity |].
    intros Hd. destruct (Wf Hd) as [Hd1 Hsum1]. destruct (Hf Hd1) as [Hd' Hsum].
    split; [exact Hd' |]. rewrite Hsum, Hsum1. lia.
Qed.

Lemma filedUnderOwnName_filed (nist : list ControlService.NISTControl)
    (m : MappingEngine.NistMapping) :
  filedUnderOwnName nist m = true -> filed nist m = true.
Proof.
  unfold filedUnderOwnName, filed.
  destruct (find _ nist) as [c |] eqn:Hf; [| discriminate].
  intros _. apply find_some in Hf. apply existsb_exists. now exists c.
Qed.

Lemma filed_filedUnderOwnName (nist : list ControlService.NISTControl)
    (m : MappingEngine.NistMapping) :
  Forall (fun c => inherited (ControlService.family c) = false) nist ->
  filedUnderOwnName nist m = filed nist m.
Proof.
  intros Hn. unfold filedUnderOwnName, filed.
  induction Hn as [| c l Hc _ IH]; cbn [find existsb]; [reflexivity |].
  destruct (String.eqb (ControlService.nist_id c) (MappingEngine.nistControlId m)).
  - now rewrite Hc.
  - exact IH.
Qed.

Lemma allConfidences_length (ms : list MappingEngine.MappingResult) :
  length (Spec.allConfidences ms) = length (allCorrespondences ms).
Proof.
  unfold Spec.allConfidences, allCorrespondences.
  induction ms as [| r ms IH]; [reflexivity |].
  cbn [flat_map]. now rewrite !length_app, length_map, IH.
Qed.
End SummaryFacts.

Module FilterFacts.
Import ReportService ReportExport.

Lemma kept_again (keep : MappingEngine.MappingResult -> bool)
    (entries : list MappingEngine.MappingResult) :
  filter keep (filter keep entries) = filter keep entries.
Proof.
  induction entries as [| entry entries IH]; [reflexivity |].
  cbn [filter]. destruct (keep entry) eqn:Hk; [| exact IH].
  cbn [filter]. now rewrite Hk, IH.
Qed.

Lemma kept_in_either_order (keep keep' : MappingEngine.MappingResult -> bool)
    (entries : list MappingEngine.MappingResult) :
  filter keep (filter keep' entries) = filter keep' (filter keep entries).
Proof.
  induction entries as [| entry entries IH]; [reflexivity |].
  cbn [filter].
  destruct (keep entry) eqn:Hk; destruct (keep' entry) eqn:Hk'; cbn [filter];
    rewrite ?Hk, ?Hk', IH; reflexivity.
Qed.
End FilterFacts.

Module CsvFacts.
Import Js JsString ReportExport View.

Lemma undoubleQuotes_doubleQuotes (v : string) :
  undoubleQuotes (doubleQuotes v ++ String doubleQuote EmptyString) = v.
Proof.
  induction v as [| c v IH].
  - reflexivity.
  - cbn [doubleQuotes].
    destruct (Ascii.eqb_spec c doubleQuote) as [-> | Hc].
    + cbn [String.append undoubleQuotes]. rewrite Ascii.eqb_refl. now rewrite IH.
    + cbn [String.append undoubleQuotes].
      apply Ascii.eqb_neq in Hc. rewrite Hc. now rewrite IH.
Qed.

Lemma countQuotes_doubleQuotes (v : string) :
  countQuotes (doubleQuotes v) = 2 * countQuotes v.
Proof.
  induction v as [| c v IH]; [reflexivity |].
  cbn [doubleQuotes countQuotes].
  destruct (Ascii.eqb c doubleQuote) eqn:Hc; cbn [countQuotes].
  - rewrite Ascii.eqb_refl, IH. lia.
  - rewrite Hc, IH. lia.
Qed.

Lemma countQuotes_app (s t : string) :
  countQuotes (s ++ t) = countQuotes s + countQuotes t.
Proof.
  induction s as [| c s IH]; [reflexivity |].
  cbn [String.append countQuotes]. rewrite IH. lia.
Qed.

Lemma length_doubleQuotes (v : string) :
  String.length v <= String.length (doubleQuotes v).
Proof.
  induction v as [| c v IH]; [constructor |].
  cbn [doubleQuotes]. destruct (Ascii.eqb c doubleQuote); cbn [String.length]; lia.
Qed.

Lemma length_quoted (s t : string) :
  String.length (s ++ t) = String.length s + String.length t.
Proof.
  induction s as [| c s IH]; [reflexivity |].
  cbn [String.append String.length]. now rewrite IH.
Qed.

Lemma countQuotes_none (v : string) :
  hasChar doubleQuote v = false -> countQuotes v = 0.
Proof.
  induction v as [| c v IH]; [reflexivity |].
  cbn [hasChar countQuotes]. intros H. apply orb_false_iff in H.
  destruct H as [Hc Hv]. rewrite Hc. now rewrite IH.
Qed.
End CsvFacts.

(** Property X26.  The counters of [generateSummaryStats].
    [totalISMControls] is the number of entries of the report and
    [totalMappings] the number of their correspondences.  The six bands of
    the confidence distribution count every correspondence once: they add up
    to [totalMappings].  [manualOverrides] is the number of correspondences
    with the override flag.  The family distribution is a plain object: it
    counts the correspondences whose target is, letter for letter, the id of
    a control of the report, under the family of the first such control,
    unless the object inherits the name of the family; under such a name it
    holds a text and no count, or nothing.  So the counts add up to
    [totalMappings] at most, and to the number of correspondences whose
    target is the id of a control of the report when no control of the
    report has such a family. *)
Theorem generateSummaryStats_counts_every_correspondence :
  forall reportData : ReportService.ReportData,
    let stats := ReportService.generateSummaryStats reportData in
    let all := View.allCorrespondences (ReportService.mappings reportData) in
    let nist := ReportService.nistControls reportData in
    ReportService.totalISMControls stats = length (ReportService.mappings reportData)
    /\ ReportService.totalMappings stats = length all
    /\ View.bandTotal (ReportService.confidenceDistribution stats) = length all
    /\ ReportService.manualOverrides stats
       = length (filter MappingEngine.isManualOverride all)
    /\ View.familyTotal (ReportService.familyDistribution stats)
       = length (filter (View.filedUnderOwnName nist) all)
    /\ View.familyTotal (ReportService.familyDistribution stats)
       <= ReportService.totalMappings stats
    /\ (forall family n,
          JsMap.get family (ReportService.familyDistribution stats)
          = Some (ReportService.Counted n) ->
          ReportService.inherited family = false)
    /\ (Forall (fun c => ReportService.inherited (ControlService.family c) = false) nist ->
        View.familyTotal (ReportService.familyDistribution stats)
        = length (filter (View.filed nist) all)).
Proof.
  intros reportData stats all nist. subst stats all nist.
  unfold ReportService.generateSummaryStats.
  match goal with
  | |- context [fold_left (ReportService.countResult ?n) ?ms (?s, ?t)] =>
      destruct (SummaryFacts.counters_countResult_fold n ms s t) as (Hb & Hm & Ht & Hf);
      destruct (ReportFacts.report_countResult_fold n ms s t) as (Hc & _);
      destruct (fold_left (ReportService.countResult n) ms (s, t)) as [stats total]
  end.
  cbn [fst ReportService.totalISMControls ReportService.totalMappings
       ReportService.confidenceDistribution ReportService.manualOverrides
       ReportService.familyDistribution] in Hb, Hm, Hf, Ht, Hc |- *.
  assert (Hempty : View.textsUnderInheritedNames JsMap.empty) by (intros name v; discriminate).
  destruct (Hf Hempty) as [Hd Hsum].
  change (View.familyTotal JsMap.empty) with 0 in Hsum.
  change (View.bandTotal ReportService.emptyDistribution) with 0 in Hb.
  cbn [Nat.add] in Hb, Hm, Hsum, Hc.
  rewrite SummaryFacts.allConfidences_length in Hc.
  split; [exact Ht |]. split; [exact Hc |]. split; [exact Hb |]. split; [exact Hm |].
  split; [exact Hsum |].
  split; [rewrite Hsum, Hc; apply filter_length_le |].
  split.
  - intros family n Hget.
    destruct (ReportService.inherited family) eqn:Hi; [| reflexivity].
    apply (Hd _ _ Hget) in Hi. discriminate.
  - intros Hn. rewrite Hsum. f_equal. apply filter_ext.
    intros m. now apply SummaryFacts.filed_filedUnderOwnName.
Qed.

(** A report whose one reference control has the family [constructor]: its
    correspondence is not counted, and the distribution holds a text under
    that name. *)
Lemma generateSummaryStats_counts_every_correspondence_witness :
  let reportData :=
    {| ReportService.mappings := JsMap.values (MappingEngine.mappingResults
                                                 Examples.engineOfTwoEntries);
       ReportService.metadata := ReportService.metadata Examples.reportOfEmptyEntry;
       ReportService.ismControls := [];
       ReportService.nistControls :=
         [ Examples.nist "AC-1" "Policy and Procedures" "Policy";
           {| ControlService.nist_id := "AC-3"; ControlService.nist_title := "Enforcement";
              ControlService.nist_description := "Access enforcement";
              ControlService.family := "constructor";
              ControlService.class := "operational" |} ];
       ReportService.generatedAt := 5000 |} in
  let stats := ReportService.generateSummaryStats reportData in
  ReportService.totalMappings stats = 3
  /\ ReportService.familyDistribution stats
     = [("Access Control", ReportService.Counted 1);
        ("constructor", ReportService.NotACount)]
  /\ View.familyTotal (ReportService.familyDistribution stats) = 1
  /\ View.familyTotal
       (ReportService.familyDistribution
          (ReportService.generateSummaryStats
             {| ReportService.mappings := ReportService.mappings reportData;
                ReportService.metadata := ReportService.metadata reportData;
                ReportService.ismControls := [];
                ReportService.nistControls :=
                  [Examples.nist "AC-1" "Policy and Procedures" "Policy"];
                ReportService.generatedAt := 5000 |})) = 1.
Proof.
  cbv zeta. split; [reflexivity |]. split; [reflexivity |]. split; [reflexivity |].
  match goal with
  | |- View.familyTotal (ReportService.familyDistribution
                           (ReportService.generateSummaryStats ?rd)) = _ =>
      rewrite (proj2 (proj2 (proj2 (proj2 (proj2 (proj2 (proj2
                 (generateSummaryStats_counts_every_correspondence rd))))))))
  end.
  - reflexivity.
  - repeat constructor.
Defined.

(** Property X27.  [applyFilters] keeps entries and changes none, and filtering again with
    the same options changes nothing.  Under a confidence threshold every
    entry that is kept has a correspondence at or above the threshold, so an
    entry without correspondences is dropped whatever the threshold is.  Under
    a list of families that is not empty every entry that is kept belongs to
    a control of the report whose family is in the list.  Without a
    threshold, an absent list of families and an empty one both leave the
    report as it is. *)
Theorem applyFilters_keeps_matching_entries :
  forall (reportData : ReportService.ReportData) (options : ReportExport.ExportOptions),
    let filtered := ReportExport.applyFilters reportData options in
    ReportExport.applyFilters filtered options = filtered
    /\ (forall threshold,
          ReportExport.confidenceThreshold options = Some threshold ->
          Forall (fun entry =>
                    MappingEngine.nistMappings entry <> []
                    /\ exists nm, In nm (MappingEngine.nistMappings entry)
                                  /\ (threshold <= MappingEngine.confidence nm)%Q)
                 (ReportService.mappings filtered))
    /\ (forall families,
          ReportExport.controlFamilies options = Some families -> families <> [] ->
          Forall (fun entry =>
                    exists control,
                      In control (ReportService.ismControls reportData)
                      /\ ControlService.ism_id control = MappingEngine.ismControlId entry
                      /\ In (ControlService.controlFamily control) families)
                 (ReportService.mappings filtered))
    /\ (ReportExport.confidenceThreshold options = None ->
        (ReportExport.controlFamilies options = None
         \/ ReportExport.controlFamilies options = Some []) ->
        filtered = reportData).
Proof.
  intros reportData options filtered. subst filtered.
  unfold ReportExport.applyFilters.
  cbn [ReportService.mappings ReportService.ismControls ReportService.metadata
       ReportService.nistControls ReportService.generatedAt].
  split; [| split; [| split]].
  - f_equal.
    destruct (ReportExport.confidenceThreshold options) as [threshold |];
      destruct (ReportExport.controlFamilies options) as [[| family families] |];
      try reflexivity.
    + apply FilterFacts.kept_again.
    + rewrite (FilterFacts.kept_in_either_order
                 (ReportExport.reachesThreshold threshold)
                 (ReportExport.inFamilies (ReportService.ismControls reportData)
                    (family :: families))
                 (filter (ReportExport.reachesThreshold threshold)
                    (ReportService.mappings reportData))).
      now rewrite !FilterFacts.kept_again.
    + apply FilterFacts.kept_again.
    + apply FilterFacts.kept_again.
  - intros threshold Ht. rewrite Ht.
    assert (Hall : Forall (fun entry =>
                     MappingEngine.nistMappings entry <> []
                     /\ exists nm, In nm (MappingEngine.nistMappings entry)
                                   /\ (threshold <= MappingEngine.confidence nm)%Q)
                   (filter (ReportExport.reachesThreshold threshold)
                      (ReportService.mappings reportData))).
    { apply Forall_forall. intros entry Hin. apply filter_In in Hin.
      destruct Hin as [_ Hr]. unfold ReportExport.reachesThreshold in Hr.
      apply existsb_exists in Hr. destruct Hr as (nm & Hnm & Hc).
      apply Qle_bool_iff in Hc. split.
      - intros E. rewrite E in Hnm. exact Hnm.
      - now exists nm. }
    destruct (ReportExport.controlFamilies options) as [[| family families] |];
      try exact Hall.
    apply Forall_forall. intros entry Hin. apply filter_In in Hin.
    exact (proj1 (Forall_forall _ _) Hall entry (proj1 Hin)).
  - intros families Hf Hne. rewrite Hf.
    destruct families as [| family families]; [contradiction |].
    apply Forall_forall. intros entry Hin. apply filter_In in Hin.
    destruct Hin as [_ Hin]. unfold ReportExport.inFamilies in Hin.
    destruct (find _ (ReportService.ismControls reportData)) as [control |] eqn:Hfind;
      [| discriminate].
    apply find_some in Hfind. destruct Hfind as [Hc Hid].
    apply String.eqb_eq in Hid.
    apply existsb_exists in Hin. destruct Hin as (f & Hfin & Heq).
    apply String.eqb_eq in Heq. subst f.
    now exists control.
  - intros Ht Hf. rewrite Ht.
    destruct Hf as [Hf | Hf]; rewrite Hf; now destruct reportData.
Qed.

(** Property X28.  [escapeCsvValue] loses nothing: reading the escaped field back, taking
    off the enclosing quotes and halving the doubled ones, returns the value,
    so that two values with the same escaped field are equal.  The number of
    double quotes of an escaped field is even.  The value is left as it is
    exactly when it has no comma, no double quote and no line feed. *)
Theorem escapeCsvValue_can_be_read_back :
  forall value : string,
    View.readCsvField (ReportExport.escapeCsvValue value) = value
    /\ Nat.even (View.countQuotes (ReportExport.escapeCsvValue value)) = true
    /\ (forall other,
          ReportExport.escapeCsvValue other = ReportExport.escapeCsvValue value ->
          other = value)
    /\ (ReportExport.escapeCsvValue value = value
        <-> JsString.hasChar ReportExport.comma value = false
            /\ JsString.hasChar ReportExport.doubleQuote value = false
            /\ JsString.hasChar ReportExport.lineFeed value = false).
Proof.
  assert (Hback : forall value,
             View.readCsvField (ReportExport.escapeCsvValue value) = value).
  { intros value. unfold ReportExport.escapeCsvValue.
    destruct (JsString.hasChar ReportExport.comma value
              || JsString.hasChar ReportExport.doubleQuote value
              || JsString.hasChar ReportExport.lineFeed value) eqn:Hq.
    - cbn [View.readCsvField]. rewrite Ascii.eqb_refl.
      apply CsvFacts.undoubleQuotes_doubleQuotes.
    - apply orb_false_iff in Hq. destruct Hq as [Hq _].
      apply orb_false_iff in Hq. destruct Hq as [_ Hq].
      destruct value as [| c rest]; [reflexivity |].
      cbn [View.readCsvField]. cbn [JsString.hasChar] in Hq.
      apply orb_false_iff in Hq. destruct Hq as [Hc _]. now rewrite Hc. }
  intros value.
  split; [apply Hback |]. split; [| split].
  - unfold ReportExport.escapeCsvValue.
    destruct (JsString.hasChar ReportExport.comma value
              || JsString.hasChar ReportExport.doubleQuote value
              || JsString.hasChar ReportExport.lineFeed value) eqn:Hq.
    + cbn [View.countQuotes]. rewrite Ascii.eqb_refl.
      rewrite CsvFacts.countQuotes_app, CsvFacts.countQuotes_doubleQuotes.
      cbn [View.countQuotes]. rewrite Ascii.eqb_refl.
      replace (1 + (2 * View.countQuotes value + (1 + 0)))
        with (2 * (1 + View.countQuotes value)) by lia.
      rewrite Nat.even_mul. reflexivity.
    + apply orb_false_iff in Hq. destruct Hq as [Hq _].
      apply orb_false_iff in Hq. destruct Hq as [_ Hq].
      now rewrite CsvFacts.countQuotes_none.
  - intros other H. rewrite <- (Hback other), H. apply Hback.
  - unfold ReportExport.escapeCsvValue.
    destruct (JsString.hasChar ReportExport.comma value) eqn:H1;
      destruct (JsString.hasChar ReportExport.doubleQuote value) eqn:H2;
      destruct (JsString.hasChar ReportExport.lineFeed value) eqn:H3; cbn [orb].
    8: tauto.
    all: split; [intros E | intros (? & ? & ?); discriminate].
    all: exfalso; assert (Hl := f_equal String.length E);
      cbn [String.length] in Hl; rewrite CsvFacts.length_quoted in Hl;
      cbn [String.length] in Hl;
      assert (Hd := CsvFacts.length_doubleQuotes value); lia.
Qed.

Lemma applyFilters_keeps_matching_entries_witness :
  let options :=
    {| ReportExport.format := ReportExport.json; ReportExport.includeReasoning := None;
       ReportExport.confidenceThreshold := Some 0%Q;
       ReportExport.controlFamilies := None |} in
  ReportService.mappings Examples.reportOfEmptyEntry = [Examples.emptyEntry]
  /\ Forall (fun entry => MappingEngine.nistMappings entry <> [])
            (ReportService.mappings
               (ReportExport.applyFilters Examples.reportOfEmptyEntry options)).
Proof.
  intros options. split; [reflexivity |].
  assert (H := proj1 (proj2 (applyFilters_keeps_matching_entries
                               Examples.reportOfEmptyEntry options)) 0%Q eq_refl).
  revert H. apply Forall_impl. intros entry [Hne _]. exact Hne.
Defined.

Lemma escapeCsvValue_can_be_read_back_witness :
  ReportExport.escapeCsvValue "Policy, procedures" <> "Policy, procedures"%string
  /\ View.readCsvField (ReportExport.escapeCsvValue "Policy, procedures")
     = "Policy, procedures"%string.
Proof.
  split.
  - intros E.
    apply (proj2 (proj2 (proj2 (escapeCsvValue_can_be_read_back "Policy, procedures"))))
      in E.
    destruct E as [E _]. discriminate E.
  - exact (proj1 (escapeCsvValue_can_be_read_back "Policy, procedures")).
Defined.

Module SampleFacts.
Import Js JsString OllamaPrompt.

Section Order.
Variable localeCompare : string -> string -> comparison.
Variable families : list string.

Lemma insertControl_Permutation (x : ControlService.NISTControl)
    (sorted : list ControlService.NISTControl) :
  Permutation (x :: sorted) (insertControl localeCompare families x sorted).
Proof.
  induction sorted as [| y rest IH]; cbn [insertControl]; [reflexivity |].
  destruct (compareControls localeCompare families x y); try reflexivity.
  rewrite perm_swap. now apply perm_skip.
Qed.

Lemma sortControls_Permutation (controls : list ControlService.NISTControl) :
  Permutation controls (sortControls localeCompare families controls).
Proof.
  induction controls as [| x rest IH]; cbn [sortControls]; [constructor |].
  rewrite <- insertControl_Permutation. now apply perm_skip.
Qed.

(** The relevant controls of [sorted] come first. *)
Lemma insertControl_relevant_first (x : ControlService.NISTControl)
    (sorted : list ControlService.NISTControl) :
  sorted = filter (isRelevant families) sorted
           ++ filter (fun c => negb (isRelevant families c)) sorted ->
  insertControl localeCompare families x sorted
  = filter (isRelevant families) (insertControl localeCompare families x sorted)
    ++ filter (fun c => negb (isRelevant families c))
         (insertControl localeCompare families x sorted).
Proof.
  induction sorted as [| y rest IH]; intros Hs.
  - cbn [insertControl filter]. destruct (isRelevant families x); reflexivity.
  - assert (Hrest : rest = filter (isRelevant families) rest
                           ++ filter (fun c => negb (isRelevant families c)) rest
                    /\ (isRelevant families y = false ->
                        filter (isRelevant families) rest = [])).
    { cbn [filter] in Hs. destruct (isRelevant families y) eqn:Hy; cbn [negb] in Hs.
      - cbn [app] in Hs. injection Hs as Hs'. split; [exact Hs' | discriminate].
      - assert (Hnone : filter (isRelevant families) rest = []).
        { destruct (filter (isRelevant families) rest) as [| z zs] eqn:Hf; [reflexivity |].
          cbn [app] in Hs. injection Hs as Hz Hzs.
          assert (Hin : In z (filter (isRelevant families) rest))
            by (rewrite Hf; now left).
          apply filter_In in Hin. destruct Hin as [_ Hz']. subst z. congruence. }
        split; [| intros _; exact Hnone].
        rewrite Hnone in Hs |- *. cbn [app] in Hs |- *. injection Hs as Hs'. exact Hs'. }
    destruct Hrest as [Hrest Hnone].
    cbn [insertControl]. unfold compareControls.
    destruct (isRelevant families x) eqn:Hx; destruct (isRelevant families y) eqn:Hy;
      cbn [andb negb].
    + destruct (localeCompare (ControlService.nist_id x) (ControlService.nist_id y)).
      * cbn [filter]. rewrite Hx, Hy. cbn [negb app]. now rewrite <- Hrest.
      * cbn [filter]. rewrite Hx, Hy. cbn [negb app]. now rewrite <- Hrest.
      * cbn [filter]. rewrite Hy. cbn [negb app]. f_equal. now apply IH.
    + cbn [filter]. rewrite Hx, Hy. cbn [negb]. rewrite (Hnone eq_refl). cbn [app].
      f_equal. f_equal. rewrite Hrest at 1. now rewrite (Hnone eq_refl).
    + cbn [filter]. rewrite Hy. cbn [negb app]. f_equal. now apply IH.
    + assert (Hn := Hnone eq_refl).
      destruct (localeCompare (ControlService.nist_id x) (ControlService.nist_id y)).
      * cbn [filter]. rewrite Hx, Hy, Hn. cbn [negb app]. f_equal. f_equal.
        rewrite Hrest at 1. now rewrite Hn.
      * cbn [filter]. rewrite Hx, Hy, Hn. cbn [negb app]. f_equal. f_equal.
        rewrite Hrest at 1. now rewrite Hn.
      * assert (Hi : filter (isRelevant families)
                       (insertControl localeCompare families x rest) = []).
        { clear - Hn Hx. induction rest as [| z rest IHr]; cbn [insertControl filter].
          - now rewrite Hx.
          - cbn [filter] in Hn. destruct (isRelevant families z) eqn:Hz; [discriminate |].
            destruct (compareControls localeCompare families x z); cbn [filter];
              rewrite ?Hx, ?Hz; auto. }
        cbn [filter]. rewrite Hy, Hi. cbn [negb app]. f_equal.
        rewrite (IH Hrest) at 1. now rewrite Hi.
Qed.

Lemma sortControls_relevant_first (controls : list ControlService.NISTControl) :
  sortControls localeCompare families controls
  = filter (isRelevant families) (sortControls localeCompare families controls)
    ++ filter (fun c => negb (isRelevant families c))
         (sortControls localeCompare families controls).
Proof.
  induction controls as [| x rest IH]; cbn [sortControls]; [reflexivity |].
  now apply insertControl_relevant_first.
Qed.
End Order.

Lemma relevantFamilies_in_table (ismControl : ControlService.ISMControl) (f : string) :
  In f (relevantFamilies ismControl) -> In f (flat_map snd keywordMappings).
Proof.
  unfold relevantFamilies.
  induction keywordMappings as [| [keyword families] table IH]; cbn [flat_map snd];
    [trivial |].
  intros H. apply in_app_iff in H. apply in_app_iff.
  destruct H as [H | H]; [| right; now apply IH].
  destruct (includes keyword (controlText ismControl)); [now left | contradiction].
Qed.

Lemma table_codes (f : string) :
  In f (flat_map snd keywordMappings) ->
  toUpperCase f = f /\ String.length f = 2.
Proof.
  intros H.
  assert (Hall : forallb (fun f => String.eqb (toUpperCase f) f
                                   && Nat.eqb (String.length f) 2)
                         (flat_map snd keywordMappings) = true) by reflexivity.
  rewrite forallb_forall in Hall. apply Hall in H.
  apply andb_true_iff in H. destruct H as [Hu Hl].
  split; [now apply String.eqb_eq | now apply Nat.eqb_eq].
Qed.
End SampleFacts.

(** Property X29.  [prioritizeRelevantControls] rearranges the controls, losing and adding
    none, with the controls of the relevant families in front of all the
    others, whatever order [localeCompare] gives within the two groups; the
    sample of the prompt holds 15 controls, or all of them when there are
    fewer.  A control counts as relevant only when the part of its id before
    the first hyphen is one of the family codes of the table, which are two
    letters in upper case: a control whose id is written in lower case is
    never relevant. *)
Theorem prioritizeRelevantControls_puts_relevant_families_first :
  forall (localeCompare : string -> string -> comparison)
         (nistControls : list ControlService.NISTControl)
         (ismControl : ControlService.ISMControl),
    let sorted :=
      OllamaPrompt.prioritizeRelevantControls localeCompare nistControls ismControl in
    let relevant := OllamaPrompt.isRelevant (OllamaPrompt.relevantFamilies ismControl) in
    Permutation nistControls sorted
    /\ sorted = filter relevant sorted ++ filter (fun c => negb (relevant c)) sorted
    /\ length (OllamaPrompt.sampledControls localeCompare ismControl nistControls)
       = Nat.min 15 (length nistControls)
    /\ (forall control,
          relevant control = true ->
          let code := JsString.beforeFirst "-" (ControlService.nist_id control) in
          Js.toUpperCase code = code /\ String.length code = 2
          /\ In code (flat_map snd OllamaPrompt.keywordMappings)).
Proof.
  intros localeCompare nistControls ismControl sorted relevant. subst sorted relevant.
  unfold OllamaPrompt.sampledControls, OllamaPrompt.prioritizeRelevantControls.
  split; [apply SampleFacts.sortControls_Permutation |].
  split; [apply SampleFacts.sortControls_relevant_first |].
  split.
  - rewrite length_firstn. f_equal. symmetry.
    apply Permutation_length, SampleFacts.sortControls_Permutation.
  - intros control Hr. cbv zeta. unfold OllamaPrompt.isRelevant in Hr.
    apply existsb_exists in Hr. destruct Hr as (f & Hf & Heq).
    apply String.eqb_eq in Heq. rewrite Heq.
    assert (Hin := SampleFacts.relevantFamilies_in_table ismControl f Hf).
    destruct (SampleFacts.table_codes f Hin) as [Hu Hl].
    split; [exact Hu |]. split; [exact Hl | exact Hin].
Qed.

Lemma prioritizeRelevantControls_puts_relevant_families_first_witness :
  let policy := Examples.ism "ism-001" "Access control policy" in
  let upper := Examples.nist "AC-1" "Access Control Policy" "Policy" in
  let lower := Examples.nist "ac-1" "Access Control Policy" "Policy" in
  OllamaPrompt.isRelevant (OllamaPrompt.relevantFamilies policy) upper = true
  /\ Js.toUpperCase (JsString.beforeFirst "-" (ControlService.nist_id upper)) = "AC"%string
  /\ OllamaPrompt.isRelevant (OllamaPrompt.relevantFamilies policy) lower = false.
Proof.
  intros policy upper lower.
  assert (Hu : OllamaPrompt.isRelevant (OllamaPrompt.relevantFamilies policy) upper = true)
    by reflexivity.
  split; [exact Hu |]. split.
  - destruct (proj2 (proj2 (proj2 (prioritizeRelevantControls_puts_relevant_families_first
                (fun _ _ => Eq) [upper; lower] policy))) upper Hu) as [Hc _].
    rewrite Hc. reflexivity.
  - reflexivity.
Defined.
